(** * Airport management API: booking, pricing, registration and import

    A shallow embedding of the view functions of [app.py] (Flask with
    Flask-SQLAlchemy over SQLite) and the properties of the seat inventory,
    the pricing helper, OTP-gated registration and the employee import.

    Conventions of the embedding.
    - A JSON body is a record with one field per key the view reads.  A key
      whose value the view converts itself ([int(...)], [str(...)]) carries a
      [pyval]; the other keys carry text, [None] standing for a key that is
      absent or null.  JSON arrays, objects and floats in those positions are
      outside the model.
    - Python's [int] applied to a [str] is the section variable [int_of_str];
      nothing is assumed about it.
    - [str.lower] is modelled on ASCII letters.  On the other code points
      Python yields non-ASCII text (or an "i" or "k" followed or produced by
      a non-ASCII source), which never matters for a comparison against
      ".edu" or the owner address.
    - [base * 0.8] is IEEE-754 binary64 arithmetic, taken from [SpecFloat].
    - The database is the list of rows of each table in insertion order.
      A view works on the session's pending copy; [commit] makes it the stored
      state, and what is pending when the view returns is dropped (the
      scoped session is removed when the request context is torn down).
      Column width is not a limit of the model.
    - An INTEGER of the storage engine has 64 bits, and the driver raises
      [OverflowError] when it is given a larger Python [int] to bind; the
      exception leaves the view and the answer is 500.  This is modelled
      for every integer a view writes, and for the key that
      [change_password], [update_user] and [update_flight] look up.  The
      other lookups ([get_user], [delete_flight], [create_booking],
      [get_user_bookings], [list_user_feedback]) take their key within the
      range: for a key beyond it the code answers 500 where the model
      answers as for an unknown key.  The integers of stored rows are
      within the range.
    - The clock ([datetime.utcnow]) and the random draw of the OTP are inputs
      of the view that uses them; the airports file and the file system are
      read through [Env]. *)

From Stdlib Require Import ZArith List String Ascii Bool Lia DecimalString.
From Stdlib Require Import Floats.SpecFloat.
From Stdlib Require Import Sorted Permutation.
Import ListNotations.
Local Open Scope Z_scope.

(** ** Python values and built-ins *)

Inductive pyval : Type :=
| PNone
| PBool (b : bool)
| PInt (z : Z)
| PStr (s : string).

Inductive exn : Type :=
| TypeError | ValueError | KeyError | OverflowError | AttributeError | IntegrityError
| IsADirectoryError | PermissionError | UnicodeDecodeError.

Inductive pyresult (A : Type) : Type :=
| Ok (a : A)
| Raise (e : exn).
Arguments Ok {A} a.
Arguments Raise {A} e.

(** The range of an SQLite INTEGER. *)
Definition INT64_MIN : Z := -9223372036854775808.
Definition INT64_MAX : Z := 9223372036854775807.

Definition fits_int64 (z : Z) : bool :=
  ((INT64_MIN <=? z) && (z <=? INT64_MAX))%bool.

(** The integers among the parameters of a statement. *)
Definition given (o : option Z) : list Z :=
  match o with
  | Some z => [z]
  | None => []
  end.

(** Truth value of an object in a boolean context. *)
Definition truthy (v : pyval) : bool :=
  match v with
  | PNone => false
  | PBool b => b
  | PInt z => negb (z =? 0)
  | PStr s => negb (s =? "")%string
  end.

(** Truth value of [data.get(k)] for a text key. *)
Definition present (o : option string) : bool :=
  match o with
  | Some s => negb (s =? "")%string
  | None => false
  end.

(** The text of a key known to be present. *)
Definition text (o : option string) : string :=
  match o with
  | Some s => s
  | None => ""%string
  end.

(** A text key that is missing (or null) or empty. *)
Definition missing (o : option string) : Prop :=
  o = None \/ o = Some ""%string.

(** [str(v)] *)
Definition py_str (v : pyval) : string :=
  match v with
  | PNone => "None"%string
  | PBool true => "True"%string
  | PBool false => "False"%string
  | PInt z => NilZero.string_of_int (Z.to_int z)
  | PStr s => s
  end.

Definition lower_ascii (c : ascii) : ascii :=
  if (("A" <=? c) && (c <=? "Z"))%char
  then ascii_of_nat (nat_of_ascii c + 32)
  else c.

(** [s.lower()] *)
Fixpoint lower (s : string) : string :=
  match s with
  | EmptyString => EmptyString
  | String c s' => String (lower_ascii c) (lower s')
  end.

(** [s.endswith(suffix)] *)
Definition endswith (s suffix : string) : bool :=
  let n := String.length s in
  let m := String.length suffix in
  ((m <=? n)%nat && (substring (n - m) m s =? suffix)%string)%bool.

Definition is_letter (lo up c : ascii) : Prop := c = lo \/ c = up.

(** The address ends with ".edu", the three letters in either case. *)
Definition edu_address (email : string) : Prop :=
  exists (p : string) (c1 c2 c3 : ascii),
    email = (p ++ String "." (String c1 (String c2 (String c3 EmptyString))))%string
    /\ is_letter "e" "E" c1 /\ is_letter "d" "D" c2 /\ is_letter "u" "U" c3.

(** [os.path.join(a, b)] on a POSIX system. *)
Definition os_path_join (a b : string) : string :=
  if prefix "/" b then b
  else if ((a =? "")%string || endswith a "/")%bool then (a ++ b)%string
  else (a ++ "/" ++ b)%string.

(** A reader of plain ASCII decimal literals with an optional sign: the
    instance of Python's [int] on [str] used to run the views on examples. *)
Definition digit_of (c : ascii) : option Z :=
  let n := Z.of_nat (nat_of_ascii c) in
  if ((48 <=? n) && (n <=? 57))%bool then Some (n - 48) else None.

Fixpoint digits_value (s : string) (acc : Z) : option Z :=
  match s with
  | EmptyString => Some acc
  | String c s' =>
      match digit_of c with
      | Some d => digits_value s' (10 * acc + d)
      | None => None
      end
  end.

Definition ascii_decimal (s : string) : option Z :=
  match s with
  | EmptyString => None
  | String "-" (String c s') => option_map Z.opp (digits_value (String c s') 0)
  | String "+" (String c s') => digits_value (String c s') 0
  | _ => digits_value s 0
  end.

(** ** Binary64 arithmetic of [int(base * 0.8)] *)

Definition prec : Z := 53.
Definition emax : Z := 1024.

(** Conversion of an [int] operand to [float]: correctly rounded,
    [OverflowError] when the result is not finite. *)
Definition float_of_int (z : Z) : option spec_float :=
  match binary_normalize prec emax z 0 false with
  | S754_infinity _ => None
  | f => Some f
  end.

(** The literal [0.8], that is [0x1.999999999999ap-1]. *)
Definition float_0_8 : spec_float := S754_finite false 7205759403792794 (-53).

(** [int(f)]: truncation toward zero; no value for infinities and NaN. *)
Definition int_of_float (f : spec_float) : option Z :=
  match f with
  | S754_zero _ => Some 0
  | S754_finite s m e =>
      Some (cond_Zopp s (match e with
                         | Zneg p => Zpos m / 2 ^ Zpos p
                         | _ => Zpos m * 2 ^ e
                         end))
  | _ => None
  end.

(** [int(z * f)] for an [int] [z] and a [float] [f]. *)
Definition int_mul_float (z : Z) (f : spec_float) : option Z :=
  match float_of_int z with
  | Some x => int_of_float (SFmul prec emax x f)
  | None => None
  end.

(** Round-half-even choice of the quotient of [m] by [2 ^ n]; the
    arithmetic reading of one rounding step, used to reason about [SFmul]. *)
Definition rne_choice (m n : Z) : Z :=
  let q := m / 2 ^ n in
  let r := m mod 2 ^ n in
  if r =? 0 then q
  else match 2 * r ?= 2 ^ n with
       | Lt => q
       | Eq => if Z.even q then q else q + 1
       | Gt => q + 1
       end.

(** ** Models *)

(** The value [generate_password_hash] stores for a clear text; the salt is
    abstracted, no view modelled here looks into the hash. *)
Inductive password_hash : Type :=
| Hashed (password : string).

Record User : Type := {
  u_id : Z;
  u_name : string;
  u_email : string;
  u_password_hash : password_hash;
  u_role : string;
  u_age : option Z;
  u_phone : option string;
  u_is_verified : bool
}.

Record OtpCode : Type := {
  o_id : Z;
  o_phone : string;
  o_code : string;
  o_created_at : Z;
  o_is_used : bool
}.

Record Flight : Type := {
  f_id : Z;
  f_code : string;
  f_source : string;
  f_destination : string;
  f_departure_time : string;
  f_arrival_time : string;
  f_total_seats : Z;
  f_available_seats : Z;
  f_status : string
}.

Record Booking : Type := {
  b_id : Z;
  b_user_id : Z;
  b_flight_id : Z;
  b_num_seats : Z;
  b_status : string;
  b_created_at : Z;
  b_base_price : Z;
  b_final_price : Z;
  b_discount_reason : option string
}.

Record Database : Type := {
  users : list User;
  otp_codes : list OtpCode;
  flights : list Flight;
  bookings : list Booking
}.

Definition empty_db : Database :=
  {| users := []; otp_codes := []; flights := []; bookings := [] |}.

Record Airport : Type := {
  a_code : string;
  a_city : string;
  a_country : string
}.

(** A row of [csv.DictReader]: for each column the views read, [None] when
    the header lacks the column, [Some None] when the row is too short to
    reach it (the reader fills in [None]), [Some (Some s)] for a cell. *)
Record csv_row : Type := {
  c_name : option (option string);
  c_email : option (option string);
  c_password : option (option string);
  c_role : option (option string)
}.

(** What is at a path of the file system: nothing ([os.path.exists] is
    false); something that exists but that [open] or the reader refuses with
    an exception (a directory, a file without read permission, bytes that
    are not UTF-8); or a CSV file with its rows. *)
Inductive file_state : Type :=
| NoFile
| Unreadable (e : exn)
| Rows (rows : list csv_row).

(** What the views read from outside the database. *)
Record Env : Type := {
  airports_file : list Airport;          (* contents of airports.json *)
  root_path : string;                    (* app.root_path *)
  csv_files : string -> file_state       (* what is at a path *)
}.

(** ** Responses *)

Inductive Body : Type :=
| BError (msg : string)
| BMessageOtp (msg otp : string)
| BUser (u : User)
| BFlight (f : Flight)
| BBooking (b : Booking) (u : User) (f : Flight)
| BImport (created skipped_existing : Z)
| BNotFound
| BServerError (e : exn).

Record Response : Type := {
  status : Z;
  body : Body
}.

Definition error (code : Z) (msg : string) : Response :=
  {| status := code; body := BError msg |}.

(** ** The request session *)

Record Session : Type := {
  committed : Database;
  pending : Database
}.

Inductive flow (A : Type) : Type :=
| Next (a : A)
| Done (r : Response).
Arguments Next {A} a.
Arguments Done {A} r.

Definition M (A : Type) : Type := Session -> flow A * Session.

Definition ret {A : Type} (a : A) : M A := fun s => (Next a, s).

Definition bind {A B : Type} (m : M A) (k : A -> M B) : M B :=
  fun s =>
    match m s with
    | (Next a, s') => k a s'
    | (Done r, s') => (Done r, s')
    end.

Notation "x <- m ;; k" := (bind m (fun x => k))
  (at level 61, m at next level, right associativity).
Notation "m ;;; k" := (bind m (fun _ => k))
  (at level 61, right associativity).

(** [return jsonify(...), code] before the end of the view. *)
Definition reply {A : Type} (r : Response) : M A := fun s => (Done r, s).

(** [abort(404)] of [get_or_404]. *)
Definition abort_404 {A : Type} : M A :=
  reply {| status := 404; body := BNotFound |}.

(** An exception no handler catches: the framework answers 500. *)
Definition raise {A : Type} (e : exn) : M A :=
  reply {| status := 500; body := BServerError e |}.

Definition query {A : Type} (f : Database -> A) : M A :=
  fun s => (Next (f (pending s)), s).

Definition modify (f : Database -> Database) : M unit :=
  fun s => (Next tt, {| committed := committed s; pending := f (pending s) |}).

(** [db.session.commit()] *)
Definition commit : M unit :=
  fun s => (Next tt, {| committed := pending s; pending := pending s |}).

(** The driver binds the integers of the statements of a flush before they
    run, and raises [OverflowError] for one outside the 64-bit range.  The
    exception leaves the view, so nothing that is pending gets committed. *)
Definition bound (zs : list Z) : M unit :=
  if forallb fits_int64 zs then ret tt else raise OverflowError.

(** One request: the view runs on a fresh session over the stored state; the
    stored state afterwards is what was committed. *)
Definition run_request (view : M Response) (db : Database) : Response * Database :=
  match view {| committed := db; pending := db |} with
  | (Next r, s) => (r, committed s)
  | (Done r, s) => (r, committed s)
  end.

(** ** Tables *)

Definition with_users (us : list User) (db : Database) : Database :=
  {| users := us; otp_codes := otp_codes db; flights := flights db; bookings := bookings db |}.

Definition with_otp_codes (os : list OtpCode) (db : Database) : Database :=
  {| users := users db; otp_codes := os; flights := flights db; bookings := bookings db |}.

Definition with_flights (fs : list Flight) (db : Database) : Database :=
  {| users := users db; otp_codes := otp_codes db; flights := fs; bookings := bookings db |}.

Definition with_bookings (bs : list Booking) (db : Database) : Database :=
  {| users := users db; otp_codes := otp_codes db; flights := flights db; bookings := bs |}.

(** The integer primary key given to a new row: one more than the largest
    key of the table. *)
Definition next_id {A : Type} (id : A -> Z) (rows : list A) : Z :=
  1 + fold_right (fun r acc => Z.max (id r) acc) 0 rows.

(** Writing a mapped object back: the row with its primary key is replaced. *)
Fixpoint replace_row {A : Type} (id : A -> Z) (k : Z) (new : A) (rows : list A) : list A :=
  match rows with
  | [] => []
  | r :: rs => if id r =? k then new :: rs else r :: replace_row id k new rs
  end.

(** [User.query.filter_by(email=email).first()] *)
Definition user_by_email (email : string) (db : Database) : option User :=
  find (fun u => (u_email u =? email)%string) (users db).

(** [User.query.get(id)] *)
Definition user_get (id : Z) (db : Database) : option User :=
  find (fun u => u_id u =? id) (users db).

(** [Flight.query.get(id)] *)
Definition flight_get (id : Z) (db : Database) : option Flight :=
  find (fun f => f_id f =? id) (flights db).

Definition otp_matches (phone code : string) (o : OtpCode) : bool :=
  ((o_phone o =? phone)%string && (o_code o =? code)%string && negb (o_is_used o))%bool.

Definition later (best : option OtpCode) (o : OtpCode) : option OtpCode :=
  match best with
  | None => Some o
  | Some b => if o_created_at b <? o_created_at o then Some o else Some b
  end.

(** [OtpCode.query.filter_by(phone=, code=, is_used=False)
      .order_by(OtpCode.created_at.desc()).first()];
    among rows of equal [created_at] the earliest inserted is taken. *)
Definition otp_latest_unused (phone code : string) (db : Database) : option OtpCode :=
  fold_left later (filter (otp_matches phone code) (otp_codes db)) None.

Definition mark_used (o : OtpCode) : OtpCode :=
  {| o_id := o_id o; o_phone := o_phone o; o_code := o_code o;
     o_created_at := o_created_at o; o_is_used := true |}.

Definition set_available_seats (n : Z) (f : Flight) : Flight :=
  {| f_id := f_id f; f_code := f_code f; f_source := f_source f;
     f_destination := f_destination f; f_departure_time := f_departure_time f;
     f_arrival_time := f_arrival_time f; f_total_seats := f_total_seats f;
     f_available_seats := n; f_status := f_status f |}.

(** ** Settings *)

Definition OWNER_ADMIN_EMAIL : string := "admin@mail.com".
Definition BASE_PRICE_PER_SEAT : Z := 5000.

(** ** Request bodies *)

Record otp_json : Type := {
  oj_phone : option string
}.

Record register_json : Type := {
  rj_name : option string;
  rj_email : option string;
  rj_password : option string;
  rj_phone : option string;
  rj_age : pyval;
  rj_otp : pyval
}.

Record flight_json : Type := {
  fj_code : option string;
  fj_source : option string;
  fj_destination : option string;
  fj_departure_time : option string;
  fj_arrival_time : option string;
  fj_total_seats : pyval;
  fj_status : option string
}.

(** The body of a flight update: [None] is a key that is not in the body. *)
Record flight_update_json : Type := {
  uj_code : option string;
  uj_source : option string;
  uj_destination : option string;
  uj_departure_time : option string;
  uj_arrival_time : option string;
  uj_total_seats : option Z;
  uj_available_seats : option Z;
  uj_status : option string
}.

(** [bj_user_id] and [bj_flight_id] are subscripted ([data["user_id"]]), so
    [None] is a missing key; [bj_num_seats] is [None] when the key is missing
    and [Some PNone] when it is null. *)
Record booking_json : Type := {
  bj_user_id : option Z;
  bj_flight_id : option Z;
  bj_num_seats : option pyval
}.

Record import_json : Type := {
  ij_path : option string
}.

(** ** Pricing helper *)

Definition calculate_price (user : User) (num_seats : Z)
  : pyresult (Z * Z * option string) :=
  let base := BASE_PRICE_PER_SEAT * num_seats in
  if endswith (lower (u_email user)) ".edu" then
    match int_mul_float base float_0_8 with
    | Some final => Ok (base, final, Some "Student .edu discount (20%)"%string)
    | None => Raise OverflowError
    end
  else Ok (base, base, None).

Section Views.

(** Python's [int] on a [str] argument: the number, or nothing where
    [ValueError] is raised. *)
Variable int_of_str : string -> option Z.

(** [int(v)] *)
Definition py_int (v : pyval) : pyresult Z :=
  match v with
  | PNone => Raise TypeError
  | PBool b => Ok (if b then 1 else 0)
  | PInt z => Ok z
  | PStr s => match int_of_str s with
              | Some z => Ok z
              | None => Raise ValueError
              end
  end.

(** [f"{r:06d}"] *)
Definition format_06d (r : Z) : string :=
  let digits := NilZero.string_of_int (Z.to_int (Z.abs r)) in
  let sign := if r <? 0 then "-"%string else ""%string in
  let width := (6 - String.length sign - String.length digits)%nat in
  (sign ++ string_of_list_ascii (repeat "0"%char width) ++ digits)%string.

(** *** POST /api/request-otp; [r] is the number [random.randint] draws. *)
Definition request_otp (now r : Z) (data : otp_json) : M Response :=
  let phone := oj_phone data in
  if negb (present phone) then reply (error 400 "phone is required")
  else
    let code := format_06d r in
    id <- query (fun db => next_id o_id (otp_codes db)) ;;
    let otp := {| o_id := id; o_phone := text phone; o_code := code;
                  o_created_at := now; o_is_used := false |} in
    modify (fun db => with_otp_codes (otp_codes db ++ [otp]) db) ;;;
    commit ;;;
    ret {| status := 200; body := BMessageOtp "OTP generated" code |}.

(** [all([name, email, password, phone, otp_code])] *)
Definition required_register_fields (data : register_json) : bool :=
  (present (rj_name data) && present (rj_email data) && present (rj_password data)
   && present (rj_phone data) && truthy (rj_otp data))%bool.

(** The age of the new user: [None] when the key is absent or null,
    [int(age_raw)] otherwise. *)
Definition parse_age (age_raw : pyval) : pyresult (option Z) :=
  match age_raw with
  | PNone => Ok None
  | _ => match py_int age_raw with
         | Ok a => Ok (Some a)
         | Raise e => Raise e
         end
  end.

(** The role decided on the backend. *)
Definition role_for (email : string) : string :=
  if (lower email =? lower OWNER_ADMIN_EMAIL)%string
  then "admin"%string else "passenger"%string.

(** The row [register] adds. *)
Definition new_user (data : register_json) (age : option Z) (id : Z) : User :=
  {| u_id := id; u_name := text (rj_name data); u_email := text (rj_email data);
     u_password_hash := Hashed (text (rj_password data));
     u_role := role_for (text (rj_email data)); u_age := age;
     u_phone := Some (text (rj_phone data)); u_is_verified := true |}.

(** [otp.is_used = True] on the session. *)
Definition consume (otp : OtpCode) (db : Database) : Database :=
  with_otp_codes (replace_row o_id (o_id otp) (mark_used otp) (otp_codes db)) db.

(** *** POST /api/register *)
Definition register (data : register_json) : M Response :=
  let email := rj_email data in
  let phone := rj_phone data in
  let age_raw := rj_age data in
  let otp_code := rj_otp data in
  if negb (required_register_fields data)
  then reply (error 400 "name, email, password, phone and otp are required")
  else
    existing <- query (user_by_email (text email)) ;;
    match existing with
    | Some _ => reply (error 400 "Email already registered")
    | None =>
        otp <- query (otp_latest_unused (text phone) (py_str otp_code)) ;;
        match otp with
        | None => reply (error 400 "Invalid or used OTP")
        | Some otp =>
            modify (consume otp) ;;;
            age <- match parse_age age_raw with
                   | Ok age => ret age
                   | Raise ValueError => reply (error 400 "age must be a number")
                   | Raise e => raise e
                   end ;;
            id <- query (fun db => next_id u_id (users db)) ;;
            let user := new_user data age id in
            modify (fun db => with_users (users db ++ [user]) db) ;;;
            bound (given age) ;;;
            commit ;;;
            commit ;;;
            ret {| status := 201; body := BUser user |}
        end
    end.

Definition valid_codes (env : Env) : list string :=
  map a_code (airports_file env).

(** [x in valid_codes] *)
Definition code_in (x : string) (codes : list string) : bool :=
  existsb (String.eqb x) codes.

(** [all(data.get(k) for k in required)] *)
Definition required_flight_fields (data : flight_json) : bool :=
  (present (fj_code data) && present (fj_source data)
   && present (fj_destination data) && present (fj_departure_time data)
   && present (fj_arrival_time data) && truthy (fj_total_seats data))%bool.

(** *** POST /api/flights.  A status that is absent or null ends as the
    column default. *)
Definition create_flight (env : Env) (data : flight_json) : M Response :=
  if negb (required_flight_fields data)
  then reply (error 400 "Missing required flight fields")
  else
    let codes := valid_codes env in
    if (negb (code_in (text (fj_source data)) codes)
        || negb (code_in (text (fj_destination data)) codes))%bool
    then reply (error 400 "Invalid airport code")
    else if (text (fj_source data) =? text (fj_destination data))%string
    then reply (error 400 "Source and destination cannot be same")
    else
      match py_int (fj_total_seats data) with
      | Raise e => raise e
      | Ok total_seats =>
          id <- query (fun db => next_id f_id (flights db)) ;;
          let flight := {| f_id := id;
                           f_code := text (fj_code data);
                           f_source := text (fj_source data);
                           f_destination := text (fj_destination data);
                           f_departure_time := text (fj_departure_time data);
                           f_arrival_time := text (fj_arrival_time data);
                           f_total_seats := total_seats;
                           f_available_seats := total_seats;
                           f_status := match fj_status data with
                                       | Some st => st
                                       | None => "On Time"%string
                                       end |} in
          modify (fun db => with_flights (flights db ++ [flight]) db) ;;;
          bound [total_seats; total_seats] ;;;
          commit ;;;
          ret {| status := 201; body := BFlight flight |}
      end.

Definition or_keep {A : Type} (new : option A) (old : A) : A :=
  match new with
  | Some v => v
  | None => old
  end.

(** The [setattr] loop over the updatable fields. *)
Definition apply_update (data : flight_update_json) (f : Flight) : Flight :=
  {| f_id := f_id f;
     f_code := or_keep (uj_code data) (f_code f);
     f_source := or_keep (uj_source data) (f_source f);
     f_destination := or_keep (uj_destination data) (f_destination f);
     f_departure_time := or_keep (uj_departure_time data) (f_departure_time f);
     f_arrival_time := or_keep (uj_arrival_time data) (f_arrival_time f);
     f_total_seats := or_keep (uj_total_seats data) (f_total_seats f);
     f_available_seats := or_keep (uj_available_seats data) (f_available_seats f);
     f_status := or_keep (uj_status data) (f_status f) |}.

(** ["k" in data and data["k"] not in valid_codes] *)
Definition bad_code (field : option string) (codes : list string) : bool :=
  match field with
  | Some c => negb (code_in c codes)
  | None => false
  end.

(** *** PUT /api/flights/<flight_id>.  The flush writes the seat counts
    that the body sets. *)
Definition update_flight (env : Env) (flight_id : Z) (data : flight_update_json)
  : M Response :=
  bound [flight_id] ;;;
  found <- query (flight_get flight_id) ;;
  match found with
  | None => abort_404
  | Some flight =>
      let codes := valid_codes env in
      if bad_code (uj_source data) codes
      then reply (error 400 "Invalid source airport")
      else if bad_code (uj_destination data) codes
      then reply (error 400 "Invalid destination airport")
      else
        let flight' := apply_update data flight in
        modify (fun db => with_flights (replace_row f_id (f_id flight) flight' (flights db)) db) ;;;
        bound (given (uj_total_seats data) ++ given (uj_available_seats data)) ;;;
        commit ;;;
        ret {| status := 200; body := BFlight flight' |}
  end.

(** [int(data.get("num_seats", 1))] *)
Definition requested_seats (data : booking_json) : pyresult Z :=
  py_int (match bj_num_seats data with
          | Some v => v
          | None => PInt 1
          end).

(** The stored state after a booking [b] that turned [flight] into
    [flight']. *)
Definition booked (db : Database) (flight flight' : Flight) (b : Booking) : Database :=
  with_bookings (bookings db ++ [b])
    (with_flights (replace_row f_id (f_id flight) flight' (flights db)) db).

(** *** POST /api/bookings.  The flush writes the seat count and the prices
    of the booking and the seats left on the flight. *)
Definition create_booking (now : Z) (data : booking_json) : M Response :=
  match bj_user_id data with
  | None => raise KeyError
  | Some user_id =>
      found_user <- query (user_get user_id) ;;
      match found_user with
      | None => abort_404
      | Some user =>
          match bj_flight_id data with
          | None => raise KeyError
          | Some flight_id =>
              found_flight <- query (flight_get flight_id) ;;
              match found_flight with
              | None => abort_404
              | Some flight =>
                  match requested_seats data with
                  | Raise e => raise e
                  | Ok num_seats =>
                      if num_seats <=? 0
                      then reply (error 400 "Number of seats must be positive")
                      else if f_available_seats flight <? num_seats
                      then reply (error 400 "Not enough seats available")
                      else
                        match calculate_price user num_seats with
                        | Raise e => raise e
                        | Ok (base_price, final_price, reason) =>
                            id <- query (fun db => next_id b_id (bookings db)) ;;
                            let booking :=
                              {| b_id := id; b_user_id := u_id user;
                                 b_flight_id := f_id flight;
                                 b_num_seats := num_seats;
                                 b_status := "Confirmed";
                                 b_created_at := now;
                                 b_base_price := base_price;
                                 b_final_price := final_price;
                                 b_discount_reason := reason |} in
                            let flight' :=
                              set_available_seats
                                (f_available_seats flight - num_seats) flight in
                            modify (fun db =>
                                      with_flights
                                        (replace_row f_id (f_id flight) flight' (flights db)) db) ;;;
                            modify (fun db => with_bookings (bookings db ++ [booking]) db) ;;;
                            bound [num_seats; base_price; final_price;
                                   f_available_seats flight - num_seats] ;;;
                            commit ;;;
                            ret {| status := 201; body := BBooking booking user flight' |}
                        end
                  end
              end
          end
      end
  end.

(** [row.get(k)] *)
Definition row_get (cell : option (option string)) : option string :=
  match cell with
  | Some v => v
  | None => None
  end.

(** [row.get(k, default)] *)
Definition row_get_default (cell : option (option string)) (default : string)
  : option string :=
  match cell with
  | Some v => v
  | None => Some default
  end.

(** A row the loop passes over: [not email or not name]. *)
Definition row_blank (row : csv_row) : bool :=
  (negb (present (row_get (c_email row))) || negb (present (row_get (c_name row))))%bool.

(** The user a row describes, under the primary key [id]. *)
Definition row_user (row : csv_row) (password role : string) (id : Z) : User :=
  {| u_id := id; u_name := text (row_get (c_name row));
     u_email := text (row_get (c_email row));
     u_password_hash := Hashed password;
     u_role := role; u_age := None; u_phone := None;
     u_is_verified := true |}.

(** The loop over the rows of the reader.  A password that is [None] makes
    [generate_password_hash] raise; a role that is [None] violates the NOT
    NULL column at the next flush.  Either way the request ends with
    nothing committed. *)
Fixpoint import_rows (rows : list csv_row) (created skipped : Z) : M (Z * Z) :=
  match rows with
  | [] => ret (created, skipped)
  | row :: rest =>
      let email := row_get (c_email row) in
      let password := row_get_default (c_password row) "password123" in
      let role := row_get_default (c_role row) "staff" in
      if row_blank row
      then import_rows rest created skipped
      else
        existing <- query (user_by_email (text email)) ;;
        match existing with
        | Some _ => import_rows rest created (skipped + 1)
        | None =>
            match password, role with
            | None, _ => raise AttributeError
            | Some _, None => raise IntegrityError
            | Some password, Some role =>
                id <- query (fun db => next_id u_id (users db)) ;;
                let u := row_user row password role id in
                modify (fun db => with_users (users db ++ [u]) db) ;;;
                import_rows rest (created + 1) skipped
            end
        end
  end.

(** *** POST /api/admin/import-employees *)
Definition import_employees (env : Env) (data : import_json) : M Response :=
  let path := ij_path data in
  if negb (present path) then reply (error 400 "path is required")
  else
    let abs_path := os_path_join (root_path env) (text path) in
    match csv_files env abs_path with
    | NoFile => reply (error 400 ("File not found: " ++ abs_path))
    | Unreadable e => raise e
    | Rows rows =>
        counts <- import_rows rows 0 0 ;;
        commit ;;;
        ret {| status := 200; body := BImport (fst counts) (snd counts) |}
    end.

(** The same registration body with another age. *)
Definition with_age (age : pyval) (data : register_json) : register_json :=
  {| rj_name := rj_name data; rj_email := rj_email data;
     rj_password := rj_password data; rj_phone := rj_phone data;
     rj_age := age; rj_otp := rj_otp data |}.

(** The stored state after a registration that consumed [otp] and created
    [user]. *)
Definition registered (db : Database) (otp : OtpCode) (user : User) : Database :=
  with_users (users (consume otp db) ++ [user]) (consume otp db).

(** The number of OTP rows a registration with this phone and code could
    still consume. *)
Definition unused_count (phone code : string) (db : Database) : nat :=
  List.length (filter (otp_matches phone code) (otp_codes db)).

(** A row whose password and role are each either a cell with text or a
    column the file does not have. *)
Definition row_complete (row : csv_row) : Prop :=
  c_password row <> Some None /\ c_role row <> Some None.

(** The password and the role a complete row ends with. *)
Definition row_password (row : csv_row) : string :=
  text (row_get_default (c_password row) "password123").

Definition row_role (row : csv_row) : string :=
  text (row_get_default (c_role row) "staff").

(** [u] is a user the import created from one of [rows], none of [before]
    having its address. *)
Definition imported_from (rows : list csv_row) (before : list User) (u : User) : Prop :=
  u_is_verified u = true /\ u_age u = None /\ u_phone u = None
  /\ (exists row, In row rows /\ row_blank row = false
                   /\ u_name u = text (row_get (c_name row))
                   /\ u_email u = text (row_get (c_email row))
                   /\ u_password_hash u = Hashed (row_password row)
                   /\ u_role u = row_role row)
  /\ (forall v, In v before -> u_email v <> u_email u).

(** The address of a row. *)
Definition row_email (row : csv_row) : string := text (row_get (c_email row)).

(** The address of [row] is taken when the loop reaches it: a user stored
    before the call has it, or a row of the file before [row] that has a
    name and an address. *)
Definition row_taken (db : Database) (before : list csv_row) (row : csv_row) : bool :=
  (existsb (fun u => (u_email u =? row_email row)%string) (users db)
   || existsb (fun r => negb (row_blank r) && (row_email r =? row_email row)%string)
        before)%bool.

(** The rows the amended claim has created, and those it has skipped. *)
Definition row_created (db : Database) (before : list csv_row) (row : csv_row) : bool :=
  (negb (row_blank row) && negb (row_taken db before row))%bool.

Definition row_skipped (db : Database) (before : list csv_row) (row : csv_row) : bool :=
  (negb (row_blank row) && row_taken db before row)%bool.

(** The rows of a file that satisfy [p], in the order of the file; [p] is
    told the rows before the one it judges. *)
Fixpoint rows_where (p : list csv_row -> csv_row -> bool) (before rows : list csv_row)
  : list csv_row :=
  match rows with
  | [] => []
  | row :: rest =>
      if p before row then row :: rows_where p (before ++ [row]) rest
      else rows_where p (before ++ [row]) rest
  end.

(** The users of a list of rows under consecutive primary keys from [id]. *)
Fixpoint users_of_rows (id : Z) (rows : list csv_row) : list User :=
  match rows with
  | [] => []
  | row :: rest =>
      row_user row (row_password row) (row_role row) id :: users_of_rows (id + 1) rest
  end.

(** The specification's [NotFoundError] is the answer 404. *)
Definition NotFoundError (r : Response) : Prop := status r = 404.

(** ** Sequences of flight and booking calls *)

Inductive api_call : Type :=
| CreateFlight (env : Env) (data : flight_json)
| UpdateFlight (env : Env) (flight_id : Z) (data : flight_update_json)
| CreateBooking (now : Z) (data : booking_json).

Definition run_call (c : api_call) (db : Database) : Response * Database :=
  match c with
  | CreateFlight env data => run_request (create_flight env data) db
  | UpdateFlight env flight_id data => run_request (update_flight env flight_id data) db
  | CreateBooking now data => run_request (create_booking now data) db
  end.

(** The stored state after a sequence of calls. *)
Definition run_calls (cs : list api_call) (db : Database) : Database :=
  fold_left (fun d c => snd (run_call c d)) cs db.

(** [0 <= available_seats <= total_seats] for every flight. *)
Definition seats_ok (f : Flight) : Prop :=
  0 <= f_available_seats f <= f_total_seats f.

Definition seats_inv (db : Database) : Prop :=
  Forall seats_ok (flights db).

(** Calls that cannot unsettle the seat counters: a flight is created with a
    seat count that is not negative, and an update leaves both counters
    alone. *)
Definition keeps_seats (c : api_call) : Prop :=
  match c with
  | CreateFlight _ data =>
      forall total : Z, py_int (fj_total_seats data) = Ok total -> 0 <= total
  | UpdateFlight _ _ data =>
      uj_total_seats data = None /\ uj_available_seats data = None
  | CreateBooking _ _ => True
  end.

End Views.

(** ** Sample data *)

Definition student : User :=
  {| u_id := 1; u_name := "Ada"; u_email := "ada@uni.EDU";
     u_password_hash := Hashed "pw"; u_role := "passenger";
     u_age := None; u_phone := Some "9999999999"%string; u_is_verified := true |}.

Definition traveller : User :=
  {| u_id := 2; u_name := "Bob"; u_email := "bob@mail.com";
     u_password_hash := Hashed "pw"; u_role := "passenger";
     u_age := Some 30; u_phone := Some "8888888888"%string; u_is_verified := true |}.

Definition del_bom : Flight :=
  {| f_id := 1; f_code := "AI101"; f_source := "DEL"; f_destination := "BOM";
     f_departure_time := "2025-01-01T10:00"; f_arrival_time := "2025-01-01T12:00";
     f_total_seats := 10; f_available_seats := 10; f_status := "On Time" |}.

Definition sample_db : Database :=
  {| users := [student; traveller]; otp_codes := [];
     flights := [del_bom]; bookings := [] |}.

Definition book (user_id flight_id : Z) (num_seats : option pyval) : booking_json :=
  {| bj_user_id := Some user_id; bj_flight_id := Some flight_id;
     bj_num_seats := num_seats |}.

Definition sample_airports : list Airport :=
  [ {| a_code := "DEL"; a_city := "Delhi"; a_country := "India" |};
    {| a_code := "BOM"; a_city := "Mumbai"; a_country := "India" |};
    {| a_code := "DXB"; a_city := "Dubai"; a_country := "UAE" |};
    {| a_code := "LHR"; a_city := "London"; a_country := "UK" |};
    {| a_code := "JFK"; a_city := "New York"; a_country := "USA" |} ].

Definition new_flight (source destination : string) (total_seats : pyval) : flight_json :=
  {| fj_code := Some "AI101"%string; fj_source := Some source;
     fj_destination := Some destination;
     fj_departure_time := Some "2025-01-01T10:00"%string;
     fj_arrival_time := Some "2025-01-01T12:00"%string;
     fj_total_seats := total_seats; fj_status := None |}.

Definition sample_env : Env :=
  {| airports_file := sample_airports; root_path := "/srv/backend";
     csv_files := fun _ => NoFile |}.

Definition set_available (n : Z) : flight_update_json :=
  {| uj_code := None; uj_source := None; uj_destination := None;
     uj_departure_time := None; uj_arrival_time := None;
     uj_total_seats := None; uj_available_seats := Some n; uj_status := None |}.

Definition delay : flight_update_json :=
  {| uj_code := None; uj_source := None; uj_destination := None;
     uj_departure_time := None; uj_arrival_time := None;
     uj_total_seats := None; uj_available_seats := None;
     uj_status := Some "Delayed"%string |}.

Definition otp_row (id : Z) (code : string) (created_at : Z) (is_used : bool) : OtpCode :=
  {| o_id := id; o_phone := "9999999999"; o_code := code;
     o_created_at := created_at; o_is_used := is_used |}.

Definition otp_db : Database :=
  {| users := [traveller];
     otp_codes := [otp_row 1 "123456" 100 false; otp_row 2 "123456" 200 false;
                   otp_row 3 "654321" 300 true];
     flights := []; bookings := [] |}.

Definition signup (email : string) (age otp : pyval) : register_json :=
  {| rj_name := Some "Cleo"%string; rj_email := Some email;
     rj_password := Some "secret"%string; rj_phone := Some "9999999999"%string;
     rj_age := age; rj_otp := otp |}.

Definition cell (s : string) : option (option string) := Some (Some s).

Definition employee (name email : string) (role : option (option string)) : csv_row :=
  {| c_name := cell name; c_email := cell email; c_password := None; c_role := role |}.

(** A file with the columns name, email and role: two new rows and one whose
    address [traveller] already has. *)
Definition employees_csv : list csv_row :=
  [ employee "Dana" "dana@airport.com" (cell "staff");
    employee "Bob" "bob@mail.com" (cell "staff");
    employee "Eli" "eli@airport.com" (cell "security") ].

(** A row that names the role "admin". *)
Definition admins_csv : list csv_row :=
  [ employee "Eve" "eve@elsewhere.com" (cell "admin") ].

(** A row too short to reach the password and role columns of its header. *)
Definition short_csv : list csv_row :=
  [ {| c_name := cell "Fay"; c_email := cell "fay@airport.com";
       c_password := Some None; c_role := Some None |} ].

(** A row of a file with the columns name, email, password and role. *)
Definition full (name email password role : string) : csv_row :=
  {| c_name := cell name; c_email := cell email;
     c_password := cell password; c_role := cell role |}.

(** Such a file: a new row, a row whose address [traveller] has, a second
    new row, a row that repeats the address of the first, a row without a
    name, and a row with an empty password. *)
Definition roster_csv : list csv_row :=
  [ full "Dana" "dana@airport.com" "tower" "staff";
    full "Bob" "bob@mail.com" "apron" "staff";
    full "Eli" "eli@airport.com" "gate" "security";
    full "Dana Again" "dana@airport.com" "other" "admin";
    full "" "nobody@airport.com" "none" "staff";
    full "Gus" "gus@airport.com" "" "staff" ].

(** A file with the columns name and email only. *)
Definition names_csv : list csv_row :=
  [ {| c_name := cell "Hal"; c_email := cell "hal@airport.com";
       c_password := None; c_role := None |} ].

Definition csv_env : Env :=
  {| airports_file := sample_airports; root_path := "/srv/backend";
     csv_files := fun path =>
       if (path =? "/srv/backend/employees.csv")%string then Rows employees_csv
       else if (path =? "/srv/backend/admins.csv")%string then Rows admins_csv
       else if (path =? "/srv/backend/short.csv")%string then Rows short_csv
       else if (path =? "/srv/backend/roster.csv")%string then Rows roster_csv
       else if (path =? "/srv/backend/names.csv")%string then Rows names_csv
       else if (path =? "/srv/backend/uploads")%string then Unreadable IsADirectoryError
       else NoFile |}.

Definition import_from (path : string) : import_json := {| ij_path := Some path |}.

Definition otp_request : otp_json := {| oj_phone := Some "9999999999"%string |}.

(** * The other views

    The views below complete the API: login and password change, profile
    read and update, flight listing and deletion, the bookings of a user,
    feedback, baggage, the admin summary and the feedback export.  They use
    the same conventions.  Two more are needed.
    - [check_password_hash] is ideal: a stored hash accepts exactly the clear
      text it was made from.
    - Foreign keys are not enforced by the storage engine, and an ORM
      relationship whose target row does not exist reads as [None]; calling
      [to_dict] on it raises [AttributeError]. *)

(** ** Feedback and baggage *)

Record Feedback : Type := {
  k_id : Z;
  k_user_id : Z;
  k_message : string;
  k_rating : Z;
  k_created_at : Z
}.

Record Baggage : Type := {
  g_id : Z;
  g_tag_number : string;
  g_booking_id : option Z;
  g_status : string;
  g_last_location : string
}.

(** All six tables. *)
Record Store : Type := {
  core : Database;
  feedback : list Feedback;
  baggage : list Baggage
}.

Definition empty_store : Store :=
  {| core := empty_db; feedback := []; baggage := [] |}.

Definition with_core (db : Database) (st : Store) : Store :=
  {| core := db; feedback := feedback st; baggage := baggage st |}.

Definition with_feedback (fs : list Feedback) (st : Store) : Store :=
  {| core := core st; feedback := fs; baggage := baggage st |}.

Definition with_baggage (bs : list Baggage) (st : Store) : Store :=
  {| core := core st; feedback := feedback st; baggage := bs |}.

(** ** Answers *)

(** A line of the feedback export before the CSV writer formats it. *)
Record export_row : Type := {
  x_id : Z;
  x_user_name : string;
  x_user_email : string;
  x_rating : Z;
  x_message : string;
  x_created_at : Z
}.

Record summary : Type := {
  total_users : Z;
  total_passengers : Z;
  total_employees : Z;
  total_flights : Z;
  total_bookings : Z;
  total_feedback : Z
}.

Inductive Content : Type :=
| AError (msg : string)
| AMessage (msg : string)
| AUser (u : User)
| ALogin (u : User)
| AFlights (fs : list Flight)
| ABookings (bs : list (Booking * User * Flight))
| AFeedback (f : Feedback) (u : User)
| AFeedbackList (fs : list (Feedback * User))
| ABaggage (b : Baggage)
| ASummary (s : summary)
| ACsv (rows : list export_row)
| ANotFound
| AServerError (e : exn).

Record Answer : Type := {
  code : Z;
  content : Content
}.

Definition failure (c : Z) (msg : string) : Answer :=
  {| code := c; content := AError msg |}.

(** ** The request session over any state *)

Section Sessions.

Variable S : Type.

Record session : Type := {
  stored : S;
  working : S
}.

Inductive outcome (A : Type) : Type :=
| Go (a : A)
| Stop (r : Answer).

Definition V (A : Type) : Type := session -> outcome A * session.

Definition v_ret {A : Type} (a : A) : V A := fun s => (Go A a, s).

Definition v_bind {A B : Type} (m : V A) (k : A -> V B) : V B :=
  fun s =>
    match m s with
    | (Go _ a, s') => k a s'
    | (Stop _ r, s') => (Stop B r, s')
    end.

(** [return jsonify(...), code] before the end of the view. *)
Definition v_reply {A : Type} (r : Answer) : V A := fun s => (Stop A r, s).

(** [abort(404)] of [get_or_404]. *)
Definition v_abort_404 {A : Type} : V A :=
  v_reply {| code := 404; content := ANotFound |}.

(** An exception no handler catches. *)
Definition v_raise {A : Type} (e : exn) : V A :=
  v_reply {| code := 500; content := AServerError e |}.

Definition v_query {A : Type} (f : S -> A) : V A :=
  fun s => (Go A (f (working s)), s).

Definition v_modify (f : S -> S) : V unit :=
  fun s => (Go unit tt, {| stored := stored s; working := f (working s) |}).

(** [db.session.commit()] *)
Definition v_commit : V unit :=
  fun s => (Go unit tt, {| stored := working s; working := working s |}).

(** The driver's range check on the integers of a flush or of a lookup. *)
Definition v_bound (zs : list Z) : V unit :=
  if forallb fits_int64 zs then v_ret tt else v_raise OverflowError.

(** One request on the stored state. *)
Definition serve (view : V Answer) (st : S) : Answer * S :=
  match view {| stored := st; working := st |} with
  | (Go _ r, s) => (r, stored s)
  | (Stop _ r, s) => (r, stored s)
  end.

End Sessions.

Arguments Go {A} a.
Arguments Stop {A} r.
Arguments v_ret {S A} a.
Arguments v_bind {S A B} m k.
Arguments v_reply {S A} r.
Arguments v_abort_404 {S A}.
Arguments v_raise {S A} e.
Arguments v_query {S A} f.
Arguments v_modify {S} f.
Arguments v_commit {S}.
Arguments v_bound {S} zs.
Arguments serve {S} view st.
Arguments stored {S} s.
Arguments working {S} s.

Notation "x <~ m ;; k" := (v_bind m (fun x => k))
  (at level 61, m at next level, right associativity).
Notation "m ;;~ k" := (v_bind m (fun _ => k))
  (at level 61, right associativity).

(** ** Helpers *)

(** [check_password_hash(h, password)] *)
Definition check_password_hash (h : password_hash) (password : string) : bool :=
  match h with
  | Hashed p => (p =? password)%string
  end.

(** [session.delete] of a mapped row: the row with its primary key goes. *)
Fixpoint remove_row {A : Type} (id : A -> Z) (k : Z) (rows : list A) : list A :=
  match rows with
  | [] => []
  | r :: rs => if id r =? k then rs else r :: remove_row id k rs
  end.

(** [order_by]: a stable insertion sort, [first x y] telling that [x] may
    stand before [y]. *)
Fixpoint insert_by {A : Type} (first : A -> A -> bool) (x : A) (l : list A) : list A :=
  match l with
  | [] => [x]
  | y :: l' => if first x y then x :: l else y :: insert_by first x l'
  end.

Definition order_by {A : Type} (first : A -> A -> bool) (l : list A) : list A :=
  fold_right (insert_by first) [] l.

(** [created_at.desc()] and [created_at.asc()] *)
Definition desc {A : Type} (created_at : A -> Z) (x y : A) : bool :=
  created_at y <=? created_at x.

Definition asc {A : Type} (created_at : A -> Z) (x y : A) : bool :=
  created_at x <=? created_at y.

(** A list comprehension whose element expression may raise. *)
Fixpoint comprehension {A B : Type} (f : A -> pyresult B) (l : list A)
  : pyresult (list B) :=
  match l with
  | [] => Ok []
  | x :: l' =>
      match f x with
      | Raise e => Raise e
      | Ok y => match comprehension f l' with
                | Raise e => Raise e
                | Ok ys => Ok (y :: ys)
                end
      end
  end.

(** [Booking.to_dict]: the booking with its user and its flight. *)
Definition booking_to_dict (db : Database) (b : Booking)
  : pyresult (Booking * User * Flight) :=
  match user_get (b_user_id b) db with
  | None => Raise AttributeError
  | Some u =>
      match flight_get (b_flight_id b) db with
      | None => Raise AttributeError
      | Some f => Ok (b, u, f)
      end
  end.

(** [Feedback.to_dict]: the feedback with its user. *)
Definition feedback_to_dict (db : Database) (f : Feedback) : pyresult (Feedback * User) :=
  match user_get (k_user_id f) db with
  | None => Raise AttributeError
  | Some u => Ok (f, u)
  end.

(** ** Request bodies *)

Record login_json : Type := {
  lj_email : option string;
  lj_password : option string
}.

Record password_json : Type := {
  pj_user_id : option Z;
  pj_old_password : option string;
  pj_new_password : option string
}.

(** [nj_name] is [None] without the key, [Some None] for null; [nj_age] is
    [None] without the key. *)
Record profile_json : Type := {
  nj_name : option (option string);
  nj_age : option pyval
}.

(** The three keys are subscripted: [None] is a missing key, [Some None] a
    null. *)
Record feedback_json : Type := {
  kj_user_id : option (option Z);
  kj_message : option (option string);
  kj_rating : option (option Z)
}.

(** [gj_tag_number] is subscripted; the others are read with [get]. *)
Record baggage_json : Type := {
  gj_tag_number : option (option string);
  gj_booking_id : option Z;
  gj_status : option string;
  gj_last_location : option string
}.

(** ** Views on users *)

(** *** POST /api/login *)
Definition login (data : login_json) : V Database Answer :=
  let email := lj_email data in
  let password := lj_password data in
  if (negb (present email) || negb (present password))%bool
  then v_reply (failure 400 "email and password are required")
  else
    found <~ v_query (user_by_email (text email)) ;;
    match found with
    | None => v_reply (failure 401 "Invalid credentials")
    | Some user =>
        if negb (check_password_hash (u_password_hash user) (text password))
        then v_reply (failure 401 "Invalid credentials")
        else v_ret {| code := 200; content := ALogin user |}
    end.

Definition set_password_hash (h : password_hash) (u : User) : User :=
  {| u_id := u_id u; u_name := u_name u; u_email := u_email u;
     u_password_hash := h; u_role := u_role u; u_age := u_age u;
     u_phone := u_phone u; u_is_verified := u_is_verified u |}.

(** [not user_id] *)
Definition no_user_id (user_id : option Z) : bool :=
  match user_id with
  | Some z => z =? 0
  | None => true
  end.

(** *** POST /api/change-password *)
Definition change_password (data : password_json) : V Database Answer :=
  let old_password := pj_old_password data in
  let new_password := pj_new_password data in
  if (no_user_id (pj_user_id data) || negb (present old_password)
      || negb (present new_password))%bool
  then v_reply (failure 400 "user_id, old_password, and new_password are required")
  else
    let user_id := match pj_user_id data with Some z => z | None => 0 end in
    v_bound [user_id] ;;~
    found <~ v_query (user_get user_id) ;;
    match found with
    | None => v_reply (failure 404 "User not found")
    | Some user =>
        if negb (check_password_hash (u_password_hash user) (text old_password))
        then v_reply (failure 401 "Incorrect old password")
        else
          let user' := set_password_hash (Hashed (text new_password)) user in
          v_modify (fun db => with_users (replace_row u_id (u_id user) user' (users db)) db) ;;~
          v_commit ;;~
          v_ret {| code := 200; content := AMessage "Password updated successfully" |}
    end.


Definition set_name_age (name : string) (age : option Z) (u : User) : User :=
  {| u_id := u_id u; u_name := name; u_email := u_email u;
     u_password_hash := u_password_hash u; u_role := u_role u; u_age := age;
     u_phone := u_phone u; u_is_verified := u_is_verified u |}.

(** [age_raw in (None, "")] *)
Definition blank_age (age_raw : pyval) : bool :=
  match age_raw with
  | PNone => true
  | PStr s => (s =? "")%string
  | _ => false
  end.

Section UserViews.

Variable int_of_str : string -> option Z.

(** The age an update leaves on the user. *)
Definition updated_age (age : option pyval) (old : option Z) : pyresult (option Z) :=
  match age with
  | None => Ok old
  | Some age_raw =>
      if blank_age age_raw then Ok None
      else match py_int int_of_str age_raw with
           | Ok a => Ok (Some a)
           | Raise e => Raise e
           end
  end.

(** *** PUT /api/users/<user_id>.  The flush writes the age when the body
    carries one; a null name is set on the session object and is refused by
    the NOT NULL column when the statement runs. *)
Definition update_user (user_id : Z) (data : profile_json) : V Database Answer :=
  v_bound [user_id] ;;~
  found <~ v_query (user_get user_id) ;;
  match found with
  | None => v_abort_404
  | Some user =>
      let name := match nj_name data with
                  | Some v => v
                  | None => Some (u_name user)
                  end in
      age <~ match updated_age (nj_age data) (u_age user) with
             | Ok age => v_ret age
             | Raise ValueError => v_reply (failure 400 "age must be a number")
             | Raise e => v_raise e
             end ;;
      v_bound (match nj_age data with
               | Some _ => given age
               | None => []
               end) ;;~
      match name with
      | None => v_raise IntegrityError
      | Some name =>
          let user' := set_name_age name age user in
          v_modify (fun db => with_users (replace_row u_id (u_id user) user' (users db)) db) ;;~
          v_commit ;;~
          v_ret {| code := 200; content := AUser user' |}
      end
  end.

End UserViews.

(** ** Views on flights and bookings *)

(** *** GET /api/flights *)
Definition get_flights : V Database Answer :=
  fs <~ v_query flights ;;
  v_ret {| code := 200; content := AFlights fs |}.

(** *** DELETE /api/flights/<flight_id> *)
Definition delete_flight (flight_id : Z) : V Database Answer :=
  found <~ v_query (flight_get flight_id) ;;
  match found with
  | None => v_abort_404
  | Some flight =>
      v_modify (fun db => with_flights (remove_row f_id (f_id flight) (flights db)) db) ;;~
      v_commit ;;~
      v_ret {| code := 200; content := AMessage "Deleted" |}
  end.

(** [Booking.query.filter_by(user_id=user_id).order_by(Booking.created_at.desc()).all()] *)
Definition bookings_of (user_id : Z) (db : Database) : list Booking :=
  order_by (desc b_created_at) (filter (fun b => b_user_id b =? user_id) (bookings db)).

(** *** GET /api/bookings/user/<user_id> *)
Definition get_user_bookings (user_id : Z) : V Database Answer :=
  bs <~ v_query (bookings_of user_id) ;;
  db <~ v_query (fun db => db) ;;
  match comprehension (booking_to_dict db) bs with
  | Raise e => v_raise e
  | Ok dicts => v_ret {| code := 200; content := ABookings dicts |}
  end.

(** ** Views on feedback *)

(** *** POST /api/feedback.  The flush binds the user id and the rating, then
    the NOT NULL columns refuse a null; the row is committed before
    [to_dict] reads the user. *)
Definition create_feedback (now : Z) (data : feedback_json) : V Store Answer :=
  match kj_user_id data with
  | None => v_raise KeyError
  | Some user_id =>
      match kj_message data with
      | None => v_raise KeyError
      | Some message =>
          match kj_rating data with
          | None => v_raise KeyError
          | Some rating =>
              v_bound (given user_id ++ given rating) ;;~
              match user_id, message, rating with
              | Some user_id, Some message, Some rating =>
                  id <~ v_query (fun st => next_id k_id (feedback st)) ;;
                  let fb := {| k_id := id; k_user_id := user_id; k_message := message;
                               k_rating := rating; k_created_at := now |} in
                  v_modify (fun st => with_feedback (feedback st ++ [fb]) st) ;;~
                  v_commit ;;~
                  db <~ v_query core ;;
                  match feedback_to_dict db fb with
                  | Raise e => v_raise e
                  | Ok (f, u) => v_ret {| code := 201; content := AFeedback f u |}
                  end
              | _, _, _ => v_raise IntegrityError
              end
          end
      end
  end.

(** *** GET /api/feedback *)
Definition list_feedback : V Store Answer :=
  st <~ v_query (fun st => st) ;;
  match comprehension (feedback_to_dict (core st))
          (order_by (desc k_created_at) (feedback st)) with
  | Raise e => v_raise e
  | Ok dicts => v_ret {| code := 200; content := AFeedbackList dicts |}
  end.

(** *** GET /api/feedback/user/<user_id> *)
Definition list_user_feedback (user_id : Z) : V Store Answer :=
  st <~ v_query (fun st => st) ;;
  match comprehension (feedback_to_dict (core st))
          (order_by (desc k_created_at)
             (filter (fun f => k_user_id f =? user_id) (feedback st))) with
  | Raise e => v_raise e
  | Ok dicts => v_ret {| code := 200; content := AFeedbackList dicts |}
  end.

(** ** Views on baggage *)

(** [Baggage.query.filter_by(tag_number=tag_number).first()] *)
Definition baggage_by_tag (tag_number : string) (st : Store) : option Baggage :=
  find (fun b => (g_tag_number b =? tag_number)%string) (baggage st).

(** *** POST /api/baggage.  The flush binds the booking id; then a null tag
    violates NOT NULL and a tag already in the table violates the unique
    index. *)
Definition create_baggage (data : baggage_json) : V Store Answer :=
  match gj_tag_number data with
  | None => v_raise KeyError
  | Some None =>
      v_bound (given (gj_booking_id data)) ;;~
      v_raise IntegrityError
  | Some (Some tag_number) =>
      v_bound (given (gj_booking_id data)) ;;~
      taken <~ v_query (baggage_by_tag tag_number) ;;
      match taken with
      | Some _ => v_raise IntegrityError
      | None =>
          id <~ v_query (fun st => next_id g_id (baggage st)) ;;
          let bag := {| g_id := id; g_tag_number := tag_number;
                        g_booking_id := gj_booking_id data;
                        g_status := match gj_status data with
                                    | Some s => s
                                    | None => "Checked-in"%string
                                    end;
                        g_last_location := match gj_last_location data with
                                           | Some s => s
                                           | None => "N/A"%string
                                           end |} in
          v_modify (fun st => with_baggage (baggage st ++ [bag]) st) ;;~
          v_commit ;;~
          v_ret {| code := 201; content := ABaggage bag |}
      end
  end.

(** *** GET /api/baggage/<tag_number> *)
Definition get_baggage (tag_number : string) : V Store Answer :=
  found <~ v_query (baggage_by_tag tag_number) ;;
  match found with
  | None => v_reply (failure 404 "Not found")
  | Some bag => v_ret {| code := 200; content := ABaggage bag |}
  end.

(** ** Admin views *)

Definition count {A : Type} (rows : list A) : Z := Z.of_nat (List.length rows).

(** *** GET /api/admin/summary *)
Definition admin_summary : V Store Answer :=
  st <~ v_query (fun st => st) ;;
  let users_n := count (users (core st)) in
  let passengers_n :=
    count (filter (fun u => (u_role u =? "passenger")%string) (users (core st))) in
  v_ret {| code := 200;
           content := ASummary {| total_users := users_n;
                                  total_passengers := passengers_n;
                                  total_employees := users_n - passengers_n;
                                  total_flights := count (flights (core st));
                                  total_bookings := count (bookings (core st));
                                  total_feedback := count (feedback st) |} |}.

(** One line of the export: [f.user] must exist. *)
Definition export_line (db : Database) (f : Feedback) : pyresult export_row :=
  match user_get (k_user_id f) db with
  | None => Raise AttributeError
  | Some u => Ok {| x_id := k_id f; x_user_name := u_name u; x_user_email := u_email u;
                    x_rating := k_rating f; x_message := k_message f;
                    x_created_at := k_created_at f |}
  end.

(** *** GET /api/admin/feedback-export: the lines handed to the CSV writer
    after the header. *)
Definition feedback_export_csv : V Store Answer :=
  st <~ v_query (fun st => st) ;;
  match comprehension (export_line (core st))
          (order_by (asc k_created_at) (feedback st)) with
  | Raise e => v_raise e
  | Ok rows => v_ret {| code := 200; content := ACsv rows |}
  end.

(** A view on the four core tables, run on the whole store. *)
Definition on_core (view : Database -> Answer * Database) (st : Store) : Answer * Store :=
  (fst (view (core st)), with_core (snd (view (core st))) st).

(** ** Sequences of calls that write users *)

Inductive user_call : Type :=
| Register (data : register_json)
| ImportEmployees (env : Env) (data : import_json)
| ChangePassword (data : password_json)
| UpdateUser (user_id : Z) (data : profile_json).

Definition run_user_call (int_of_str : string -> option Z) (c : user_call)
           (db : Database) : Database :=
  match c with
  | Register data => snd (run_request (register int_of_str data) db)
  | ImportEmployees env data => snd (run_request (import_employees env data) db)
  | ChangePassword data => snd (serve (change_password data) db)
  | UpdateUser user_id data => snd (serve (update_user int_of_str user_id data) db)
  end.

(** The primary key and the unique index of the user table. *)
Definition users_keyed (db : Database) : Prop :=
  NoDup (map u_id (users db)) /\ NoDup (map u_email (users db)).

(** ** More sample data *)

Definition credentials (email password : string) : login_json :=
  {| lj_email := Some email; lj_password := Some password |}.

Definition new_password (user_id : Z) (old new : string) : password_json :=
  {| pj_user_id := Some user_id; pj_old_password := Some old;
     pj_new_password := Some new |}.

Definition rename (name : string) (age : pyval) : profile_json :=
  {| nj_name := Some (Some name); nj_age := Some age |}.

Definition seat (id user_id flight_id created_at : Z) : Booking :=
  {| b_id := id; b_user_id := user_id; b_flight_id := flight_id; b_num_seats := 1;
     b_status := "Confirmed"; b_created_at := created_at;
     b_base_price := 5000; b_final_price := 5000; b_discount_reason := None |}.

(** Two bookings of [traveller] on the one flight. *)
Definition booked_db : Database :=
  {| users := [student; traveller]; otp_codes := [];
     flights := [del_bom]; bookings := [seat 1 2 1 100; seat 2 2 1 200] |}.

Definition sample_store : Store :=
  {| core := sample_db; feedback := []; baggage := [] |}.

Definition review (user_id : Z) (message : string) (rating : Z) : feedback_json :=
  {| kj_user_id := Some (Some user_id); kj_message := Some (Some message);
     kj_rating := Some (Some rating) |}.

Definition tagged (tag_number : string) : baggage_json :=
  {| gj_tag_number := Some (Some tag_number); gj_booking_id := None;
     gj_status := None; gj_last_location := None |}.

(** ** Sequences of baggage registrations *)

Definition create_bags (reqs : list baggage_json) (st : Store) : Store :=
  fold_left (fun s data => snd (serve (create_baggage data) s)) reqs st.

(** The primary key and the unique index of the baggage table. *)
Definition baggage_keyed (st : Store) : Prop :=
  NoDup (map g_id (baggage st)) /\ NoDup (map g_tag_number (baggage st)).

(** ** Seats sold *)

(** The seats of the bookings on a flight. *)
Definition seats_booked (flight_id : Z) (bs : list Booking) : Z :=
  fold_right Z.add 0
    (map b_num_seats (filter (fun b => b_flight_id b =? flight_id) bs)).

(** Flights have distinct ids, every booking is on a stored flight, and each
    flight has left what its bookings have not taken of its total. *)
Definition seats_balanced (db : Database) : Prop :=
  NoDup (map f_id (flights db))
  /\ (forall b, In b (bookings db) -> flight_get (b_flight_id b) db <> None)
  /\ (forall f, In f (flights db) ->
                f_available_seats f + seats_booked (f_id f) (bookings db)
                = f_total_seats f).

(** Calls that do not write a seat counter directly. *)
Definition leaves_counters (c : api_call) : Prop :=
  match c with
  | UpdateFlight _ _ data =>
      uj_total_seats data = None /\ uj_available_seats data = None
  | _ => True
  end.

(** An update that moves both ends of a flight. *)
Definition reroute (source destination : string) : flight_update_json :=
  {| uj_code := None; uj_source := Some source; uj_destination := Some destination;
     uj_departure_time := None; uj_arrival_time := None;
     uj_total_seats := None; uj_available_seats := None; uj_status := None |}.

(** [role != "passenger"] *)
Definition not_passenger (u : User) : bool :=
  negb (u_role u =? "passenger")%string.

(** * Properties *)

(** ** Binary64 rounding

    [SFmul] rounds through [shr], an iterated one-bit shift that keeps a
    round bit and a sticky bit.  The lemmas below read it as division by a
    power of two followed by [rne_choice]. *)


Lemma digits2_pos_bounds (p : positive) :
  2 ^ (Zpos (digits2_pos p) - 1) <= Zpos p < 2 ^ Zpos (digits2_pos p).
Proof.
  induction p as [p IH|p IH|]; cbn [digits2_pos].
  - rewrite Pos2Z.inj_succ.
    replace (Z.succ (Zpos (digits2_pos p)) - 1) with (Z.succ (Zpos (digits2_pos p) - 1)) by lia.
    rewrite !Z.pow_succ_r by lia. lia.
  - rewrite Pos2Z.inj_succ.
    replace (Z.succ (Zpos (digits2_pos p)) - 1) with (Z.succ (Zpos (digits2_pos p) - 1)) by lia.
    rewrite !Z.pow_succ_r by lia. lia.
  - cbn. lia.
Qed.

Lemma digits2_unique (p : positive) (d : Z) :
  2 ^ (d - 1) <= Zpos p < 2 ^ d -> Zpos (digits2_pos p) = d.
Proof.
  intros [Hlo Hhi].
  pose proof (digits2_pos_bounds p) as [Blo Bhi].
  set (D := Zpos (digits2_pos p)) in *.
  assert (HD : 0 < D) by (unfold D; lia).
  assert (Hd : 0 < d).
  { destruct (Z.lt_trichotomy d 0) as [Hn|[Hz|Hpos]]; [| |assumption].
    - rewrite (Z.pow_neg_r 2 d Hn) in Hhi. lia.
    - subst d. change (2 ^ 0) with 1 in Hhi. lia. }
  destruct (Z.lt_trichotomy D d) as [Hlt|[Heq|Hgt]]; [|assumption|].
  - assert (2 ^ D <= 2 ^ (d - 1)) by (apply Z.pow_le_mono_r; lia). lia.
  - assert (2 ^ d <= 2 ^ (D - 1)) by (apply Z.pow_le_mono_r; lia). lia.
Qed.

Lemma iter_pos_nat {A : Type} (f : A -> A) (p : positive) (x : A) :
  iter_pos f p x = Nat.iter (Pos.to_nat p) f x.
Proof.
  revert x. induction p as [p IH|p IH|]; intros x; cbn [iter_pos].
  - rewrite !IH, Pos2Nat.inj_xI.
    replace (S (2 * Pos.to_nat p))%nat with (Pos.to_nat p + (Pos.to_nat p + 1))%nat by lia.
    rewrite !Nat.iter_add. reflexivity.
  - rewrite !IH, Pos2Nat.inj_xO.
    replace (2 * Pos.to_nat p)%nat with (Pos.to_nat p + Pos.to_nat p)%nat by lia.
    rewrite Nat.iter_add. reflexivity.
  - reflexivity.
Qed.

Lemma shr_1_spec (m : Z) (r s : bool) :
  0 <= m ->
  shr_1 {| shr_m := m; shr_r := r; shr_s := s |}
  = {| shr_m := m / 2; shr_r := Z.odd m; shr_s := r || s |}.
Proof.
  intros Hm. rewrite <- Z.div2_div.
  destruct m as [|[p|p|]|p]; try reflexivity; lia.
Qed.

Lemma shr_iter_spec (m : Z) (k : nat) :
  0 <= m ->
  Nat.iter (S k) shr_1 {| shr_m := m; shr_r := false; shr_s := false |}
  = {| shr_m := m / 2 ^ Z.of_nat (S k);
       shr_r := Z.odd (m / 2 ^ Z.of_nat k);
       shr_s := negb (m mod 2 ^ Z.of_nat k =? 0) |}.
Proof.
  intros Hm. induction k as [|k IH].
  - cbn [Nat.iter]. rewrite shr_1_spec by assumption.
    change (2 ^ Z.of_nat 1) with 2. change (2 ^ Z.of_nat 0) with 1.
    rewrite Z.div_1_r, Z.mod_1_r. reflexivity.
  - change (Nat.iter (S (S k)) shr_1 ?x) with (shr_1 (Nat.iter (S k) shr_1 x)).
    rewrite IH, shr_1_spec by (apply Z.div_pos; lia).
    assert (Hp : 0 < 2 ^ Z.of_nat k) by (apply Z.pow_pos_nonneg; lia).
    rewrite !Nat2Z.inj_succ, !Z.pow_succ_r by lia.
    f_equal.
    + rewrite Z.div_div by lia. f_equal. lia.
    + rewrite (Z.mul_comm 2 (2 ^ Z.of_nat k)), Z.rem_mul_r by lia.
      pose proof (Z.mod_pos_bound m (2 ^ Z.of_nat k) Hp) as Hb.
      pose proof (Z.mod_pos_bound (m / 2 ^ Z.of_nat k) 2 ltac:(lia)) as Hb2.
      clear IH. rewrite Zmod_odd in *.
      destruct (Z.odd (m / 2 ^ Z.of_nat k));
        destruct (Z.eqb_spec (m mod 2 ^ Z.of_nat k) 0);
        match goal with |- context [?a =? 0] => destruct (Z.eqb_spec a 0) end;
        cbn [orb negb]; try reflexivity; lia.
Qed.

Lemma shr_round_spec (m : Z) (p : positive) :
  0 <= m ->
  let rec := iter_pos shr_1 p {| shr_m := m; shr_r := false; shr_s := false |} in
  round_nearest_even (shr_m rec) (loc_of_shr_record rec) = rne_choice m (Zpos p).
Proof.
  intros Hm rec. subst rec. rewrite iter_pos_nat.
  destruct (Pos2Nat.is_succ p) as [k Hk]. rewrite Hk.
  rewrite shr_iter_spec by assumption.
  assert (Hpk : Zpos p = Z.succ (Z.of_nat k)) by lia.
  unfold rne_choice. rewrite Hpk, <- Nat2Z.inj_succ.
  cbn [shr_m loc_of_shr_record].
  rewrite Nat2Z.inj_succ, Z.pow_succ_r by lia.
  set (P := 2 ^ Z.of_nat k).
  assert (HP : 0 < P) by (apply Z.pow_pos_nonneg; lia).
  rewrite (Z.mul_comm 2 P), Z.rem_mul_r by lia.
  rewrite Zmod_odd.
  pose proof (Z.mod_pos_bound m P HP) as Hb.
  destruct (Z.odd (m / P)); destruct (Z.eqb_spec (m mod P) 0) as [E|E]; cbn [negb].
  - rewrite E. replace (0 + P * 1 =? 0) with false by (symmetry; apply Z.eqb_neq; lia).
    replace (2 * (0 + P * 1) ?= P * 2) with Eq by (symmetry; apply Z.compare_eq_iff; lia).
    reflexivity.
  - replace (m mod P + P * 1 =? 0) with false by (symmetry; apply Z.eqb_neq; lia).
    replace (2 * (m mod P + P * 1) ?= P * 2) with Gt by (symmetry; apply Z.compare_gt_iff; lia).
    reflexivity.
  - rewrite E. replace (0 + P * 0 =? 0) with true by (symmetry; apply Z.eqb_eq; lia).
    reflexivity.
  - replace (m mod P + P * 0 =? 0) with false by (symmetry; apply Z.eqb_neq; lia).
    replace (2 * (m mod P + P * 0) ?= P * 2) with Lt by (symmetry; apply Z.compare_lt_iff; lia).
    reflexivity.
Qed.

Lemma rne_choice_bounds (m n : Z) :
  0 <= m -> 0 <= n ->
  m / 2 ^ n <= rne_choice m n <= m / 2 ^ n + 1.
Proof.
  intros _ _. unfold rne_choice.
  destruct (_ =? 0); [lia|]. destruct (_ ?= _); [destruct (Z.even _)| |]; lia.
Qed.

Lemma rne_choice_down (m n : Z) :
  2 * (m mod 2 ^ n) < 2 ^ n -> rne_choice m n = m / 2 ^ n.
Proof.
  intros H. unfold rne_choice.
  destruct (_ =? 0); [reflexivity|].
  apply Z.compare_lt_iff in H. rewrite H. reflexivity.
Qed.

Lemma binary_round_aux_shift (s : bool) (m : positive) (e : Z) :
  let d := Zpos (digits2_pos m) in
  53 < d -> -1074 <= e + d - 53 ->
  let n := d - 53 in
  let q' := rne_choice (Zpos m) n in
  binary_round_aux prec emax s (Zpos m) e loc_Exact =
    if q' <? 2 ^ 53
    then (if e + n <=? 971 then S754_finite s (Z.to_pos q') (e + n) else S754_infinity s)
    else (if e + n + 1 <=? 971 then S754_finite s (Z.to_pos (2 ^ 52)) (e + n + 1) else S754_infinity s).
Proof.
  intros d Hd He n q'.
  pose proof (digits2_pos_bounds m) as Hm. fold d in Hm.
  unfold binary_round_aux, shr_fexp. cbn [Zdigits2 shr_record_of_loc].
  fold d.
  assert (Hfexp : fexp prec emax (d + e) - e = n).
  { unfold fexp, emin, prec, emax, n. lia. }
  rewrite Hfexp.
  destruct n as [|p|p] eqn:Hn; try lia.
  change (shr ?r e (Z.pos p)) with (iter_pos shr_1 p r, e + Z.pos p).
  cbv iota beta.
  pose proof (shr_round_spec (Zpos m) p ltac:(lia)) as Hr. cbv zeta in Hr.
  rewrite Hr. clear Hr. fold q'.
  assert (Hq : 2 ^ 52 <= q' <= 2 ^ 53).
  { pose proof (rne_choice_bounds (Zpos m) (Zpos p) ltac:(lia) ltac:(lia)) as Hb.
    fold q' in Hb.
    assert (Hpow : 0 < 2 ^ Zpos p) by (apply Z.pow_pos_nonneg; lia).
    assert (Hdn : 2 ^ d = 2 ^ 53 * 2 ^ Zpos p).
    { rewrite <- Z.pow_add_r by lia. f_equal. lia. }
    assert (Hdn1 : 2 ^ (d - 1) = 2 ^ 52 * 2 ^ Zpos p).
    { rewrite <- Z.pow_add_r by lia. f_equal. lia. }
    assert (2 ^ 52 <= Zpos m / 2 ^ Zpos p).
    { apply Z.div_le_lower_bound; lia. }
    assert (Zpos m / 2 ^ Zpos p < 2 ^ 53).
    { apply Z.div_lt_upper_bound; lia. }
    lia. }
  destruct (Z.ltb_spec q' (2 ^ 53)) as [Hlt|Hge].
  - destruct q' as [|qq|qq] eqn:Eq'; try (cbn in Hq; lia).
    cbn [Zdigits2]. rewrite (digits2_unique qq 53) by (cbn in *; lia).
    replace (fexp prec emax (53 + (e + Z.pos p)) - (e + Z.pos p)) with 0
      by (unfold fexp, emin, prec, emax; lia).
    cbn [shr shr_m Z.to_pos]. reflexivity.
  - assert (Eq53 : q' = 2 ^ 53) by lia. rewrite Eq53.
    change (2 ^ 53) with (Zpos 9007199254740992).
    cbn [Zdigits2]. rewrite (digits2_unique _ 54) by (cbn; lia).
    replace (fexp prec emax (54 + (e + Z.pos p)) - (e + Z.pos p)) with 1
      by (unfold fexp, emin, prec, emax; lia).
    reflexivity.
Qed.

Lemma binary_round_aux_exact (s : bool) (m : positive) (e : Z) :
  Zpos (digits2_pos m) = 53 -> -1074 <= e ->
  binary_round_aux prec emax s (Zpos m) e loc_Exact =
    if e <=? 971 then S754_finite s m e else S754_infinity s.
Proof.
  intros Hd He.
  unfold binary_round_aux, shr_fexp. cbn [Zdigits2 shr_record_of_loc]. rewrite Hd.
  replace (fexp prec emax (53 + e) - e) with 0 by (unfold fexp, emin, prec, emax; lia).
  cbn [shr shr_m loc_of_shr_record round_nearest_even Zdigits2 shr_record_of_loc].
  rewrite Hd.
  replace (fexp prec emax (53 + e) - e) with 0 by (unfold fexp, emin, prec, emax; lia).
  reflexivity.
Qed.

Lemma pos_iter_xO (p k : positive) :
  Zpos (Pos.iter xO p k) = Zpos p * 2 ^ Zpos k.
Proof.
  induction k as [|k IH] using Pos.peano_ind.
  - cbn. lia.
  - rewrite Pos.iter_succ, Pos2Z.inj_succ, Z.pow_succ_r by lia.
    rewrite Pos2Z.inj_xO, IH. lia.
Qed.

Lemma binary_round_small (s : bool) (p : positive) :
  let d := Zpos (digits2_pos p) in
  d <= 53 ->
  binary_round prec emax s p 0 =
    S754_finite s (Z.to_pos (Zpos p * 2 ^ (53 - d))) (d - 53).
Proof.
  intros d Hd. unfold binary_round. fold d.
  pose proof (digits2_pos_bounds p) as Hb. fold d in Hb.
  assert (Hd0 : 0 < d) by (unfold d; lia).
  replace (fexp prec emax (d + 0)) with (d - 53) by (unfold fexp, emin, prec, emax; lia).
  unfold shl_align.
  destruct (d - 53 - 0) as [|k|k] eqn:Hk; try lia.
  - assert (d = 53) by lia.
    rewrite binary_round_aux_exact by (fold d; lia).
    replace (53 - d) with 0 by lia. replace (d - 53) with 0 by lia.
    rewrite Z.pow_0_r, Z.mul_1_r. reflexivity.
  - assert (Hk' : 53 - d = Zpos k) by lia.
    assert (Hdig : Zpos (digits2_pos (Pos.iter xO p k)) = 53).
    { apply digits2_unique. rewrite pos_iter_xO.
      replace (2 ^ (53 - 1)) with (2 ^ (d - 1) * 2 ^ Zpos k)
        by (rewrite <- Z.pow_add_r by lia; f_equal; lia).
      replace (2 ^ 53) with (2 ^ d * 2 ^ Zpos k)
        by (rewrite <- Z.pow_add_r by lia; f_equal; lia).
      assert (0 < 2 ^ Zpos k) by (apply Z.pow_pos_nonneg; lia).
      nia. }
    rewrite binary_round_aux_exact by (try assumption; lia).
    replace (d - 53 <=? 971) with true by (symmetry; apply Z.leb_le; lia).
    rewrite Hk', <- pos_iter_xO. reflexivity.
Qed.

Lemma binary_round_large (s : bool) (p : positive) :
  let d := Zpos (digits2_pos p) in
  53 < d ->
  let n := d - 53 in
  let q' := rne_choice (Zpos p) n in
  binary_round prec emax s p 0 =
    if q' <? 2 ^ 53
    then (if n <=? 971 then S754_finite s (Z.to_pos q') n else S754_infinity s)
    else (if n + 1 <=? 971 then S754_finite s (Z.to_pos (2 ^ 52)) (n + 1) else S754_infinity s).
Proof.
  intros d Hd n q'. unfold binary_round. fold d.
  replace (fexp prec emax (d + 0)) with (d - 53) by (unfold fexp, emin, prec, emax; lia).
  unfold shl_align.
  destruct (d - 53 - 0) as [|k|k] eqn:Hk; try lia.
  rewrite binary_round_aux_shift by (fold d; lia).
  fold d. fold n. fold q'. rewrite !Z.add_0_l. reflexivity.
Qed.

Lemma int_of_float_finite (s : bool) (m : positive) (e : Z) :
  int_of_float (S754_finite s m e)
  = Some (cond_Zopp s (if e <? 0 then Zpos m / 2 ^ (- e) else Zpos m * 2 ^ e)).
Proof. destruct e; reflexivity. Qed.

Lemma scaled_value (m c J : Z) :
  0 <= J -> m = c * 2 ^ J ->
  (if 5 - J <? 0 then m / 2 ^ (- (5 - J)) else m * 2 ^ (5 - J)) = 32 * c.
Proof.
  intros HJ ->. destruct (Z.ltb_spec (5 - J) 0) as [H|H].
  - replace (2 ^ J) with (2 ^ 5 * 2 ^ (- (5 - J)))
      by (rewrite <- Z.pow_add_r by lia; f_equal; lia).
    rewrite Z.mul_assoc, Z.div_mul by (apply Z.pow_nonzero; lia).
    change (2 ^ 5) with 32. lia.
  - rewrite <- Z.mul_assoc, <- Z.pow_add_r by lia.
    replace (J + (5 - J)) with 5 by lia. change (2 ^ 5) with 32. lia.
Qed.

Lemma float_of_40c (s : bool) (c : positive) :
  5 * Zpos c <= 2 ^ 53 ->
  exists (M1 : positive) (K : Z),
    binary_round prec emax s (40 * c) 0 = S754_finite s M1 (3 - K)
    /\ Zpos (digits2_pos M1) = 53 /\ 0 <= K <= 55
    /\ Zpos M1 = 5 * Zpos c * 2 ^ K.
Proof.
  intros Hc.
  pose proof (digits2_pos_bounds (40 * c)) as Hb.
  set (d := Zpos (digits2_pos (40 * c))) in *.
  assert (Hd0 : 0 < d) by (unfold d; lia).
  assert (Hd56 : d <= 56).
  { destruct (Z_le_gt_dec d 56) as [|Hgt]; [assumption|exfalso].
    assert (2 ^ 56 <= 2 ^ (d - 1)) by (apply Z.pow_le_mono_r; lia).
    change (2 ^ 56) with 72057594037927936 in *. change (2 ^ 53) with 9007199254740992 in *. lia. }
  destruct (Z_le_gt_dec d 53) as [Hle|Hgt].
  - exists (Z.to_pos (Zpos (40 * c) * 2 ^ (53 - d))), (56 - d).
    assert (Hp : 0 < 2 ^ (53 - d)) by (apply Z.pow_pos_nonneg; lia).
    assert (Hval : 0 < Zpos (40 * c) * 2 ^ (53 - d)) by lia.
    rewrite binary_round_small by (fold d; lia). fold d.
    replace (3 - (56 - d)) with (d - 53) by lia.
    split; [reflexivity|]. rewrite Z2Pos.id by assumption.
    split; [|split; [lia|]].
    + apply digits2_unique. rewrite Z2Pos.id by assumption.
      replace (2 ^ (53 - 1)) with (2 ^ (d - 1) * 2 ^ (53 - d))
        by (rewrite <- Z.pow_add_r by lia; f_equal; lia).
      replace (2 ^ 53) with (2 ^ d * 2 ^ (53 - d))
        by (rewrite <- Z.pow_add_r by lia; f_equal; lia).
      nia.
    + replace (56 - d) with (3 + (53 - d)) by lia.
      rewrite Z.pow_add_r by lia. change (2 ^ 3) with 8. lia.
  - pose proof (binary_round_large s (40 * c) ltac:(fold d; lia)) as Hr.
    cbv zeta in Hr. fold d in Hr.
    assert (Hn : d - 53 = 1 \/ d - 53 = 2 \/ d - 53 = 3) by lia.
    assert (Hrne : rne_choice (Zpos (40 * c)) (d - 53) = Zpos (40 * c) / 2 ^ (d - 53)).
    { apply rne_choice_down.
      rewrite Pos2Z.inj_mul.
      destruct Hn as [->|[->| ->]];
        [change (2 ^ 1) with 2|change (2 ^ 2) with 4|change (2 ^ 3) with 8];
        Z.div_mod_to_equations; lia. }
    rewrite Hrne in Hr.
    assert (Hq : 2 ^ 52 <= Zpos (40 * c) / 2 ^ (d - 53) < 2 ^ 53
                 /\ Zpos (40 * c) / 2 ^ (d - 53) = 5 * Zpos c * 2 ^ (56 - d)).
    { destruct Hn as [Hn|[Hn|Hn]]; rewrite Hn;
        [replace d with 54 in * by lia|replace d with 55 in * by lia|replace d with 56 in * by lia];
        cbn [Z.sub Z.add Z.opp Z.pos_sub Z.succ_double Z.pred_double Z.double Pos.pred_double] in *;
        rewrite Pos2Z.inj_mul in *;
        change (2 ^ 53) with 9007199254740992 in *;
        change (2 ^ 52) with 4503599627370496 in *;
        change (2 ^ 54) with 18014398509481984 in *;
        change (2 ^ 55) with 36028797018963968 in *;
        change (2 ^ 56) with 72057594037927936 in *;
        change (2 ^ 1) with 2; change (2 ^ 2) with 4; change (2 ^ 3) with 8;
        change (2 ^ 0) with 1;
        Z.div_mod_to_equations; lia. }
    destruct Hq as [Hq1 Hq2].
    exists (Z.to_pos (Zpos (40 * c) / 2 ^ (d - 53))), (56 - d).
    replace (Zpos (40 * c) / 2 ^ (d - 53) <? 2 ^ 53) with true in Hr
      by (symmetry; apply Z.ltb_lt; lia).
    replace (d - 53 <=? 971) with true in Hr by (symmetry; apply Z.leb_le; lia).
    replace (3 - (56 - d)) with (d - 53) by lia.
    split; [exact Hr|]. rewrite Z2Pos.id by lia.
    split; [|split; [lia|exact Hq2]].
    apply digits2_unique. rewrite Z2Pos.id by lia. exact Hq1.
Qed.

Lemma mul_0_8_exact (s : bool) (M1 : positive) (E1 Q : Z) :
  Zpos (digits2_pos M1) = 53 -> Zpos M1 = 5 * Q -> -900 <= E1 <= 900 ->
  exists (M2 : positive) (J : Z),
    SFmul prec emax (S754_finite s M1 E1) float_0_8 = S754_finite s M2 (E1 + 2 - J)
    /\ 0 <= J /\ Zpos M2 = Q * 2 ^ J.
Proof.
  intros Hd HQ HE.
  pose proof (digits2_pos_bounds M1) as HM1. rewrite Hd in HM1.
  change (2 ^ (53 - 1)) with 4503599627370496 in HM1.
  change (2 ^ 53) with 9007199254740992 in HM1.
  unfold float_0_8. cbn [SFmul]. rewrite xorb_false_r.
  set (P := (M1 * 7205759403792794)%positive).
  assert (HP : Zpos P = 36028797018963970 * Q) by (unfold P; lia).
  pose proof (digits2_pos_bounds P) as HdP.
  destruct (Z_lt_le_dec (Zpos P) (2 ^ 105)) as [Hlt|Hge].
  - assert (HD : Zpos (digits2_pos P) = 105).
    { apply digits2_unique. change (2 ^ (105 - 1)) with 20282409603651670423947251286016.
      change (2 ^ 105) with 40564819207303340847894502572032 in *. lia. }
    rewrite binary_round_aux_shift by (rewrite HD; lia).
    rewrite HD. change (105 - 53) with 52.
    change (2 ^ 105) with 40564819207303340847894502572032 in Hlt.
    assert (Hrne : rne_choice (Zpos P) 52 = 8 * Q).
    { rewrite rne_choice_down; rewrite HP; change (2 ^ 52) with 4503599627370496;
        Z.div_mod_to_equations; lia. }
    rewrite Hrne.
    replace (8 * Q <? 2 ^ 53) with true
      by (symmetry; apply Z.ltb_lt; change (2 ^ 53) with 9007199254740992; lia).
    replace (E1 + -53 + 52 <=? 971) with true by (symmetry; apply Z.leb_le; lia).
    exists (Z.to_pos (8 * Q)), 3.
    split; [f_equal; lia|]. split; [lia|]. rewrite Z2Pos.id by lia. change (2 ^ 3) with 8. lia.
  - assert (HD : Zpos (digits2_pos P) = 106).
    { apply digits2_unique. change (2 ^ (106 - 1)) with (2 ^ 105).
      change (2 ^ 106) with 81129638414606681695789005144064.
      change (2 ^ 105) with 40564819207303340847894502572032 in *. lia. }
    rewrite binary_round_aux_shift by (rewrite HD; lia).
    rewrite HD. change (106 - 53) with 53.
    assert (Hrne : rne_choice (Zpos P) 53 = 4 * Q).
    { rewrite rne_choice_down; rewrite HP; change (2 ^ 53) with 9007199254740992;
        Z.div_mod_to_equations; lia. }
    rewrite Hrne.
    replace (4 * Q <? 2 ^ 53) with true
      by (symmetry; apply Z.ltb_lt; change (2 ^ 53) with 9007199254740992; lia).
    replace (E1 + -53 + 53 <=? 971) with true by (symmetry; apply Z.leb_le; lia).
    exists (Z.to_pos (4 * Q)), 2.
    split; [f_equal; lia|]. split; [lia|]. rewrite Z2Pos.id by lia. change (2 ^ 2) with 4. lia.
Qed.

Lemma int_mul_float_0_8_signed (s : bool) (c : positive) :
  5 * Zpos c <= 2 ^ 53 ->
  int_of_float (SFmul prec emax (binary_round prec emax s (40 * c) 0) float_0_8)
  = Some (cond_Zopp s (32 * Zpos c)).
Proof.
  intros Hc.
  destruct (float_of_40c s c Hc) as (M1 & K & Hf & Hd & HK & HM1).
  rewrite Hf.
  destruct (mul_0_8_exact s M1 (3 - K) (Zpos c * 2 ^ K) Hd ltac:(lia) ltac:(lia))
    as (M2 & J & Hmul & HJ & HM2).
  rewrite Hmul, int_of_float_finite. do 2 f_equal.
  replace (3 - K + 2 - J) with (5 - (K + J)) by lia.
  apply scaled_value; [lia|].
  rewrite HM2, Z.pow_add_r by lia. lia.
Qed.

(** [int(base * 0.8)] is exact as long as [base / 8] fits the 53-bit
    mantissa. *)
Lemma int_mul_float_0_8_exact (c : Z) :
  5 * Z.abs c <= 2 ^ 53 ->
  int_mul_float (40 * c) float_0_8 = Some (32 * c).
Proof.
  intros Hc. unfold int_mul_float, float_of_int.
  destruct c as [|c|c].
  - reflexivity.
  - change (40 * Zpos c) with (Zpos (40 * c)). cbn [binary_normalize].
    pose proof (int_mul_float_0_8_signed false c ltac:(lia)) as H.
    destruct (float_of_40c false c ltac:(lia)) as (M1 & K & Hf & _).
    rewrite Hf in *. exact H.
  - change (40 * Zneg c) with (Zneg (40 * c)). cbn [binary_normalize].
    pose proof (int_mul_float_0_8_signed true c ltac:(lia)) as H.
    destruct (float_of_40c true c ltac:(lia)) as (M1 & K & Hf & _).
    rewrite Hf in *. exact H.
Qed.

Lemma rne_choice_upper (m n : Z) :
  0 <= m -> 0 <= n -> 2 ^ n * rne_choice m n <= m + 2 ^ n.
Proof.
  intros Hm Hn.
  pose proof (rne_choice_bounds m n Hm Hn) as Hb.
  assert (Hp : 0 < 2 ^ n) by (apply Z.pow_pos_nonneg; lia).
  pose proof (Z.mul_div_le m (2 ^ n) Hp). nia.
Qed.

Lemma binary_round_aux_shift_value (s s' : bool) (m M : positive) (e E : Z) :
  let d := Zpos (digits2_pos m) in
  53 < d -> -1074 <= e + d - 53 ->
  binary_round_aux prec emax s (Zpos m) e loc_Exact = S754_finite s' M E ->
  s' = s /\ Zpos (digits2_pos M) = 53 /\ E <= 971
  /\ 0 <= E - (e + (d - 53)) <= 1
  /\ Zpos M * 2 ^ (E - (e + (d - 53))) = rne_choice (Zpos m) (d - 53).
Proof.
  intros d Hd He Hr.
  rewrite binary_round_aux_shift in Hr by (fold d; lia). fold d in Hr.
  pose proof (digits2_pos_bounds m) as Hm. fold d in Hm. clearbody d.
  pose proof (rne_choice_bounds (Zpos m) (d - 53) ltac:(lia) ltac:(lia)) as Hb.
  assert (Hpow : 0 < 2 ^ (d - 53)) by (apply Z.pow_pos_nonneg; lia).
  assert (Hq : 2 ^ 52 <= Zpos m / 2 ^ (d - 53)).
  { apply Z.div_le_lower_bound; [lia|].
    replace (2 ^ (d - 53) * 2 ^ 52) with (2 ^ (d - 1))
      by (rewrite <- Z.pow_add_r by lia; f_equal; lia). lia. }
  set (q' := rne_choice (Zpos m) (d - 53)) in *.
  change (2 ^ 52) with 4503599627370496 in *.
  destruct (Z.ltb_spec q' (2 ^ 53)) as [Hlt|Hge].
  - destruct (Z.leb_spec (e + (d - 53)) 971); [|discriminate].
    injection Hr as <- <- <-.
    split; [reflexivity|]. split.
    + apply digits2_unique. rewrite Z2Pos.id by lia.
      change (2 ^ (53 - 1)) with 4503599627370496. lia.
    + split; [lia|]. rewrite Z.sub_diag. split; [lia|].
      rewrite Z2Pos.id by lia. cbn. lia.
  - destruct (Z.leb_spec (e + (d - 53) + 1) 971); [|discriminate].
    injection Hr as <- <- <-.
    split; [reflexivity|]. split; [reflexivity|]. split; [lia|].
    replace (e + (d - 53) + 1 - (e + (d - 53))) with 1 by lia.
    split; [lia|].
    assert (Zpos m / 2 ^ (d - 53) < 2 ^ 53).
    { apply Z.div_lt_upper_bound; [lia|].
      replace (2 ^ (d - 53) * 2 ^ 53) with (2 ^ d)
        by (rewrite <- Z.pow_add_r by lia; f_equal; lia). lia. }
    change (2 ^ 53) with 9007199254740992 in *. cbn. lia.
Qed.

Lemma mul_0_8_value (s : bool) (M1 : positive) (E1 : Z) :
  Zpos (digits2_pos M1) = 53 -> -900 <= E1 <= 971 ->
  exists (M2 : positive) (E2 : Z),
    SFmul prec emax (S754_finite s M1 E1) float_0_8 = S754_finite s M2 E2
    /\ E1 - 1 <= E2
    /\ 2 ^ 52 * (Zpos M2 * 2 ^ (E2 - (E1 - 1))) <= Zpos M1 * 7205759403792794 + 2 ^ 53.
Proof.
  intros Hd HE.
  pose proof (digits2_pos_bounds M1) as HM1. rewrite Hd in HM1.
  change (2 ^ (53 - 1)) with 4503599627370496 in HM1.
  change (2 ^ 53) with 9007199254740992 in *.
  change (2 ^ 52) with 4503599627370496 in *.
  unfold float_0_8. cbn [SFmul]. rewrite xorb_false_r.
  set (P := (M1 * 7205759403792794)%positive).
  assert (HP : Zpos P = Zpos M1 * 7205759403792794) by (unfold P; lia).
  rewrite <- HP.
  pose proof (digits2_pos_bounds P) as HdP.
  destruct (Z_lt_le_dec (Zpos P) (2 ^ 105)) as [Hlt|Hge].
  - assert (HD : Zpos (digits2_pos P) = 105).
    { apply digits2_unique. change (2 ^ (105 - 1)) with 20282409603651670423947251286016.
      change (2 ^ 105) with 40564819207303340847894502572032 in *. lia. }
    rewrite binary_round_aux_shift by (rewrite HD; lia).
    rewrite HD. change (105 - 53) with 52.
    pose proof (rne_choice_upper (Zpos P) 52 ltac:(lia) ltac:(lia)) as Hup.
    pose proof (rne_choice_bounds (Zpos P) 52 ltac:(lia) ltac:(lia)) as Hbd.
    assert (Hlow : 2 ^ 52 <= Zpos P / 2 ^ 52).
    { apply Z.div_le_lower_bound; [reflexivity|].
      change (2 ^ 52 * 2 ^ 52) with 20282409603651670423947251286016. lia. }
    assert (Hhigh : Zpos P / 2 ^ 52 < 2 ^ 53).
    { apply Z.div_lt_upper_bound; [reflexivity|].
      change (2 ^ 52 * 2 ^ 53) with 40564819207303340847894502572032.
      change (2 ^ 105) with 40564819207303340847894502572032 in Hlt. lia. }
    set (q := rne_choice (Zpos P) 52) in *.
    change (2 ^ 53) with 9007199254740992 in *.
    change (2 ^ 52) with 4503599627370496 in *.
    destruct (Z.ltb_spec q 9007199254740992) as [Hq|Hq].
    + replace (E1 + -53 + 52 <=? 971) with true by (symmetry; apply Z.leb_le; lia).
      exists (Z.to_pos q), (E1 + -53 + 52).
      split; [reflexivity|]. split; [lia|].
      replace (E1 + -53 + 52 - (E1 - 1)) with 0 by lia.
      rewrite Z2Pos.id by lia. change (2 ^ 0) with 1. lia.
    + replace (E1 + -53 + 52 + 1 <=? 971) with true by (symmetry; apply Z.leb_le; lia).
      exists (Z.to_pos 4503599627370496), (E1 + -53 + 52 + 1).
      split; [reflexivity|]. split; [lia|].
      replace (E1 + -53 + 52 + 1 - (E1 - 1)) with 1 by lia.
      change (Zpos (Z.to_pos 4503599627370496) * 2 ^ 1) with 9007199254740992. lia.
  - assert (HD : Zpos (digits2_pos P) = 106).
    { apply digits2_unique. change (2 ^ (106 - 1)) with (2 ^ 105).
      change (2 ^ 106) with 81129638414606681695789005144064.
      change (2 ^ 105) with 40564819207303340847894502572032 in *. lia. }
    rewrite binary_round_aux_shift by (rewrite HD; lia).
    rewrite HD. change (106 - 53) with 53.
    pose proof (rne_choice_upper (Zpos P) 53 ltac:(lia) ltac:(lia)) as Hup.
    pose proof (rne_choice_bounds (Zpos P) 53 ltac:(lia) ltac:(lia)) as Hbd.
    assert (Hlow : 2 ^ 52 <= Zpos P / 2 ^ 53).
    { apply Z.div_le_lower_bound; [reflexivity|].
      change (2 ^ 53 * 2 ^ 52) with 40564819207303340847894502572032.
      change (2 ^ 105) with 40564819207303340847894502572032 in Hge. lia. }
    set (q := rne_choice (Zpos P) 53) in *.
    change (2 ^ 53) with 9007199254740992 in *.
    change (2 ^ 52) with 4503599627370496 in *.
    replace (q <? 9007199254740992) with true by (symmetry; apply Z.ltb_lt; lia).
    replace (E1 + -53 + 53 <=? 971) with true by (symmetry; apply Z.leb_le; lia).
    exists (Z.to_pos q), (E1 + -53 + 53).
    split; [reflexivity|]. split; [lia|].
    replace (E1 + -53 + 53 - (E1 - 1)) with 1 by lia.
    rewrite Z2Pos.id by lia. change (2 ^ 1) with 2. lia.
Qed.

Lemma binary_round_large_aux (s : bool) (p : positive) :
  53 < Zpos (digits2_pos p) ->
  binary_round prec emax s p 0 = binary_round_aux prec emax s (Zpos p) 0 loc_Exact.
Proof.
  intros Hd. unfold binary_round.
  replace (fexp prec emax (Zpos (digits2_pos p) + 0)) with (Zpos (digits2_pos p) - 53)
    by (unfold fexp, emin, prec, emax; lia).
  unfold shl_align.
  destruct (Zpos (digits2_pos p) - 53 - 0) as [|k|k] eqn:Hk; try lia; reflexivity.
Qed.

Lemma pow2_split_01 (t : Z) : 0 <= t <= 1 -> 2 ^ t = 1 \/ 2 ^ t = 2.
Proof. intros H. assert (t = 0 \/ t = 1) as [-> | ->] by lia; [left|right]; reflexivity. Qed.

Lemma int_mul_0_8_le_large (s s' : bool) (p M1 : positive) (E1 : Z) :
  53 < Zpos (digits2_pos p) ->
  binary_round prec emax s p 0 = S754_finite s' M1 E1 ->
  exists v, int_of_float (SFmul prec emax (S754_finite s' M1 E1) float_0_8)
            = Some (cond_Zopp s v)
            /\ 0 <= v <= Zpos p.
Proof.
  intros Hd Hr. rewrite binary_round_large_aux in Hr by assumption.
  apply binary_round_aux_shift_value in Hr; [|assumption|lia].
  destruct Hr as (-> & HdM & HE1 & Ht & Hq1).
  pose proof (digits2_pos_bounds p) as Hp.
  pose proof (digits2_pos_bounds M1) as HM1. rewrite HdM in HM1.
  set (d := Zpos (digits2_pos p)) in *. clearbody d.
  replace (E1 - (0 + (d - 53))) with (E1 - (d - 53)) in * by lia.
  pose proof (rne_choice_upper (Zpos p) (d - 53) ltac:(lia) ltac:(lia)) as Hup.
  set (q1 := rne_choice (Zpos p) (d - 53)) in *. clearbody q1.
  destruct (mul_0_8_value s M1 E1 HdM ltac:(lia)) as (M2 & E2 & Hmul & HE2 & HW).
  rewrite Hmul, int_of_float_finite.
  replace (E2 <? 0) with false by (symmetry; apply Z.ltb_ge; lia).
  eexists; split; [reflexivity|].
  assert (HA : 0 < 2 ^ (d - 53)) by (apply Z.pow_pos_nonneg; lia).
  assert (HB : 0 < 2 ^ (E1 - 1)) by (apply Z.pow_pos_nonneg; lia).
  assert (Hu : 0 < 2 ^ (E2 - (E1 - 1))) by (apply Z.pow_pos_nonneg; lia).
  assert (HvW : Zpos M2 * 2 ^ E2 = Zpos M2 * 2 ^ (E2 - (E1 - 1)) * 2 ^ (E1 - 1)).
  { rewrite <- Z.mul_assoc, <- Z.pow_add_r by lia. do 2 f_equal. lia. }
  assert (HBA : 2 * 2 ^ (E1 - 1) = 2 ^ (E1 - (d - 53)) * 2 ^ (d - 53)).
  { rewrite <- Z.pow_succ_r, <- Z.pow_add_r by lia. f_equal. lia. }
  assert (HpA : 2 ^ 52 * 2 ^ (d - 53) <= Zpos p).
  { rewrite <- Z.pow_add_r by lia. replace (52 + (d - 53)) with (d - 1) by lia. lia. }
  rewrite HvW.
  set (W := Zpos M2 * 2 ^ (E2 - (E1 - 1))) in *.
  set (A := 2 ^ (d - 53)) in *. set (B := 2 ^ (E1 - 1)) in *.
  change (2 ^ (53 - 1)) with 4503599627370496 in *.
  change (2 ^ 53) with 9007199254740992 in *.
  change (2 ^ 52) with 4503599627370496 in *.
  assert (HW0 : 0 < W) by (unfold W; lia).
  split; [nia|].
  assert (F1 : 4503599627370496 * W * B
               <= (Zpos M1 * 7205759403792794 + 9007199254740992) * B)
    by (apply Z.mul_le_mono_nonneg_r; lia).
  destruct (pow2_split_01 _ Ht) as [HT|HT]; rewrite HT in *.
  - assert (EA : A = 2 * B) by lia. assert (EM : Zpos M1 = q1) by lia.
    rewrite EA, <- EM in *. nia.
  - assert (EA : A = B) by lia. rewrite EA in *. nia.
Qed.

Lemma int_mul_float_0_8_le (c f : Z) :
  0 < c -> int_mul_float (40 * c) float_0_8 = Some f -> 0 <= f <= 40 * c.
Proof.
  intros Hc Hf.
  destruct (Z_le_gt_dec (5 * Z.abs c) (2 ^ 53)) as [Hs|Hl].
  - rewrite int_mul_float_0_8_exact in Hf by assumption.
    assert (f = 32 * c) by congruence. lia.
  - unfold int_mul_float, float_of_int in Hf.
    destruct c as [|c|c]; try lia.
    change (40 * Zpos c) with (Zpos (40 * c)) in *. cbn [binary_normalize] in Hf.
    assert (Hd : 53 < Zpos (digits2_pos (40 * c))).
    { pose proof (digits2_pos_bounds (40 * c)) as Hb.
      destruct (Z_lt_le_dec 53 (Zpos (digits2_pos (40 * c)))) as [|Hle]; [assumption|exfalso].
      assert (2 ^ Zpos (digits2_pos (40 * c)) <= 2 ^ 53) by (apply Z.pow_le_mono_r; lia).
      change (2 ^ 53) with 9007199254740992 in *. lia. }
    destruct (binary_round prec emax false (40 * c) 0) as [sz|si| |s' M1 E1] eqn:Hr;
      try discriminate.
    + cbn in Hf. assert (f = 0) by congruence. lia.
    + destruct (int_mul_0_8_le_large false s' (40 * c) M1 E1 Hd Hr) as (v & Hv & Hb).
      rewrite Hv in Hf. cbn [cond_Zopp] in Hf. assert (f = v) by congruence. lia.
Qed.

(** ** Text suffixes *)

Lemma substring_all (s : string) : substring 0 (String.length s) s = s.
Proof. induction s as [|c s IH]; cbn; [reflexivity|now rewrite IH]. Qed.

Lemma substring_skip (p s : string) (m : nat) :
  substring (String.length p) m (p ++ s) = substring 0 m s.
Proof. induction p as [|c p IH]; cbn; [reflexivity|exact IH]. Qed.

Lemma substring_split (s : string) (k : nat) :
  (k <= String.length s)%nat ->
  s = (substring 0 k s ++ substring k (String.length s - k) s)%string.
Proof.
  revert k. induction s as [|c s IH]; intros k Hk.
  - destruct k; reflexivity.
  - destruct k as [|k].
    + cbn [substring append]. cbn [String.length Nat.sub].
      now rewrite substring_all.
    + cbn [String.length] in *. cbn [substring append Nat.sub]. f_equal. apply IH. lia.
Qed.

Lemma string_length_app (p q : string) :
  String.length (p ++ q) = (String.length p + String.length q)%nat.
Proof. induction p as [|c p IH]; cbn; [reflexivity|now rewrite IH]. Qed.

Lemma endswith_iff (s suffix : string) :
  endswith s suffix = true <-> exists p, s = (p ++ suffix)%string.
Proof.
  unfold endswith. split.
  - intros H. apply andb_prop in H as [Hle Heq].
    apply Nat.leb_le in Hle. apply String.eqb_eq in Heq.
    exists (substring 0 (String.length s - String.length suffix) s).
    pose proof (substring_split s (String.length s - String.length suffix) ltac:(lia)) as H.
    replace (String.length s - (String.length s - String.length suffix))%nat
      with (String.length suffix) in H by lia.
    rewrite Heq in H. exact H.
  - intros [p ->]. rewrite string_length_app.
    replace (String.length p + String.length suffix - String.length suffix)%nat
      with (String.length p) by lia.
    rewrite substring_skip, substring_all, String.eqb_refl.
    replace (String.length suffix <=? String.length p + String.length suffix)%nat with true
      by (symmetry; apply Nat.leb_le; lia).
    reflexivity.
Qed.

Lemma lower_app (p q : string) : lower (p ++ q) = (lower p ++ lower q)%string.
Proof. induction p as [|c p IH]; cbn; [reflexivity|now rewrite IH]. Qed.

Lemma lower_split (s p' q' : string) :
  lower s = (p' ++ q')%string ->
  exists p q, s = (p ++ q)%string /\ lower p = p' /\ lower q = q'.
Proof.
  revert s. induction p' as [|c p' IH]; intros s H.
  - exists EmptyString, s. auto.
  - destruct s as [|a s]; [discriminate|].
    cbn in H. injection H as Hc Hs.
    destruct (IH s Hs) as (p & q & -> & Hp & Hq).
    exists (String a p), q. cbn. rewrite Hp, Hc. auto.
Qed.

Lemma lower_ascii_cases (c : ascii) :
  (lower_ascii c = "."%char -> c = "."%char)
  /\ (lower_ascii c = "e"%char -> is_letter "e" "E" c)
  /\ (lower_ascii c = "d"%char -> is_letter "d" "D" c)
  /\ (lower_ascii c = "u"%char -> is_letter "u" "U" c).
Proof.
  unfold is_letter.
  destruct c as [[] [] [] [] [] [] [] []]; vm_compute;
    repeat split; intros H; try discriminate H; auto.
Qed.

Lemma lower_is_edu (q : string) :
  lower q = ".edu"%string <->
  exists c1 c2 c3 : ascii,
    q = String "." (String c1 (String c2 (String c3 EmptyString)))
    /\ is_letter "e" "E" c1 /\ is_letter "d" "D" c2 /\ is_letter "u" "U" c3.
Proof.
  split.
  - intros H.
    destruct q as [|c0 [|c1 [|c2 [|c3 [|c4 q]]]]]; try discriminate H.
    cbn in H. injection H as H0 H1 H2 H3.
    exists c1, c2, c3.
    rewrite (proj1 (lower_ascii_cases c0) H0).
    split; [reflexivity|].
    split; [apply (lower_ascii_cases c1); assumption|].
    split; [apply (lower_ascii_cases c2); assumption|apply (lower_ascii_cases c3); assumption].
  - intros (c1 & c2 & c3 & -> & [-> | ->] & [-> | ->] & [-> | ->]); reflexivity.
Qed.

(** [lower] followed by [endswith ".edu"] accepts exactly the addresses that
    end with ".edu" in any mix of cases. *)
Lemma edu_address_iff (email : string) :
  endswith (lower email) ".edu" = true <-> edu_address email.
Proof.
  rewrite endswith_iff. unfold edu_address. split.
  - intros [p' H]. apply lower_split in H as (p & q & -> & _ & Hq).
    apply lower_is_edu in Hq as (c1 & c2 & c3 & -> & H1 & H2 & H3).
    exists p, c1, c2, c3. auto.
  - intros (p & c1 & c2 & c3 & -> & H1 & H2 & H3).
    exists (lower p). rewrite lower_app. f_equal.
    apply lower_is_edu. exists c1, c2, c3. auto.
Qed.

(** ** Pricing *)

Lemma calculate_price_plain (user : User) (n : Z) :
  endswith (lower (u_email user)) ".edu" = false ->
  calculate_price user n = Ok (5000 * n, 5000 * n, None).
Proof. intros H. unfold calculate_price. rewrite H. reflexivity. Qed.

Lemma calculate_price_student (user : User) (n : Z) :
  endswith (lower (u_email user)) ".edu" = true ->
  625 * Z.abs n <= 2 ^ 53 ->
  calculate_price user n
  = Ok (5000 * n, 4000 * n, Some "Student .edu discount (20%)"%string).
Proof.
  intros H Hn. unfold calculate_price, BASE_PRICE_PER_SEAT. rewrite H.
  replace (5000 * n) with (40 * (125 * n)) by lia.
  rewrite int_mul_float_0_8_exact by lia.
  do 3 f_equal; lia.
Qed.

(** A successful discounted price never exceeds the base price, whatever the
    size of the order. *)
Lemma calculate_price_le (user : User) (n base final : Z) (reason : option string) :
  0 < n ->
  calculate_price user n = Ok (base, final, reason) ->
  base = 5000 * n /\ 0 <= final <= base.
Proof.
  intros Hn. unfold calculate_price, BASE_PRICE_PER_SEAT.
  destruct (endswith _ _).
  - destruct (int_mul_float (5000 * n) float_0_8) as [f|] eqn:Hf; [|discriminate].
    intros H. assert (base = 5000 * n /\ final = f) as [-> ->] by (split; congruence).
    split; [reflexivity|].
    replace (5000 * n) with (40 * (125 * n)) in * by lia.
    apply int_mul_float_0_8_le in Hf; lia.
  - intros H. assert (base = 5000 * n /\ final = 5000 * n) as [-> ->] by (split; congruence).
    lia.
Qed.

(** C4 (amended).  The price depends on the user's address and the seat
    count only.  An address that does not end with ".edu" (in any mix of
    cases) pays [5000 * n] with no discount reason, for every [n].  An address
    that does pays [floor (5000 * n * 0.8)] with the fixed reason, for every
    [n] with [625 * |n| <= 2 ^ 53], the range on which the binary64 product
    is exact. *)
Theorem calculate_price_spec (user : User) (n : Z) :
  (forall user' : User,
      u_email user' = u_email user -> calculate_price user' n = calculate_price user n)
  /\ (~ edu_address (u_email user) ->
      calculate_price user n = Ok (5000 * n, 5000 * n, None))
  /\ (edu_address (u_email user) -> 625 * Z.abs n <= 2 ^ 53 ->
      calculate_price user n
      = Ok (5000 * n, 5000 * n * 8 / 10, Some "Student .edu discount (20%)"%string)).
Proof.
  split; [|split].
  - intros user' He. unfold calculate_price. rewrite He. reflexivity.
  - intros Hne. apply calculate_price_plain.
    destruct (endswith (lower (u_email user)) ".edu") eqn:E; [|reflexivity].
    exfalso. apply Hne, edu_address_iff, E.
  - intros He Hn. rewrite calculate_price_student by (try apply edu_address_iff; assumption).
    do 3 f_equal.
    replace (5000 * n * 8) with (4000 * n * 10) by lia.
    rewrite Z.div_mul by lia. reflexivity.
Qed.

Lemma student_edu_address : edu_address (u_email student).
Proof.
  exists "ada@uni"%string, "E"%char, "D"%char, "U"%char.
  unfold is_letter. repeat split; auto.
Qed.

Lemma calculate_price_spec_witness :
  calculate_price student 3
  = Ok (5000 * 3, 5000 * 3 * 8 / 10, Some "Student .edu discount (20%)"%string).
Proof.
  apply (calculate_price_spec student 3).
  - exact student_edu_address.
  - vm_compute. discriminate.
Defined.

(** C4 as stated fails for a large seat count: the binary64 product of
    [5000 * n] and [0.8] is rounded, and the price is 8 more than the
    floor. *)
Lemma calculate_price_not_floor :
  edu_address (u_email student)
  /\ calculate_price student 14411518807587
     = Ok (72057594037935000, 57646075230348008,
           Some "Student .edu discount (20%)"%string)
  /\ calculate_price student 14411518807587
     <> Ok (5000 * 14411518807587, 5000 * 14411518807587 * 8 / 10,
            Some "Student .edu discount (20%)"%string).
Proof.
  split; [exact student_edu_address|].
  split; [vm_compute; reflexivity|].
  vm_compute. intros H. discriminate H.
Qed.

(** Three seats for a student: 15000 reduced to 12000. *)
Example calculate_price_student_three :
  calculate_price student 3
  = Ok (15000, 12000, Some "Student .edu discount (20%)"%string).
Proof. vm_compute. reflexivity. Qed.

(** ** Tables *)

Lemma find_id_some {A : Type} (id : A -> Z) (k : Z) (rows : list A) (r : A) :
  find (fun x => id x =? k) rows = Some r -> id r = k /\ In r rows.
Proof.
  intros H. apply find_some in H as [Hin Hk].
  split; [apply Z.eqb_eq; exact Hk|exact Hin].
Qed.

Lemma next_id_above {A : Type} (id : A -> Z) (rows : list A) (r : A) :
  In r rows -> id r < next_id id rows.
Proof.
  unfold next_id. induction rows as [|x rows IH]; intros Hin; [contradiction|].
  cbn [fold_right]. destruct Hin as [->|Hin]; [lia|].
  specialize (IH Hin). lia.
Qed.

Lemma find_snoc {A : Type} (p : A -> bool) (l : list A) (x : A) :
  find p (l ++ [x])
  = match find p l with
    | Some y => Some y
    | None => if p x then Some x else None
    end.
Proof.
  induction l as [|y l IH]; cbn; [reflexivity|].
  destruct (p y); [reflexivity|exact IH].
Qed.

Lemma find_next_id_none {A : Type} (id : A -> Z) (rows : list A) :
  find (fun x => id x =? next_id id rows) rows = None.
Proof.
  destruct (find _ rows) as [x|] eqn:Hf; [|reflexivity].
  apply find_id_some in Hf as [Hid Hin].
  apply (next_id_above id) in Hin. lia.
Qed.

Lemma find_replace_row {A : Type} (id : A -> Z) (k : Z) (new old : A) (rows : list A) :
  find (fun x => id x =? k) rows = Some old ->
  id new = k ->
  find (fun x => id x =? k) (replace_row id k new rows) = Some new.
Proof.
  intros Hf Hn. induction rows as [|r rs IH]; [discriminate|].
  cbn in *. destruct (id r =? k) eqn:E.
  - cbn. rewrite Hn, Z.eqb_refl. reflexivity.
  - cbn. rewrite E. apply IH, Hf.
Qed.

Lemma find_replace_row_other {A : Type} (id : A -> Z) (k k' : Z) (new : A) (rows : list A) :
  id new = k -> k' <> k ->
  find (fun x => id x =? k') (replace_row id k new rows)
  = find (fun x => id x =? k') rows.
Proof.
  intros Hn Hk. induction rows as [|r rs IH]; [reflexivity|].
  cbn. destruct (id r =? k) eqn:E.
  - apply Z.eqb_eq in E. cbn. rewrite Hn, E.
    replace (k =? k') with false by (symmetry; apply Z.eqb_neq; lia).
    reflexivity.
  - cbn. destruct (id r =? k'); [reflexivity|exact IH].
Qed.

Lemma Forall_replace_row {A : Type} (P : A -> Prop) (id : A -> Z) (k : Z) (new : A)
      (rows : list A) :
  Forall P rows -> P new -> Forall P (replace_row id k new rows).
Proof.
  intros Hr Hn. induction Hr as [|r rs Hp Hrs IH]; cbn; [constructor|].
  destruct (id r =? k); constructor; auto.
Qed.

(** ** Bookings *)

Ltac simpl_view := cbn [pending committed fst snd status body].

Ltac run_view :=
  unfold run_request, bind, query, modify, commit, bound, reply, ret, raise, abort_404;
  simpl_view.

Ltac use H := rewrite H; simpl_view.

Lemma fits_int64_iff (z : Z) :
  fits_int64 z = true <-> INT64_MIN <= z <= INT64_MAX.
Proof.
  unfold fits_int64. rewrite andb_true_iff, !Z.leb_le. tauto.
Qed.

Lemma fits_int64_false (z : Z) :
  fits_int64 z = false <-> z < INT64_MIN \/ INT64_MAX < z.
Proof.
  unfold fits_int64. rewrite andb_false_iff, !Z.leb_gt. tauto.
Qed.

(** What the view does once the user, the flight and the seat count are
    known. *)
Lemma create_booking_run (int_of_str : string -> option Z) (now : Z)
      (data : booking_json) (db : Database)
      (uid fid n : Z) (user : User) (flight : Flight) :
  bj_user_id data = Some uid -> user_get uid db = Some user ->
  bj_flight_id data = Some fid -> flight_get fid db = Some flight ->
  requested_seats int_of_str data = Ok n ->
  run_request (create_booking int_of_str now data) db
  = if n <=? 0 then (error 400 "Number of seats must be positive", db)
    else if f_available_seats flight <? n
    then (error 400 "Not enough seats available", db)
    else match calculate_price user n with
         | Raise e => ({| status := 500; body := BServerError e |}, db)
         | Ok (base, final, reason) =>
             let b := {| b_id := next_id b_id (bookings db); b_user_id := u_id user;
                         b_flight_id := f_id flight; b_num_seats := n;
                         b_status := "Confirmed"; b_created_at := now;
                         b_base_price := base; b_final_price := final;
                         b_discount_reason := reason |} in
             let flight' := set_available_seats (f_available_seats flight - n) flight in
             if forallb fits_int64 [n; base; final; f_available_seats flight - n]
             then ({| status := 201; body := BBooking b user flight' |},
                   booked db flight flight' b)
             else ({| status := 500; body := BServerError OverflowError |}, db)
         end.
Proof.
  intros Hu Hug Hf Hfg Hn.
  unfold create_booking. rewrite Hu, Hf.
  run_view. use Hug. use Hfg. use Hn.
  destruct (n <=? 0); [reflexivity|].
  destruct (f_available_seats flight <? n); [reflexivity|].
  destruct (calculate_price user n) as [[[base final] reason]|e]; [|reflexivity].
  simpl_view. cbv zeta.
  destruct (forallb fits_int64 _); reflexivity.
Qed.

(** A booking answered 201 went through every check. *)
Lemma create_booking_201 (int_of_str : string -> option Z) (now : Z)
      (data : booking_json) (db : Database) :
  status (fst (run_request (create_booking int_of_str now data) db)) = 201 ->
  exists (uid fid n : Z) (user : User) (flight : Flight),
    bj_user_id data = Some uid /\ user_get uid db = Some user
    /\ bj_flight_id data = Some fid /\ flight_get fid db = Some flight
    /\ requested_seats int_of_str data = Ok n.
Proof.
  unfold create_booking.
  destruct (bj_user_id data) as [uid|]; [|run_view; discriminate].
  destruct (user_get uid db) as [user|] eqn:Hug;
    [|run_view; use Hug; discriminate].
  destruct (bj_flight_id data) as [fid|]; [|run_view; use Hug; discriminate].
  destruct (flight_get fid db) as [flight|] eqn:Hfg;
    [|run_view; use Hug; use Hfg; discriminate].
  destruct (requested_seats int_of_str data) as [n|e] eqn:Hn;
    [|run_view; use Hug; use Hfg; discriminate].
  intros _. exists uid, fid, n, user, flight. auto.
Qed.

(** A booking not answered 201 leaves the stored state as it was. *)
Lemma create_booking_failure (int_of_str : string -> option Z) (now : Z)
      (data : booking_json) (db : Database) :
  status (fst (run_request (create_booking int_of_str now data) db)) <> 201 ->
  snd (run_request (create_booking int_of_str now data) db) = db.
Proof.
  unfold create_booking.
  destruct (bj_user_id data) as [uid|]; [|reflexivity].
  destruct (user_get uid db) as [user|] eqn:Hug;
    [|run_view; use Hug; reflexivity].
  destruct (bj_flight_id data) as [fid|]; [|run_view; use Hug; reflexivity].
  destruct (flight_get fid db) as [flight|] eqn:Hfg;
    [|run_view; use Hug; use Hfg; reflexivity].
  run_view. use Hug. use Hfg.
  destruct (requested_seats int_of_str data) as [n|e]; [|reflexivity].
  destruct (n <=? 0); [reflexivity|].
  destruct (f_available_seats flight <? n); [reflexivity|].
  destruct (calculate_price user n) as [[[base final] reason]|e]; [|reflexivity].
  simpl_view. cbv zeta.
  destruct (forallb fits_int64 _); [|reflexivity].
  cbn. intros H. exfalso. apply H. reflexivity.
Qed.

(** C2.  A booking answered 201 found the user and the flight, asked for
    [n >= 1] seats with [n] no more than were available, left the flight with
    [n] seats fewer, and added one booking with status "Confirmed", the
    prices of [calculate_price] and [final_price <= base_price].  The stored
    state afterwards holds both changes; after any other answer it holds
    neither. *)
Theorem create_booking_success (int_of_str : string -> option Z) (now : Z)
        (data : booking_json) (db : Database) :
  let res := run_request (create_booking int_of_str now data) db in
  (status (fst res) = 201 ->
   exists (uid fid n : Z) (user : User) (flight flight' : Flight) (b : Booking),
     bj_user_id data = Some uid /\ user_get uid db = Some user
     /\ bj_flight_id data = Some fid /\ flight_get fid db = Some flight
     /\ requested_seats int_of_str data = Ok n
     /\ 1 <= n <= f_available_seats flight
     /\ calculate_price user n
        = Ok (b_base_price b, b_final_price b, b_discount_reason b)
     /\ b_final_price b <= b_base_price b
     /\ b_status b = "Confirmed"%string /\ b_num_seats b = n
     /\ b_user_id b = uid /\ b_flight_id b = fid
     /\ flight_get fid (snd res) = Some flight'
     /\ f_available_seats flight' = f_available_seats flight - n
     /\ bookings (snd res) = bookings db ++ [b]
     /\ (forall other : Z, other <> fid ->
                            flight_get other (snd res) = flight_get other db)
     /\ snd res = booked db flight flight' b
     /\ body (fst res) = BBooking b user flight')
  /\ (status (fst res) <> 201 -> snd res = db).
Proof.
  intros res. split; [|apply create_booking_failure].
  intros H201. subst res.
  destruct (create_booking_201 _ _ _ _ H201)
    as (uid & fid & n & user & flight & Hu & Hug & Hf & Hfg & Hn).
  rewrite (create_booking_run _ _ _ _ _ _ _ _ _ Hu Hug Hf Hfg Hn) in *.
  destruct (Z.leb_spec n 0) as [Hle|Hpos]; [discriminate H201|].
  destruct (Z.ltb_spec (f_available_seats flight) n) as [Hlt|Hav]; [discriminate H201|].
  destruct (calculate_price user n) as [[[base final] reason]|e] eqn:Hp;
    [|discriminate H201].
  cbv zeta in H201 |- *.
  destruct (forallb fits_int64 _); [|discriminate H201].
  apply find_id_some in Hug as Hid. destruct Hid as [Huid _].
  apply find_id_some in Hfg as Hid. destruct Hid as [Hfid _].
  destruct (calculate_price_le _ _ _ _ _ Hpos Hp) as [_ Hle].
  cbn [fst snd body].
  exists uid, fid, n, user, flight,
    (set_available_seats (f_available_seats flight - n) flight),
    {| b_id := next_id b_id (bookings db); b_user_id := u_id user;
       b_flight_id := f_id flight; b_num_seats := n;
       b_status := "Confirmed"; b_created_at := now;
       b_base_price := base; b_final_price := final;
       b_discount_reason := reason |}.
  cbn [b_base_price b_final_price b_discount_reason b_status b_num_seats
       b_user_id b_flight_id].
  repeat (split; [first [eassumption|reflexivity|lia]|]).
  split.
  - unfold booked, flight_get, with_bookings, with_flights. cbn [flights].
    rewrite Hfid. apply find_replace_row with (old := flight); [exact Hfg|].
    exact Hfid.
  - split; [reflexivity|]. split; [reflexivity|]. split; [|split; reflexivity].
    intros other Hother.
    unfold booked, flight_get, with_bookings, with_flights. cbn [flights].
    apply find_replace_row_other; [reflexivity|lia].
Qed.

Lemma create_booking_success_witness :
  exists b : Booking,
    bookings (snd (run_request
                     (create_booking ascii_decimal 0 (book 2 1 (Some (PStr "3"))))
                     sample_db))
    = bookings sample_db ++ [b]
    /\ b_status b = "Confirmed"%string
    /\ b_final_price b <= b_base_price b.
Proof.
  destruct (create_booking_success ascii_decimal 0 (book 2 1 (Some (PStr "3"))) sample_db)
    as [H _].
  destruct (H ltac:(vm_compute; reflexivity))
    as (uid & fid & n & user & flight & flight' & b & Hu & Hug & Hf & Hfg & Hn & Hr
        & Hp & Hle & Hs & Hns & Hbu & Hbf & Hg & Ha & Hb & Hrest).
  exists b. auto.
Defined.

(** C3.  A seat count of zero or less is never booked: the answer is not
    201 and the stored state is unchanged.  With the user and the flight
    found, such a count is refused with 400 "Number of seats must be
    positive", and a positive count above the available seats with 400 "Not
    enough seats available"; in both cases the stored state is unchanged, so
    no booking is added and the available seats stay as they were. *)
Theorem create_booking_rejects (int_of_str : string -> option Z) (now : Z)
        (data : booking_json) (db : Database) (n : Z) :
  requested_seats int_of_str data = Ok n ->
  let res := run_request (create_booking int_of_str now data) db in
  (n <= 0 -> status (fst res) <> 201 /\ snd res = db)
  /\ (forall (uid fid : Z) (user : User) (flight : Flight),
        bj_user_id data = Some uid -> user_get uid db = Some user ->
        bj_flight_id data = Some fid -> flight_get fid db = Some flight ->
        (n <= 0 ->
         res = (error 400 "Number of seats must be positive", db))
        /\ (1 <= n -> f_available_seats flight < n ->
            res = (error 400 "Not enough seats available", db)
            /\ bookings (snd res) = bookings db
            /\ flight_get fid (snd res) = Some flight)).
Proof.
  intros Hn res. subst res. split.
  - intros Hle.
    assert (Hne : status (fst (run_request (create_booking int_of_str now data) db))
                  <> 201).
    { intros H201.
      destruct (create_booking_201 _ _ _ _ H201)
        as (uid & fid & n' & user & flight & Hu & Hug & Hf & Hfg & Hn').
      assert (n' = n) by congruence. subst n'.
      rewrite (create_booking_run _ _ _ _ _ _ _ _ _ Hu Hug Hf Hfg Hn) in H201.
      destruct (Z.leb_spec n 0); [discriminate H201|lia]. }
    split; [exact Hne|apply create_booking_failure; exact Hne].
  - intros uid fid user flight Hu Hug Hf Hfg.
    rewrite (create_booking_run _ _ _ _ _ _ _ _ _ Hu Hug Hf Hfg Hn).
    split.
    + intros Hle. destruct (Z.leb_spec n 0); [reflexivity|lia].
    + intros Hpos Hlt.
      destruct (Z.leb_spec n 0); [lia|].
      destruct (Z.ltb_spec (f_available_seats flight) n); [|lia].
      cbn [snd]. auto.
Qed.

Lemma create_booking_rejects_witness :
  run_request (create_booking ascii_decimal 0 (book 2 1 (Some (PInt 11)))) sample_db
  = (error 400 "Not enough seats available", sample_db).
Proof.
  destruct (create_booking_rejects ascii_decimal 0 (book 2 1 (Some (PInt 11))) sample_db 11
              eq_refl) as [_ H].
  destruct (H 2 1 traveller del_bom eq_refl eq_refl eq_refl eq_refl) as [_ Hfull].
  apply Hfull; cbn; lia.
Defined.

(** C9.  A body without [num_seats] books one seat.  The seat count the
    view works with is 1.  Whenever the answer is 201 the stored bookings
    are the former ones followed by one booking with [num_seats = 1] on the
    flight of the request, at the base price of one seat, and that flight is
    stored with one seat fewer and its total unchanged, the other flights
    and the users as before.  The answer is 201 when the user and the flight
    are found and the flight has a seat left, its counter being a value of
    the column. *)
Theorem create_booking_default_seat (int_of_str : string -> option Z) (now : Z)
        (data : booking_json) (db : Database) :
  bj_num_seats data = None ->
  let res := run_request (create_booking int_of_str now data) db in
  requested_seats int_of_str data = Ok 1
  /\ (status (fst res) = 201 ->
      exists (uid fid : Z) (user : User) (flight flight' : Flight) (b : Booking),
        bj_user_id data = Some uid /\ user_get uid db = Some user
        /\ bj_flight_id data = Some fid /\ flight_get fid db = Some flight
        /\ body (fst res) = BBooking b user flight'
        /\ bookings (snd res) = bookings db ++ [b]
        /\ b_num_seats b = 1 /\ b_user_id b = uid /\ b_flight_id b = fid
        /\ b_base_price b = BASE_PRICE_PER_SEAT
        /\ b_status b = "Confirmed"%string
        /\ flight_get fid (snd res) = Some flight'
        /\ f_available_seats flight' = f_available_seats flight - 1
        /\ f_total_seats flight' = f_total_seats flight
        /\ (forall other : Z, other <> fid ->
                               flight_get other (snd res) = flight_get other db)
        /\ users (snd res) = users db)
  /\ (forall (uid fid : Z) (user : User) (flight : Flight),
        bj_user_id data = Some uid -> user_get uid db = Some user ->
        bj_flight_id data = Some fid -> flight_get fid db = Some flight ->
        1 <= f_available_seats flight ->
        fits_int64 (f_available_seats flight) = true ->
        status (fst res) = 201).
Proof.
  intros Hnone res.
  assert (Hn : requested_seats int_of_str data = Ok 1).
  { unfold requested_seats. rewrite Hnone. reflexivity. }
  split; [exact Hn|]. subst res. split.
  - intros H201.
    destruct (create_booking_201 _ _ _ _ H201)
      as (uid & fid & n & user & flight & Hu & Hug & Hf & Hfg & Hn').
    assert (n = 1) by congruence. subst n.
    rewrite (create_booking_run _ _ _ _ _ _ _ _ _ Hu Hug Hf Hfg Hn) in *.
    change (1 <=? 0) with false in *. cbv iota in H201 |- *.
    destruct (Z.ltb_spec (f_available_seats flight) 1); [discriminate H201|].
    destruct (calculate_price user 1) as [[[base final] reason]|e] eqn:Hp;
      [|discriminate H201].
    cbv zeta in H201 |- *.
    destruct (forallb fits_int64 _); [|discriminate H201].
    destruct (calculate_price_le user 1 base final reason ltac:(lia) Hp) as [Hbase _].
    apply find_id_some in Hug as Hid. destruct Hid as [Huid _].
    apply find_id_some in Hfg as Hid. destruct Hid as [Hfid _].
    cbn [fst snd body].
    exists uid, fid, user, flight,
      (set_available_seats (f_available_seats flight - 1) flight),
      {| b_id := next_id b_id (bookings db); b_user_id := u_id user;
         b_flight_id := f_id flight; b_num_seats := 1;
         b_status := "Confirmed"; b_created_at := now;
         b_base_price := base; b_final_price := final;
         b_discount_reason := reason |}.
    cbn [b_num_seats b_user_id b_flight_id b_base_price b_status].
    unfold booked, flight_get, with_bookings, with_flights.
    cbn [flights bookings users set_available_seats f_available_seats f_total_seats].
    repeat (split; [first [eassumption|reflexivity|exact Hbase]|]).
    split; [rewrite Hfid; apply find_replace_row with (old := flight);
            [exact Hfg|exact Hfid]|].
    split; [reflexivity|]. split; [reflexivity|]. split; [|reflexivity].
    intros other Hother. apply find_replace_row_other; [reflexivity|lia].
  - intros uid fid user flight Hu Hug Hf Hfg Hav Hfit.
    rewrite (create_booking_run _ _ _ _ _ _ _ _ _ Hu Hug Hf Hfg Hn).
    change (1 <=? 0) with false. cbv iota.
    destruct (Z.ltb_spec (f_available_seats flight) 1); [lia|].
    destruct (calculate_price user 1) as [[[base final] reason]|e] eqn:Hp.
    + destruct (calculate_price_le user 1 base final reason ltac:(lia) Hp) as [Hbase Hfinal].
      cbv zeta.
      replace (forallb fits_int64 [1; base; final; f_available_seats flight - 1])
        with true; [reflexivity|].
      symmetry. unfold fits_int64, INT64_MIN, INT64_MAX in *. cbn [forallb].
      apply andb_prop in Hfit as [H1 H2].
      apply Z.leb_le in H1, H2.
      repeat (apply andb_true_intro; split); try reflexivity; apply Z.leb_le; lia.
    + exfalso. destruct (endswith (lower (u_email user)) ".edu") eqn:E.
      * rewrite (calculate_price_student user 1 E) in Hp by (vm_compute; discriminate).
        discriminate Hp.
      * rewrite (calculate_price_plain user 1 E) in Hp. discriminate Hp.
Qed.

Lemma create_booking_default_seat_witness :
  exists b : Booking,
    bookings (snd (run_request (create_booking ascii_decimal 0 (book 1 1 None))
                     sample_db))
    = bookings sample_db ++ [b]
    /\ b_num_seats b = 1 /\ b_flight_id b = 1
    /\ exists flight' : Flight,
         flight_get 1 (snd (run_request (create_booking ascii_decimal 0 (book 1 1 None))
                              sample_db))
         = Some flight'
         /\ f_available_seats flight' = 9.
Proof.
  destruct (create_booking_default_seat ascii_decimal 0 (book 1 1 None) sample_db eq_refl)
    as (_ & Hif & Hsucc).
  assert (H201 := Hsucc 1 1 student del_bom eq_refl eq_refl eq_refl eq_refl
                        ltac:(cbn; lia) eq_refl).
  destruct (Hif H201)
    as (uid & fid & user & flight & flight' & b & _ & _ & Hf & Hfg & _ & Hb & Hn & _
        & Hbf & _ & _ & Hg & Ha & _).
  assert (Hfid : fid = 1) by (cbn in Hf; congruence).
  rewrite Hfid in Hfg, Hg, Hbf.
  assert (Hflight : Some flight = Some del_bom) by (rewrite <- Hfg; reflexivity).
  injection Hflight as ->.
  exists b. split; [exact Hb|]. split; [exact Hn|]. split; [exact Hbf|].
  exists flight'. split; [exact Hg|]. rewrite Ha. reflexivity.
Defined.

(** ** Flights *)

Lemma present_false_iff (o : option string) : present o = false <-> missing o.
Proof.
  unfold present, missing. destruct o as [s|]; [|intuition].
  destruct (String.eqb_spec s "") as [->|Hne]; cbn; split; auto.
  - discriminate.
  - intros [H|H]; [discriminate|]. congruence.
Qed.

Lemma present_true_iff (o : option string) : present o = true <-> ~ missing o.
Proof.
  rewrite <- present_false_iff. destruct (present o); split; congruence.
Qed.

Lemma code_in_iff (x : string) (codes : list string) :
  code_in x codes = true <-> In x codes.
Proof.
  unfold code_in. rewrite existsb_exists. split.
  - intros (y & Hin & Heq). apply String.eqb_eq in Heq. subst. exact Hin.
  - intros Hin. exists x. split; [exact Hin|apply String.eqb_refl].
Qed.

Lemma required_flight_fields_false (data : flight_json) :
  required_flight_fields data = false <->
  missing (fj_code data) \/ missing (fj_source data) \/ missing (fj_destination data)
  \/ missing (fj_departure_time data) \/ missing (fj_arrival_time data)
  \/ truthy (fj_total_seats data) = false.
Proof.
  unfold required_flight_fields.
  rewrite !andb_false_iff, !present_false_iff. tauto.
Qed.

Lemma required_flight_fields_true (data : flight_json) :
  required_flight_fields data = true <->
  ~ missing (fj_code data) /\ ~ missing (fj_source data) /\ ~ missing (fj_destination data)
  /\ ~ missing (fj_departure_time data) /\ ~ missing (fj_arrival_time data)
  /\ truthy (fj_total_seats data) = true.
Proof.
  unfold required_flight_fields.
  rewrite !andb_true_iff, !present_true_iff. tauto.
Qed.

(** The flight a body describes once its seat count is read as [total]. *)
Lemma create_flight_run (int_of_str : string -> option Z) (env : Env)
      (data : flight_json) (db : Database) :
  run_request (create_flight int_of_str env data) db
  = if negb (required_flight_fields data)
    then (error 400 "Missing required flight fields", db)
    else if (negb (code_in (text (fj_source data)) (valid_codes env))
             || negb (code_in (text (fj_destination data)) (valid_codes env)))%bool
    then (error 400 "Invalid airport code", db)
    else if (text (fj_source data) =? text (fj_destination data))%string
    then (error 400 "Source and destination cannot be same", db)
    else match py_int int_of_str (fj_total_seats data) with
         | Raise e => ({| status := 500; body := BServerError e |}, db)
         | Ok total =>
             let f := {| f_id := next_id f_id (flights db);
                         f_code := text (fj_code data);
                         f_source := text (fj_source data);
                         f_destination := text (fj_destination data);
                         f_departure_time := text (fj_departure_time data);
                         f_arrival_time := text (fj_arrival_time data);
                         f_total_seats := total;
                         f_available_seats := total;
                         f_status := match fj_status data with
                                     | Some st => st
                                     | None => "On Time"%string
                                     end |} in
             if fits_int64 total
             then ({| status := 201; body := BFlight f |},
                   with_flights (flights db ++ [f]) db)
             else ({| status := 500; body := BServerError OverflowError |}, db)
         end.
Proof.
  unfold create_flight.
  destruct (negb (required_flight_fields data)); [reflexivity|].
  destruct (negb (code_in _ _) || negb (code_in _ _))%bool; [reflexivity|].
  destruct (text (fj_source data) =? text (fj_destination data))%string; [reflexivity|].
  destruct (py_int int_of_str (fj_total_seats data)) as [total|e]; [|reflexivity].
  run_view. cbn [forallb]. cbv zeta.
  destruct (fits_int64 total); reflexivity.
Qed.

(** C7.  [create_flight] answers 400 "Missing required flight fields" when
    one of code, source, destination, departure_time, arrival_time is missing
    or empty or total_seats is falsy; with all of them present, 400 "Invalid
    airport code" when source or destination is not a code of the airports
    file; with both valid, 400 "Source and destination cannot be same" when
    they are equal.  An answer 201 leaves the table with the former flights
    followed by one new flight, under a fresh id, whose available seats equal
    its total seats, the integer read from total_seats, and whose status is
    the one given or "On Time"; the other tables are as before.  The answer
    is 201 exactly when the checks pass and total_seats reads as an integer
    of the 64-bit range; an integer beyond it is refused when the row is
    written, with the answer 500.  Every answer other than 201 leaves the
    stored state unchanged. *)
Theorem create_flight_spec (int_of_str : string -> option Z) (env : Env)
        (data : flight_json) (db : Database) :
  let res := run_request (create_flight int_of_str env data) db in
  let source := text (fj_source data) in
  let destination := text (fj_destination data) in
  (required_flight_fields data = false ->
   res = (error 400 "Missing required flight fields", db))
  /\ (required_flight_fields data = true ->
      ~ In source (valid_codes env) \/ ~ In destination (valid_codes env) ->
      res = (error 400 "Invalid airport code", db))
  /\ (required_flight_fields data = true ->
      In source (valid_codes env) -> In destination (valid_codes env) ->
      source = destination ->
      res = (error 400 "Source and destination cannot be same", db))
  /\ (status (fst res) = 201 ->
      exists f : Flight,
        body (fst res) = BFlight f
        /\ flights (snd res) = flights db ++ [f]
        /\ flight_get (f_id f) (snd res) = Some f
        /\ (forall g, In g (flights db) -> f_id g <> f_id f)
        /\ users (snd res) = users db /\ bookings (snd res) = bookings db
        /\ otp_codes (snd res) = otp_codes db
        /\ py_int int_of_str (fj_total_seats data) = Ok (f_total_seats f)
        /\ fits_int64 (f_total_seats f) = true
        /\ f_available_seats f = f_total_seats f
        /\ f_status f = match fj_status data with
                        | Some st => st
                        | None => "On Time"%string
                        end
        /\ f_code f = text (fj_code data)
        /\ f_source f = source /\ f_destination f = destination
        /\ In source (valid_codes env) /\ In destination (valid_codes env)
        /\ source <> destination)
  /\ (forall total : Z,
        required_flight_fields data = true ->
        In source (valid_codes env) -> In destination (valid_codes env) ->
        source <> destination ->
        py_int int_of_str (fj_total_seats data) = Ok total ->
        (fits_int64 total = true -> status (fst res) = 201)
        /\ (fits_int64 total = false ->
            res = ({| status := 500; body := BServerError OverflowError |}, db)))
  /\ (status (fst res) <> 201 -> snd res = db).
Proof.
  intros res source destination. subst res. rewrite create_flight_run.
  fold source. fold destination.
  destruct (required_flight_fields data) eqn:Hreq; cbn [negb].
  2:{ repeat split; intros; try discriminate; reflexivity. }
  destruct (code_in source (valid_codes env)) eqn:Hs;
    destruct (code_in destination (valid_codes env)) eqn:Hd; cbn [negb orb].
  2,3,4: (repeat split; intros;
          repeat match goal with
                 | H : In _ _ |- _ => apply code_in_iff in H
                 end; try congruence; try discriminate; reflexivity).
  apply code_in_iff in Hs, Hd.
  destruct (String.eqb_spec source destination) as [Heq|Hne].
  { repeat split; intros; try discriminate; try tauto; try reflexivity. }
  destruct (py_int int_of_str (fj_total_seats data)) as [total|e] eqn:Hint.
  2:{ cbn [fst snd status body].
      repeat split; intros; try discriminate; try tauto. }
  cbv zeta. destruct (fits_int64 total) eqn:Hfit; cbn [fst snd status body].
  2:{ split; [discriminate|]. split; [tauto|]. split; [tauto|].
      split; [discriminate|]. split; [|reflexivity].
      intros total' _ _ _ _ Htotal. assert (total' = total) by congruence. subst total'.
      split; [congruence|reflexivity]. }
  split; [discriminate|]. split; [tauto|]. split; [tauto|].
  split; [|split].
  - intros _. eexists. split; [reflexivity|].
    cbn [flights users bookings otp_codes with_flights f_id f_total_seats
         f_available_seats f_status f_code f_source f_destination].
    split; [reflexivity|]. split.
    { unfold flight_get, with_flights. cbn [flights].
      rewrite find_snoc, find_next_id_none. cbn [f_id]. rewrite Z.eqb_refl.
      reflexivity. }
    split.
    { intros g Hin. apply (next_id_above f_id) in Hin. cbn [f_id]. lia. }
    repeat (split; [first [reflexivity|assumption]|]). assumption.
  - intros total' _ _ _ _ Htotal. assert (total' = total) by congruence. subst total'.
    split; [reflexivity|congruence].
  - intros H. exfalso. apply H. reflexivity.
Qed.

Lemma create_flight_spec_witness :
  exists f : Flight,
    flights (snd (run_request
                    (create_flight ascii_decimal sample_env
                       (new_flight "DEL" "BOM" (PStr "10")))
                    sample_db))
    = flights sample_db ++ [f]
    /\ f_total_seats f = 10 /\ f_available_seats f = 10
    /\ f_status f = "On Time"%string.
Proof.
  destruct (create_flight_spec ascii_decimal sample_env
              (new_flight "DEL" "BOM" (PStr "10")) sample_db)
    as (_ & _ & _ & Hif & Hok & _).
  destruct (Hok 10) as [H201 _]; try reflexivity.
  - cbn. auto.
  - cbn. auto.
  - discriminate.
  - destruct (Hif (H201 eq_refl))
      as (f & _ & Hfl & _ & _ & _ & _ & _ & Hint & _ & Hav & Hst & _).
    exists f. split; [exact Hfl|].
    assert (Htot : Ok 10 = Ok (f_total_seats f)) by (rewrite <- Hint; reflexivity).
    injection Htot as Htot.
    split; [symmetry; exact Htot|]. split; [rewrite Hav; symmetry; exact Htot|exact Hst].
Defined.

(** A seat count beyond the 64-bit range passes every check of the view and
    is refused when the row is written. *)
Example create_flight_too_many_seats :
  run_request (create_flight ascii_decimal sample_env
                 (new_flight "DEL" "BOM" (PInt (2 ^ 63)))) sample_db
  = ({| status := 500; body := BServerError OverflowError |}, sample_db).
Proof. vm_compute. reflexivity. Qed.

Lemma update_flight_run (env : Env) (flight_id : Z) (data : flight_update_json)
      (db : Database) :
  run_request (update_flight env flight_id data) db
  = if fits_int64 flight_id
    then
      match flight_get flight_id db with
      | None => ({| status := 404; body := BNotFound |}, db)
      | Some flight =>
          if bad_code (uj_source data) (valid_codes env)
          then (error 400 "Invalid source airport", db)
          else if bad_code (uj_destination data) (valid_codes env)
          then (error 400 "Invalid destination airport", db)
          else if forallb fits_int64
                    (given (uj_total_seats data) ++ given (uj_available_seats data))
          then ({| status := 200; body := BFlight (apply_update data flight) |},
                with_flights
                  (replace_row f_id (f_id flight) (apply_update data flight) (flights db))
                  db)
          else ({| status := 500; body := BServerError OverflowError |}, db)
      end
    else ({| status := 500; body := BServerError OverflowError |}, db).
Proof.
  unfold update_flight. run_view. cbn [forallb]. rewrite andb_true_r.
  destruct (fits_int64 flight_id); [|reflexivity]. simpl_view.
  destruct (flight_get flight_id db) as [flight|]; [|reflexivity].
  destruct (bad_code (uj_source data) _); [reflexivity|].
  destruct (bad_code (uj_destination data) _); [reflexivity|].
  simpl_view. destruct (forallb fits_int64 _); reflexivity.
Qed.

(** ** The seat invariant *)

Lemma seats_inv_create_flight (int_of_str : string -> option Z) (env : Env)
      (data : flight_json) (db : Database) :
  (forall total : Z, py_int int_of_str (fj_total_seats data) = Ok total -> 0 <= total) ->
  seats_inv db ->
  seats_inv (snd (run_request (create_flight int_of_str env data) db)).
Proof.
  intros Htot Hinv. rewrite create_flight_run.
  destruct (negb _); [exact Hinv|].
  destruct (_ || _)%bool; [exact Hinv|].
  destruct (_ =? _)%string; [exact Hinv|].
  destruct (py_int int_of_str (fj_total_seats data)) as [total|e] eqn:Hint; [|exact Hinv].
  cbv zeta. destruct (fits_int64 total); [|exact Hinv].
  cbn [snd]. unfold seats_inv, with_flights. cbn [flights].
  apply Forall_app. split; [exact Hinv|].
  constructor; [|constructor].
  unfold seats_ok. cbn. specialize (Htot total eq_refl). lia.
Qed.

Lemma seats_inv_update_flight (env : Env) (flight_id : Z) (data : flight_update_json)
      (db : Database) :
  uj_total_seats data = None -> uj_available_seats data = None ->
  seats_inv db ->
  seats_inv (snd (run_request (update_flight env flight_id data) db)).
Proof.
  intros Ht Ha Hinv. rewrite update_flight_run.
  destruct (fits_int64 flight_id); [|exact Hinv].
  destruct (flight_get flight_id db) as [flight|] eqn:Hfg; [|exact Hinv].
  destruct (bad_code (uj_source data) _); [exact Hinv|].
  destruct (bad_code (uj_destination data) _); [exact Hinv|].
  destruct (forallb fits_int64 _); [|exact Hinv].
  cbn [snd]. unfold seats_inv, with_flights. cbn [flights].
  apply Forall_replace_row; [exact Hinv|].
  apply find_id_some in Hfg as [_ Hin].
  unfold seats_inv in Hinv. rewrite Forall_forall in Hinv. specialize (Hinv _ Hin).
  unfold seats_ok, apply_update in *. cbn. rewrite Ht, Ha. exact Hinv.
Qed.

Lemma seats_inv_create_booking (int_of_str : string -> option Z) (now : Z)
      (data : booking_json) (db : Database) :
  seats_inv db ->
  seats_inv (snd (run_request (create_booking int_of_str now data) db)).
Proof.
  intros Hinv.
  destruct (Z.eq_dec
              (status (fst (run_request (create_booking int_of_str now data) db))) 201)
    as [H201|Hne].
  2:{ rewrite create_booking_failure by exact Hne. exact Hinv. }
  destruct (create_booking_201 _ _ _ _ H201)
    as (uid & fid & n & user & flight & Hu & Hug & Hf & Hfg & Hn).
  rewrite (create_booking_run _ _ _ _ _ _ _ _ _ Hu Hug Hf Hfg Hn) in *.
  destruct (Z.leb_spec n 0) as [Hle|Hpos]; [exact Hinv|].
  destruct (Z.ltb_spec (f_available_seats flight) n) as [Hlt|Hav]; [exact Hinv|].
  destruct (calculate_price user n) as [[[base final] reason]|e]; [|exact Hinv].
  cbv zeta. destruct (forallb fits_int64 _); [|exact Hinv].
  cbn [snd]. unfold seats_inv, booked, with_bookings, with_flights. cbn [flights].
  apply Forall_replace_row; [exact Hinv|].
  apply find_id_some in Hfg as [_ Hin].
  unfold seats_inv in Hinv. rewrite Forall_forall in Hinv. specialize (Hinv _ Hin).
  unfold seats_ok, set_available_seats in *. cbn. lia.
Qed.

(** C1 (amended).  Starting from a state in which every flight has
    [0 <= available_seats <= total_seats] (the empty database is one), the
    same holds after any sequence of bookings, of flight creations with a
    seat count that is not negative, and of flight updates that set neither
    total_seats nor available_seats. *)
Theorem seats_inv_run_calls (int_of_str : string -> option Z) (cs : list api_call)
        (db : Database) :
  Forall (keeps_seats int_of_str) cs ->
  seats_inv db ->
  seats_inv (run_calls int_of_str cs db).
Proof.
  intros Hcs. revert db. unfold run_calls.
  induction Hcs as [|c cs Hc Hcs IH]; intros db Hinv; [exact Hinv|].
  cbn [fold_left]. apply IH.
  destruct c as [env data|env flight_id data|now data]; cbn [run_call keeps_seats] in *.
  - apply seats_inv_create_flight; assumption.
  - destruct Hc as [Ht Ha]. apply seats_inv_update_flight; assumption.
  - apply seats_inv_create_booking; assumption.
Qed.

Lemma seats_inv_run_calls_witness :
  seats_inv (run_calls ascii_decimal
               [CreateFlight sample_env (new_flight "DEL" "BOM" (PInt 10));
                CreateBooking 0 (book 1 1 (Some (PInt 3)));
                UpdateFlight sample_env 1 delay]
               empty_db).
Proof.
  apply (seats_inv_run_calls ascii_decimal).
  - repeat constructor. cbn. intros total H. injection H as <-. lia.
  - constructor.
Defined.

(** C1 as stated fails: an update may write any available_seats, and a
    flight may be created with a negative seat count. *)
Lemma seats_inv_broken :
  ~ seats_inv (run_calls ascii_decimal
                 [CreateFlight sample_env (new_flight "DEL" "BOM" (PInt 10));
                  UpdateFlight sample_env 1 (set_available 20)]
                 empty_db)
  /\ ~ seats_inv (run_calls ascii_decimal
                    [CreateFlight sample_env (new_flight "DEL" "BOM" (PInt (-5)))]
                    empty_db).
Proof.
  split; intros H; vm_compute in H; inversion H as [|f fs Hf _]; subst;
    destruct Hf as [H1 H2]; vm_compute in H1, H2; congruence.
Qed.

(** ** OTP lookup *)

Lemma later_fold (l : list OtpCode) (b r : OtpCode) :
  fold_left later l (Some b) = Some r ->
  (r = b \/ In r l)
  /\ o_created_at b <= o_created_at r
  /\ (forall o, In o l -> o_created_at o <= o_created_at r).
Proof.
  revert b. induction l as [|x l IH]; intros b H; cbn in H.
  - injection H as <-. split; [auto|]. split; [lia|]. intros o [].
  - destruct (Z.ltb_spec (o_created_at b) (o_created_at x)) as [Hlt|Hge];
      apply IH in H as (Hin & Hle & Hall).
    + split; [right; destruct Hin; [left; congruence|right; assumption]|].
      split; [lia|]. intros o [<-|Ho]; auto.
    + split; [destruct Hin; [auto|right; right; assumption]|].
      split; [lia|]. intros o [<-|Ho]; [lia|auto].
Qed.

Lemma later_fold_some (l : list OtpCode) (b : OtpCode) :
  exists r, fold_left later l (Some b) = Some r.
Proof.
  revert b. induction l as [|x l IH]; intros b; cbn; [eauto|].
  destruct (o_created_at b <? o_created_at x); apply IH.
Qed.

Lemma otp_latest_unused_some (phone code : string) (db : Database) (otp : OtpCode) :
  otp_latest_unused phone code db = Some otp ->
  In otp (otp_codes db)
  /\ otp_matches phone code otp = true
  /\ (forall o, In o (otp_codes db) -> otp_matches phone code o = true ->
                o_created_at o <= o_created_at otp).
Proof.
  unfold otp_latest_unused.
  destruct (filter (otp_matches phone code) (otp_codes db)) as [|x l] eqn:Hf;
    [discriminate|].
  cbn. intros H. apply later_fold in H as (Hin & Hle & Hall).
  assert (Hinf : In otp (filter (otp_matches phone code) (otp_codes db))).
  { rewrite Hf. destruct Hin; [left; congruence|right; assumption]. }
  apply filter_In in Hinf as [Hi Hm].
  split; [exact Hi|]. split; [exact Hm|].
  intros o Ho Hmo.
  assert (Hof : In o (x :: l)) by (rewrite <- Hf; apply filter_In; auto).
  destruct Hof as [<-|Hof]; auto.
Qed.

Lemma otp_latest_unused_none (phone code : string) (db : Database) :
  otp_latest_unused phone code db = None <->
  (forall o, In o (otp_codes db) -> otp_matches phone code o = false).
Proof.
  unfold otp_latest_unused. split.
  - intros H o Ho.
    destruct (filter (otp_matches phone code) (otp_codes db)) as [|x l] eqn:Hf.
    + destruct (otp_matches phone code o) eqn:Hm; [|reflexivity].
      assert (In o []) by (rewrite <- Hf; apply filter_In; auto). contradiction.
    + cbn in H. destruct (later_fold_some l x) as [r Hr]. congruence.
  - intros H.
    replace (filter (otp_matches phone code) (otp_codes db)) with (@nil OtpCode);
      [reflexivity|].
    symmetry. induction (otp_codes db) as [|x l IH]; [reflexivity|].
    cbn. rewrite (H x (or_introl eq_refl)). apply IH.
    intros o Ho. apply H. right. exact Ho.
Qed.

Lemma otp_matches_iff (phone code : string) (o : OtpCode) :
  otp_matches phone code o = true <->
  o_phone o = phone /\ o_code o = code /\ o_is_used o = false.
Proof.
  unfold otp_matches. rewrite !andb_true_iff, !String.eqb_eq, negb_true_iff. tauto.
Qed.

(** With distinct primary keys, writing a row back changes that row and no
    other. *)
Lemma replace_row_split {A : Type} (id : A -> Z) (new old : A) (rows : list A) :
  NoDup (map id rows) -> In old rows ->
  exists l1 l2, rows = l1 ++ old :: l2
                /\ replace_row id (id old) new rows = l1 ++ new :: l2.
Proof.
  induction rows as [|r rs IH]; intros Hnd Hin; [contradiction|].
  cbn in Hnd. inversion Hnd as [|? ? Hnotin Hnd']; subst.
  cbn. destruct Hin as [->|Hin].
  - rewrite Z.eqb_refl. exists [], rs. auto.
  - destruct (Z.eqb_spec (id r) (id old)) as [Heq|Hne].
    + exfalso. apply Hnotin. rewrite Heq. apply in_map. exact Hin.
    + destruct (IH Hnd' Hin) as (l1 & l2 & -> & Hrep).
      exists (r :: l1), l2. cbn. rewrite Hrep. auto.
Qed.

(** ** Registration *)

Lemma register_run (int_of_str : string -> option Z) (data : register_json)
      (db : Database) :
  run_request (register int_of_str data) db
  = if negb (required_register_fields data)
    then (error 400 "name, email, password, phone and otp are required", db)
    else match user_by_email (text (rj_email data)) db with
         | Some _ => (error 400 "Email already registered", db)
         | None =>
             match otp_latest_unused (text (rj_phone data)) (py_str (rj_otp data)) db with
             | None => (error 400 "Invalid or used OTP", db)
             | Some otp =>
                 match parse_age int_of_str (rj_age data) with
                 | Ok age =>
                     let user := new_user data age (next_id u_id (users db)) in
                     if forallb fits_int64 (given age)
                     then ({| status := 201; body := BUser user |},
                           registered db otp user)
                     else ({| status := 500; body := BServerError OverflowError |}, db)
                 | Raise ValueError => (error 400 "age must be a number", db)
                 | Raise e => ({| status := 500; body := BServerError e |}, db)
                 end
             end
         end.
Proof.
  unfold register.
  destruct (negb (required_register_fields data)); [reflexivity|].
  run_view.
  destruct (user_by_email _ db); [reflexivity|]. simpl_view.
  destruct (otp_latest_unused _ _ db) as [otp|]; [|reflexivity]. simpl_view.
  destruct (parse_age int_of_str (rj_age data)) as [age|[]]; try reflexivity.
  simpl_view. cbv zeta. destruct (forallb fits_int64 (given age)); reflexivity.
Qed.

(** A registration not answered 201 leaves the stored state as it was. *)
Lemma register_failure (int_of_str : string -> option Z) (data : register_json)
      (db : Database) :
  status (fst (run_request (register int_of_str data) db)) <> 201 ->
  snd (run_request (register int_of_str data) db) = db.
Proof.
  rewrite register_run.
  destruct (negb _); [reflexivity|].
  destruct (user_by_email _ db); [reflexivity|].
  destruct (otp_latest_unused _ _ db) as [otp|]; [|reflexivity].
  destruct (parse_age int_of_str (rj_age data)) as [age|[]]; try reflexivity.
  cbv zeta. destruct (forallb fits_int64 (given age)); [|reflexivity].
  cbn. intros H. exfalso. apply H. reflexivity.
Qed.

(** A registration answered 201 went through every check. *)
Lemma register_201 (int_of_str : string -> option Z) (data : register_json)
      (db : Database) :
  status (fst (run_request (register int_of_str data) db)) = 201 ->
  exists (otp : OtpCode) (age : option Z),
    required_register_fields data = true
    /\ user_by_email (text (rj_email data)) db = None
    /\ otp_latest_unused (text (rj_phone data)) (py_str (rj_otp data)) db = Some otp
    /\ parse_age int_of_str (rj_age data) = Ok age
    /\ run_request (register int_of_str data) db
       = ({| status := 201;
             body := BUser (new_user data age (next_id u_id (users db))) |},
          registered db otp (new_user data age (next_id u_id (users db)))).
Proof.
  rewrite register_run.
  destruct (required_register_fields data); [|discriminate].
  destruct (user_by_email _ db); [discriminate|].
  destruct (otp_latest_unused _ _ db) as [otp|]; [|discriminate].
  destruct (parse_age int_of_str (rj_age data)) as [age|[]]; try discriminate.
  cbv zeta. destruct (forallb fits_int64 (given age)); [|discriminate].
  intros _. exists otp, age. cbn [negb]. auto.
Qed.

Lemma user_by_email_some (email : string) (db : Database) :
  (exists u, In u (users db) /\ u_email u = email) <->
  (exists u, user_by_email email db = Some u).
Proof.
  unfold user_by_email. split.
  - intros (u & Hin & He).
    destruct (find _ (users db)) as [v|] eqn:Hf; [eauto|].
    exfalso. apply (find_none _ _ Hf) in Hin. rewrite He, String.eqb_refl in Hin.
    discriminate.
  - intros (u & Hf). apply find_some in Hf as [Hin He].
    apply String.eqb_eq in He. eauto.
Qed.

Lemma unused_count_consumed (phone code : string) (otp : OtpCode) (l1 l2 : list OtpCode) :
  otp_matches phone code otp = true ->
  (List.length (filter (otp_matches phone code) (l1 ++ mark_used otp :: l2)) + 1
   = List.length (filter (otp_matches phone code) (l1 ++ otp :: l2)))%nat.
Proof.
  intros Hm. rewrite !filter_app, !List.length_app. cbn [filter].
  rewrite Hm.
  replace (otp_matches phone code (mark_used otp)) with false.
  - cbn [List.length]. lia.
  - unfold otp_matches, mark_used. cbn. rewrite andb_false_r. reflexivity.
Qed.

(** C5.  With [phone] and [code] the phone and the text of the OTP of the
    body: (1) when every OTP row with this phone and code is used, the
    registration is not answered 201 and stores nothing, and with the
    required fields present and a fresh address the answer is 400 "Invalid
    or used OTP"; (2) a registration answered 201 turns exactly one OTP row
    to used, a row with this phone and code that was unused and has the
    greatest [created_at] among such rows, so one fewer row can be consumed
    afterwards (primary keys being distinct); (3) with the required fields
    present, an address that already has a user is refused with 400 "Email
    already registered"; (4) after a registration answered 201, any further
    registration with the same address is refused that way. *)
Theorem otp_single_use (int_of_str : string -> option Z) (data : register_json)
        (db : Database) :
  let res := run_request (register int_of_str data) db in
  let email := text (rj_email data) in
  let phone := text (rj_phone data) in
  let code := py_str (rj_otp data) in
  ((forall o, In o (otp_codes db) -> o_phone o = phone -> o_code o = code ->
              o_is_used o = true) ->
   status (fst res) <> 201 /\ snd res = db
   /\ (required_register_fields data = true ->
       (forall u, In u (users db) -> u_email u <> email) ->
       res = (error 400 "Invalid or used OTP", db)))
  /\ (status (fst res) = 201 -> NoDup (map o_id (otp_codes db)) ->
      exists (otp : OtpCode) (l1 l2 : list OtpCode),
        otp_codes db = l1 ++ otp :: l2
        /\ otp_codes (snd res) = l1 ++ mark_used otp :: l2
        /\ o_phone otp = phone /\ o_code otp = code /\ o_is_used otp = false
        /\ (forall o, In o (otp_codes db) -> o_phone o = phone -> o_code o = code ->
                      o_is_used o = false -> o_created_at o <= o_created_at otp)
        /\ (unused_count phone code (snd res) + 1 = unused_count phone code db)%nat)
  /\ (required_register_fields data = true ->
      (exists u, In u (users db) /\ u_email u = email) ->
      res = (error 400 "Email already registered", db))
  /\ (status (fst res) = 201 ->
      forall data' : register_json,
        required_register_fields data' = true ->
        text (rj_email data') = email ->
        run_request (register int_of_str data') (snd res)
        = (error 400 "Email already registered", snd res)).
Proof.
  intros res email phone code.
  split; [|split; [|split]].
  - intros Hused.
    assert (Hnone : otp_latest_unused phone code db = None).
    { apply otp_latest_unused_none. intros o Ho.
      destruct (otp_matches phone code o) eqn:Hm; [|reflexivity].
      apply otp_matches_iff in Hm as (Hp & Hc & Hu).
      rewrite (Hused o Ho Hp Hc) in Hu. discriminate. }
    subst res. rewrite register_run. fold email phone code. rewrite Hnone.
    destruct (required_register_fields data); cbn [negb].
    + destruct (user_by_email email db) as [u|] eqn:Hue.
      * cbn. split; [discriminate|]. split; [reflexivity|].
        intros _ Hfresh. exfalso.
        apply find_some in Hue as [Hin He]. apply String.eqb_eq in He.
        exact (Hfresh u Hin He).
      * cbn. split; [discriminate|]. auto.
    + cbn. split; [discriminate|]. split; [reflexivity|]. discriminate.
  - intros H201 Hnd. subst res.
    destruct (register_201 _ _ _ H201) as (otp & age & Hreq & Hue & Hotp & Hage & Hrun).
    rewrite Hrun. cbn [snd]. fold phone code in Hotp.
    apply otp_latest_unused_some in Hotp as (Hin & Hm & Hmax).
    destruct (replace_row_split o_id (mark_used otp) otp _ Hnd Hin)
      as (l1 & l2 & Hsplit & Hrep).
    exists otp, l1, l2.
    apply otp_matches_iff in Hm as Hm'. destruct Hm' as (Hp & Hc & Hu).
    split; [exact Hsplit|].
    assert (Hcodes : otp_codes (registered db otp
                                  (new_user data age (next_id u_id (users db))))
                     = l1 ++ mark_used otp :: l2) by exact Hrep.
    split; [exact Hcodes|].
    repeat (split; [assumption|]).
    split.
    + intros o Ho Hop Hoc Hou. apply Hmax; [exact Ho|].
      apply otp_matches_iff. auto.
    + unfold unused_count. rewrite Hcodes, Hsplit.
      apply unused_count_consumed. exact Hm.
  - intros Hreq Hdup. subst res. rewrite register_run. rewrite Hreq. cbn [negb].
    apply user_by_email_some in Hdup as [u Hu]. fold email. rewrite Hu. reflexivity.
  - intros H201 data' Hreq' Hemail. subst res.
    destruct (register_201 _ _ _ H201) as (otp & age & Hreq & Hue & Hotp & Hage & Hrun).
    rewrite Hrun. cbn [snd]. rewrite register_run, Hreq'. cbn [negb].
    rewrite Hemail.
    assert (Hdup : exists u,
               user_by_email email
                 (registered db otp (new_user data age (next_id u_id (users db))))
               = Some u).
    { apply user_by_email_some.
      exists (new_user data age (next_id u_id (users db))).
      split; [|reflexivity].
      unfold registered, with_users. cbn [users]. apply in_or_app. right. left.
      reflexivity. }
    destruct Hdup as [u Hu]. rewrite Hu. reflexivity.
Qed.

Lemma otp_single_use_witness :
  exists (l1 l2 : list OtpCode),
    otp_codes (snd (run_request
                      (register ascii_decimal (signup "cleo@mail.com" PNone (PInt 123456)))
                      otp_db))
    = l1 ++ mark_used (otp_row 2 "123456" 200 false) :: l2.
Proof.
  destruct (otp_single_use ascii_decimal (signup "cleo@mail.com" PNone (PInt 123456)) otp_db)
    as (_ & H & _).
  destruct H as (otp & l1 & l2 & Hdb & Hres & _).
  - vm_compute. reflexivity.
  - cbn. repeat constructor; cbn; intuition discriminate.
  - exists [otp_row 1 "123456" 100 false], [otp_row 3 "654321" 300 true].
    vm_compute. reflexivity.
Defined.

(** C10.  A registration that is not answered 201 stores nothing: no user
    row and no OTP row marked used.  In particular, when the fields are
    present, the address is fresh, an unused OTP row matches and the age is
    a text that [int] rejects, the answer is 400 "age must be a number", the
    same OTP row is still the one a registration would consume, and the same
    body without the age is then answered 201. *)
Theorem register_atomic (int_of_str : string -> option Z) (data : register_json)
        (db : Database) :
  let res := run_request (register int_of_str data) db in
  let phone := text (rj_phone data) in
  let code := py_str (rj_otp data) in
  (status (fst res) <> 201 -> snd res = db)
  /\ (forall (otp : OtpCode) (s : string),
        required_register_fields data = true ->
        (forall u, In u (users db) -> u_email u <> text (rj_email data)) ->
        otp_latest_unused phone code db = Some otp ->
        rj_age data = PStr s -> int_of_str s = None ->
        res = (error 400 "age must be a number", db)
        /\ users (snd res) = users db
        /\ otp_latest_unused phone code (snd res) = Some otp
        /\ status (fst (run_request (register int_of_str (with_age PNone data))
                          (snd res))) = 201).
Proof.
  intros res phone code. split; [apply register_failure|].
  intros otp s Hreq Hfresh Hotp Hage Hint. subst res.
  assert (Hue : user_by_email (text (rj_email data)) db = None).
  { destruct (user_by_email _ db) as [u|] eqn:Hu; [|reflexivity].
    exfalso. apply find_some in Hu as [Hin He]. apply String.eqb_eq in He.
    exact (Hfresh u Hin He). }
  rewrite register_run, Hreq. cbn [negb]. rewrite Hue.
  fold phone code. rewrite Hotp.
  rewrite Hage. unfold parse_age, py_int. rewrite Hint.
  cbn [snd]. split; [reflexivity|]. split; [reflexivity|]. split; [exact Hotp|].
  rewrite register_run.
  replace (required_register_fields (with_age PNone data)) with true
    by (symmetry; exact Hreq).
  cbn [negb with_age rj_email rj_phone rj_otp rj_age parse_age].
  rewrite Hue. fold phone code. rewrite Hotp. reflexivity.
Qed.

Lemma register_atomic_witness :
  run_request (register ascii_decimal (signup "cleo@mail.com" (PStr "old") (PInt 123456)))
    otp_db
  = (error 400 "age must be a number", otp_db).
Proof.
  apply (register_atomic ascii_decimal
           (signup "cleo@mail.com" (PStr "old") (PInt 123456)) otp_db)
    with (otp := otp_row 2 "123456" 200 false) (s := "old"%string).
  - reflexivity.
  - intros u [<-|[]]. discriminate.
  - reflexivity.
  - reflexivity.
  - reflexivity.
Defined.

(** ** Employee import *)

Lemma with_users_same (db : Database) : with_users (users db ++ []) db = db.
Proof. destruct db. unfold with_users. cbn. rewrite app_nil_r. reflexivity. Qed.

Lemma user_by_email_none (email : string) (db : Database) :
  user_by_email email db = None -> forall v, In v (users db) -> u_email v <> email.
Proof.
  unfold user_by_email. intros H v Hin He.
  apply (find_none _ _ H) in Hin. rewrite He, String.eqb_refl in Hin. discriminate.
Qed.

Lemma imported_from_cons (row : csv_row) (rows : list csv_row) (before : list User)
      (u : User) :
  imported_from rows before u -> imported_from (row :: rows) before u.
Proof.
  intros (Hv & Ha & Hp & (r & Hin & Hr) & Hb).
  repeat (split; [assumption|]). split; [|exact Hb].
  exists r. split; [right; exact Hin|exact Hr].
Qed.

Lemma imported_from_before (rows : list csv_row) (before : list User) (x u : User) :
  imported_from rows (before ++ [x]) u ->
  imported_from rows before u /\ u_email x <> u_email u.
Proof.
  intros (Hv & Ha & Hp & Hr & Hb). split.
  - repeat (split; [assumption|]). intros v Hin. apply Hb, in_or_app. auto.
  - apply Hb, in_or_app. right. left. reflexivity.
Qed.

(** The loop on rows that are all complete: it never raises, it only adds
    users to the pending state, and its counters tell the rows apart. *)
Lemma import_rows_spec (rows : list csv_row) :
  forall (created skipped : Z) (c p : Database),
    Forall row_complete rows ->
    exists (new : list User) (k : nat),
      import_rows rows created skipped {| committed := c; pending := p |}
      = (Next (created + Z.of_nat (List.length new), skipped + Z.of_nat k),
         {| committed := c; pending := with_users (users p ++ new) p |})
      /\ (List.length new + k + List.length (filter row_blank rows)
          = List.length rows)%nat
      /\ Forall (imported_from rows (users p)) new
      /\ NoDup (map u_email new)
      /\ (forall row, In row rows -> row_blank row = false ->
                      exists u, In u (users p ++ new)
                                /\ u_email u = text (row_get (c_email row))).
Proof.
  induction rows as [|row rest IH]; intros created skipped c p Hall.
  - exists [], 0%nat. cbn [import_rows ret List.length filter Z.of_nat].
    rewrite with_users_same, !Z.add_0_r.
    split; [reflexivity|]. split; [reflexivity|].
    split; [constructor|]. split; [constructor|]. intros row [].
  - inversion Hall as [|? ? Hrow Hrest]; subst.
    cbn [import_rows filter].
    destruct (row_blank row) eqn:Hblank.
    + destruct (IH created skipped c p Hrest) as (new & k & Hrun & Hlen & Hnew & Hnd & Hcov).
      exists new, k. split; [exact Hrun|].
      split; [cbn [List.length]; lia|].
      split; [eapply Forall_impl; [|exact Hnew]; intros u; apply imported_from_cons|].
      split; [exact Hnd|].
      intros r [<-|Hin] Hr; [congruence|auto].
    + unfold bind at 1, query at 1. cbn [pending].
      destruct (user_by_email (text (row_get (c_email row))) p) as [v|] eqn:Hue.
      * destruct (IH created (skipped + 1) c p Hrest)
          as (new & k & Hrun & Hlen & Hnew & Hnd & Hcov).
        exists new, (S k). split.
        { rewrite Hrun. do 3 f_equal. lia. }
        split; [cbn [List.length]; lia|].
        split; [eapply Forall_impl; [|exact Hnew]; intros u; apply imported_from_cons|].
        split; [exact Hnd|].
        intros r [<-|Hin] Hr; [|auto].
        exists v. apply find_some in Hue as [Hin He]. apply String.eqb_eq in He.
        split; [apply in_or_app; left; exact Hin|exact He].
      * destruct Hrow as [Hpw Hrole].
        destruct (c_password row) as [[pw|]|] eqn:Epw; try congruence;
          destruct (c_role row) as [[role|]|] eqn:Erole; try congruence;
          cbn [row_get_default];
          unfold bind at 1, query at 1; cbn [pending];
          unfold bind at 1, modify at 1; cbn [pending committed];
          match goal with
          | |- context [row_user row ?pw ?role ?id] =>
              set (u := row_user row pw role id)
          end;
          destruct (IH (created + 1) skipped c (with_users (users p ++ [u]) p) Hrest)
            as (new & k & Hrun & Hlen & Hnew & Hnd & Hcov);
          cbn [users with_users] in Hrun, Hnew, Hcov;
          exists (u :: new), k;
          (split;
           [rewrite Hrun; unfold with_users; cbn [users otp_codes flights bookings];
            rewrite <- app_assoc; cbn [app List.length];
            do 3 f_equal; lia|]);
          (split; [cbn [List.length]; lia|]);
          (split;
           [constructor;
            [repeat (split; [reflexivity|]); split;
             [exists row; split; [left; reflexivity|];
              split; [exact Hblank|];
              unfold row_password, row_role; rewrite ?Epw, ?Erole;
              repeat split; reflexivity
             |exact (user_by_email_none _ _ Hue)]
            |eapply Forall_impl; [|exact Hnew]; intros x Hx;
             apply imported_from_cons; apply imported_from_before in Hx; tauto]
           |]);
          (split;
           [cbn [map]; constructor; [|exact Hnd];
            intros Hin; apply in_map_iff in Hin as (x & Hxe & Hxin);
            rewrite Forall_forall in Hnew; apply Hnew in Hxin;
            apply imported_from_before in Hxin as [_ Hne]; congruence
           |]);
          (intros r [<-|Hin] Hr;
           [exists u; split; [apply in_or_app; right; left; reflexivity|reflexivity]
           |destruct (Hcov r Hin Hr) as (x & Hx & Hxe); exists x; split; [|exact Hxe];
            rewrite <- app_assoc in Hx; exact Hx]).
Qed.

Lemma import_rows_committed (rows : list csv_row) :
  forall (created skipped : Z) (s : Session),
    committed (snd (import_rows rows created skipped s)) = committed s.
Proof.
  induction rows as [|row rest IH]; intros created skipped s; [reflexivity|].
  cbn [import_rows]. destruct (row_blank row); [apply IH|].
  unfold bind at 1, query at 1.
  destruct (user_by_email _ (pending s)); [apply IH|].
  destruct (row_get_default (c_password row) _) as [pw|]; [|reflexivity].
  destruct (row_get_default (c_role row) _) as [role|]; [|reflexivity].
  unfold bind at 1, query at 1. unfold bind at 1, modify at 1.
  rewrite IH. reflexivity.
Qed.

Lemma import_employees_run (env : Env) (data : import_json) (db : Database) :
  run_request (import_employees env data) db
  = if negb (present (ij_path data)) then (error 400 "path is required", db)
    else
      let abs_path := os_path_join (root_path env) (text (ij_path data)) in
      match csv_files env abs_path with
      | NoFile => (error 400 ("File not found: " ++ abs_path), db)
      | Unreadable e => ({| status := 500; body := BServerError e |}, db)
      | Rows rows =>
          match import_rows rows 0 0 {| committed := db; pending := db |} with
          | (Next counts, s) =>
              ({| status := 200; body := BImport (fst counts) (snd counts) |}, pending s)
          | (Done r, s) => (r, db)
          end
      end.
Proof.
  unfold import_employees.
  destruct (negb (present (ij_path data))); [reflexivity|].
  cbv zeta.
  destruct (csv_files env _) as [|e|rows]; [reflexivity|reflexivity|].
  run_view.
  pose proof (import_rows_committed rows 0 0 {| committed := db; pending := db |}) as Hc.
  destruct (import_rows rows 0 0 _) as [[counts|r] s]; cbn [snd committed] in Hc;
    simpl_view; [reflexivity|rewrite Hc; reflexivity].
Qed.

(** *** The rows of the file, one by one *)

Lemma fold_max_from {A : Type} (id : A -> Z) (rows : list A) (b : Z) :
  fold_right (fun r acc => Z.max (id r) acc) b rows
  = Z.max b (fold_right (fun r acc => Z.max (id r) acc) 0 rows) \/ b < 0.
Proof.
  destruct (Z.lt_ge_cases b 0) as [Hneg|Hpos]; [right; exact Hneg|left].
  induction rows as [|r rows IH]; cbn [fold_right]; [lia|]. rewrite IH. lia.
Qed.

Lemma fold_max_nonneg {A : Type} (id : A -> Z) (rows : list A) :
  0 <= fold_right (fun r acc => Z.max (id r) acc) 0 rows.
Proof. induction rows as [|r rows IH]; cbn [fold_right]; lia. Qed.

(** The key after a fresh key is the next number. *)
Lemma next_id_snoc {A : Type} (id : A -> Z) (rows : list A) (x : A) :
  id x = next_id id rows -> next_id id (rows ++ [x]) = next_id id rows + 1.
Proof.
  unfold next_id. intros Hx. rewrite fold_right_app. cbn [fold_right].
  pose proof (fold_max_nonneg id rows) as Hpos.
  destruct (fold_max_from id rows (Z.max (id x) 0)) as [->|Hneg]; lia.
Qed.

Lemma row_taken_snoc (db : Database) (before : list csv_row) (row r : csv_row) :
  row_taken db (before ++ [row]) r
  = (row_taken db before r
     || (negb (row_blank row) && (row_email row =? row_email r)%string))%bool.
Proof.
  unfold row_taken. rewrite existsb_app. cbn [existsb].
  rewrite orb_false_r, orb_assoc. reflexivity.
Qed.

Lemma user_by_email_in (email : string) (db : Database) :
  user_by_email email db = None
  <-> existsb (fun u => (u_email u =? email)%string) (users db) = false.
Proof.
  unfold user_by_email. induction (users db) as [|u l IH]; cbn; [tauto|].
  destruct (u_email u =? email)%string; cbn; [split; discriminate|exact IH].
Qed.

(** Each row is passed over, skipped or created. *)
Lemma rows_where_split (db : Database) (rows before : list csv_row) :
  (List.length (rows_where (row_created db) before rows)
   + List.length (rows_where (row_skipped db) before rows)
   + List.length (filter row_blank rows))%nat
  = List.length rows.
Proof.
  revert before. induction rows as [|row rest IH]; intros before; [reflexivity|].
  cbn [rows_where filter]. unfold row_created at 1, row_skipped at 1.
  specialize (IH (before ++ [row])).
  destruct (row_blank row); destruct (row_taken db before row);
    cbn [negb andb List.length]; lia.
Qed.

(** The loop on complete rows, from the state it has reached after the rows
    [before]: it creates the rows that have a name and an address no earlier
    row and no stored user had, in the order of the file and under
    consecutive keys, and counts the others that have a name and an
    address. *)
Lemma import_rows_exact (db : Database) (rows : list csv_row) :
  forall (before : list csv_row) (created skipped : Z) (c p : Database),
    Forall row_complete rows ->
    (forall r, user_by_email (row_email r) p = None <-> row_taken db before r = false) ->
    import_rows rows created skipped {| committed := c; pending := p |}
    = (Next (created + Z.of_nat (List.length (rows_where (row_created db) before rows)),
             skipped + Z.of_nat (List.length (rows_where (row_skipped db) before rows))),
       {| committed := c;
          pending := with_users
                       (users p ++ users_of_rows (next_id u_id (users p))
                                     (rows_where (row_created db) before rows)) p |}).
Proof.
  induction rows as [|row rest IH]; intros before created skipped c p Hall Hinv.
  - cbn [import_rows rows_where users_of_rows List.length Z.of_nat ret].
    rewrite with_users_same, !Z.add_0_r. reflexivity.
  - inversion Hall as [|? ? Hrow Hrest]; subst.
    cbn [import_rows rows_where]. unfold row_created at 1 3 4, row_skipped at 1.
    destruct (row_blank row) eqn:Hblank; cbn [negb andb].
    + apply IH; [exact Hrest|].
      intros r. rewrite row_taken_snoc, Hblank. cbn [negb andb].
      rewrite orb_false_r. apply Hinv.
    + unfold bind at 1, query at 1. cbn [pending].
      fold (row_email row).
      destruct (user_by_email (row_email row) p) as [v|] eqn:Hue.
      * assert (Htaken : row_taken db before row = true).
        { destruct (row_taken db before row) eqn:E; [reflexivity|].
          apply Hinv in E. congruence. }
        rewrite Htaken. cbn [negb List.length].
        rewrite (IH (before ++ [row]) created (skipped + 1) c p Hrest).
        { do 2 f_equal. f_equal. lia. }
        intros r. rewrite row_taken_snoc, Hblank. cbn [negb andb].
        destruct (String.eqb_spec (row_email row) (row_email r)) as [Heq|Hne].
        { rewrite orb_true_r, <- Heq, Hue. split; discriminate. }
        rewrite orb_false_r. apply Hinv.
      * assert (Htaken : row_taken db before row = false) by (apply Hinv; exact Hue).
        rewrite Htaken. cbn [negb List.length users_of_rows].
        destruct Hrow as [Hpw Hrole].
        unfold row_password, row_role.
        destruct (c_password row) as [[pw|]|] eqn:Epw; try congruence;
          destruct (c_role row) as [[role|]|] eqn:Erole; try congruence;
          cbn [row_get_default text];
          unfold bind at 1, query at 1; cbn [pending];
          unfold bind at 1, modify at 1; cbn [pending committed];
          match goal with
          | |- context [with_users (users p ++ [?x]) p] => set (u := x)
          end;
          (rewrite (IH (before ++ [row]) (created + 1) skipped c
                      (with_users (users p ++ [u]) p) Hrest);
           [cbn [users with_users];
            rewrite (next_id_snoc u_id (users p) u eq_refl);
            unfold with_users; cbn [users otp_codes flights bookings];
            rewrite <- app_assoc; cbn [app];
            do 2 f_equal; f_equal; lia
           |intros r; rewrite row_taken_snoc, Hblank; cbn [negb andb];
            rewrite user_by_email_in; cbn [users with_users];
            rewrite existsb_app; cbn [existsb u u_email row_user];
            fold (row_email row); rewrite orb_false_r;
            rewrite <- (not_true_iff_false (_ || _)), orb_true_iff,
              <- (not_true_iff_false (_ || _)), orb_true_iff;
            rewrite <- !not_false_iff_true, <- (Hinv r), user_by_email_in;
            tauto]).
Qed.

(** The users the loop makes are verified and have neither age nor phone. *)
Lemma users_of_rows_fields (rows : list csv_row) :
  forall (id : Z) (u : User),
    In u (users_of_rows id rows) ->
    u_is_verified u = true /\ u_age u = None /\ u_phone u = None
    /\ exists row, In row rows
                   /\ u_name u = text (row_get (c_name row))
                   /\ u_email u = row_email row
                   /\ u_password_hash u = Hashed (row_password row)
                   /\ u_role u = row_role row.
Proof.
  induction rows as [|row rest IH]; intros id u Hin; [contradiction|].
  cbn [users_of_rows] in Hin. destruct Hin as [<-|Hin].
  - repeat (split; [reflexivity|]). exists row. split; [left; reflexivity|].
    repeat split.
  - destruct (IH _ _ Hin) as (Hv & Ha & Hp & row' & Hrow & Hfields).
    repeat (split; [assumption|]). exists row'. split; [right; exact Hrow|exact Hfields].
Qed.

(** C8 (amended).  With a path given: when nothing is at the path the
    answer is 400 "File not found: <path>" and nothing is stored; when what
    is there cannot be opened or read the request ends in the exception,
    answer 500, and nothing is stored; when the file is read and no row has
    a password or role cell cut short, the answer is 200 with the counts of
    created and skipped rows.  A row without a name or an address is passed
    over; a row whose address a stored user has, or an earlier row of the
    file with a name and an address has, is skipped; every other row is
    created.  The users afterwards are the former ones followed by the
    users of the created rows, in the order of the file and under
    consecutive keys; they are verified and carry the password and role of
    their row, "password123" and "staff" when the file has no such column.
    The other tables stay as they were, and an answer other than 200 stores
    nothing. *)
Theorem import_employees_spec (env : Env) (data : import_json) (db : Database) :
  let res := run_request (import_employees env data) db in
  let abs_path := os_path_join (root_path env) (text (ij_path data)) in
  (present (ij_path data) = true -> csv_files env abs_path = NoFile ->
   res = (error 400 ("File not found: " ++ abs_path), db))
  /\ (forall e : exn,
        present (ij_path data) = true -> csv_files env abs_path = Unreadable e ->
        res = ({| status := 500; body := BServerError e |}, db))
  /\ (forall rows : list csv_row,
        present (ij_path data) = true -> csv_files env abs_path = Rows rows ->
        Forall row_complete rows ->
        let created := rows_where (row_created db) [] rows in
        let skipped := rows_where (row_skipped db) [] rows in
        fst res = {| status := 200;
                     body := BImport (Z.of_nat (List.length created))
                               (Z.of_nat (List.length skipped)) |}
        /\ users (snd res)
           = users db ++ users_of_rows (next_id u_id (users db)) created
        /\ otp_codes (snd res) = otp_codes db
        /\ flights (snd res) = flights db
        /\ bookings (snd res) = bookings db
        /\ (List.length created + List.length skipped
            + List.length (filter row_blank rows) = List.length rows)%nat
        /\ (forall u, In u (users_of_rows (next_id u_id (users db)) created) ->
                      u_is_verified u = true /\ u_age u = None /\ u_phone u = None))
  /\ (forall row : csv_row,
        (c_password row = None -> row_password row = "password123"%string)
        /\ (c_role row = None -> row_role row = "staff"%string)
        /\ (forall s, c_password row = Some (Some s) -> row_password row = s)
        /\ (forall s, c_role row = Some (Some s) -> row_role row = s))
  /\ (status (fst res) <> 200 -> snd res = db).
Proof.
  intros res abs_path. subst res. rewrite import_employees_run. cbv zeta.
  fold abs_path.
  split; [|split; [|split; [|split]]].
  - intros Hp Hnone. rewrite Hp, Hnone. reflexivity.
  - intros e Hp He. rewrite Hp, He. reflexivity.
  - intros rows Hp Hsome Hall. rewrite Hp, Hsome. cbn [negb].
    rewrite (import_rows_exact db rows [] 0 0 db db Hall).
    2:{ intros r. unfold row_taken. cbn [existsb]. rewrite orb_false_r.
        apply user_by_email_in. }
    cbn [fst snd pending users otp_codes flights bookings with_users].
    rewrite !Z.add_0_l.
    split; [reflexivity|]. split; [reflexivity|]. split; [reflexivity|].
    split; [reflexivity|]. split; [reflexivity|].
    split; [apply rows_where_split|].
    intros u Hu. apply users_of_rows_fields in Hu. tauto.
  - intros row. unfold row_password, row_role.
    repeat split; intros; subst;
      repeat match goal with H : _ = _ |- _ => rewrite H end; reflexivity.
  - destruct (negb (present (ij_path data))); [reflexivity|].
    destruct (csv_files env abs_path) as [|e|rows]; [reflexivity|reflexivity|].
    destruct (import_rows rows 0 0 _) as [[counts|r] s]; [|reflexivity].
    cbn. intros H. exfalso. apply H. reflexivity.
Qed.

Lemma import_employees_spec_witness :
  fst (run_request (import_employees csv_env (import_from "roster.csv")) sample_db)
  = {| status := 200; body := BImport 3 2 |}
  /\ users (snd (run_request (import_employees csv_env (import_from "roster.csv"))
                   sample_db))
     = users sample_db
       ++ users_of_rows 3 [ full "Dana" "dana@airport.com" "tower" "staff";
                            full "Eli" "eli@airport.com" "gate" "security";
                            full "Gus" "gus@airport.com" "" "staff" ].
Proof.
  destruct (import_employees_spec csv_env (import_from "roster.csv") sample_db)
    as (_ & _ & H & _).
  destruct (H roster_csv eq_refl eq_refl) as (Hfst & Husers & _).
  - repeat constructor; discriminate.
  - split; [exact Hfst|exact Husers].
Defined.

(** The scenario of the specification: two new rows and one row whose
    address is taken give created = 2 and skipped_existing = 1. *)
Example import_two_new_one_duplicate :
  body (fst (run_request (import_employees csv_env (import_from "employees.csv"))
               sample_db))
  = BImport 2 1.
Proof. vm_compute. reflexivity. Qed.

(** A file without password and role columns: the placeholder and
    "staff". *)
Example import_defaults :
  users (snd (run_request (import_employees csv_env (import_from "names.csv")) sample_db))
  = users sample_db
    ++ [ {| u_id := 3; u_name := "Hal"; u_email := "hal@airport.com";
            u_password_hash := Hashed "password123"; u_role := "staff";
            u_age := None; u_phone := None; u_is_verified := true |} ].
Proof. vm_compute. reflexivity. Qed.

(** A path that names a directory exists, and [open] refuses it. *)
Example import_directory :
  run_request (import_employees csv_env (import_from "uploads")) sample_db
  = ({| status := 500; body := BServerError IsADirectoryError |}, sample_db).
Proof. vm_compute. reflexivity. Qed.

(** C8 as stated fails: the answer for a path without a file is 400, not the
    404 of [NotFoundError]; and a row too short to reach its password
    column is not given the placeholder, the request ends in
    [AttributeError] with nothing stored. *)
Lemma import_employees_not_as_stated :
  (csv_files csv_env (os_path_join (root_path csv_env) "missing.csv") = NoFile
   /\ ~ NotFoundError
        (fst (run_request (import_employees csv_env (import_from "missing.csv"))
                sample_db)))
  /\ run_request (import_employees csv_env (import_from "short.csv")) sample_db
     = ({| status := 500; body := BServerError AttributeError |}, sample_db).
Proof.
  split; [split|].
  - reflexivity.
  - unfold NotFoundError. vm_compute. discriminate.
  - vm_compute. reflexivity.
Qed.

(** ** Roles *)

(** X25.  A registered user is "admin" exactly when the address is the
    owner's up to the case of its letters, and "passenger" otherwise. *)
Lemma register_role (int_of_str : string -> option Z) (data : register_json)
      (db : Database) :
  status (fst (run_request (register int_of_str data) db)) = 201 ->
  exists u : User,
    body (fst (run_request (register int_of_str data) db)) = BUser u
    /\ In u (users (snd (run_request (register int_of_str data) db)))
    /\ (lower (u_email u) = lower OWNER_ADMIN_EMAIL -> u_role u = "admin"%string)
    /\ (lower (u_email u) <> lower OWNER_ADMIN_EMAIL -> u_role u = "passenger"%string).
Proof.
  intros H201.
  destruct (register_201 _ _ _ H201) as (otp & age & _ & _ & _ & _ & Hrun).
  rewrite Hrun. cbn [fst snd body].
  eexists. split; [reflexivity|]. split.
  - unfold registered, with_users. cbn [users]. apply in_or_app. right. left. reflexivity.
  - cbn [new_user u_email u_role]. unfold role_for.
    destruct (String.eqb_spec (lower (text (rj_email data))) (lower OWNER_ADMIN_EMAIL));
      split; intros; congruence.
Qed.

(** C6 at an import row that names the role "admin": the import stores an
    admin whose address is not the owner's. *)
Theorem import_employees_makes_admin :
  exists u : User,
    In u (users (snd (run_request (import_employees csv_env (import_from "admins.csv"))
                        empty_db)))
    /\ u_role u = "admin"%string
    /\ lower (u_email u) <> lower OWNER_ADMIN_EMAIL.
Proof.
  exists (row_user (employee "Eve" "eve@elsewhere.com" (cell "admin"))
            "password123" "admin" 1).
  split; [vm_compute; left; reflexivity|].
  split; [reflexivity|].
  vm_compute. discriminate.
Qed.

(** ** Primary keys and scenarios *)

Lemma NoDup_next_id {A : Type} (id : A -> Z) (rows : list A) (new : A) :
  id new = next_id id rows ->
  NoDup (map id rows) -> NoDup (map id (rows ++ [new])).
Proof.
  intros Hnew Hnd. rewrite map_app. cbn [map].
  apply NoDup_app; [exact Hnd|repeat constructor; intros []|].
  intros k Hk [<-|[]].
  apply in_map_iff in Hk as (r & Hr & Hin).
  apply (next_id_above id) in Hin. lia.
Qed.

Lemma replace_row_ids {A : Type} (id : A -> Z) (k : Z) (new : A) (rows : list A) :
  id new = k -> map id (replace_row id k new rows) = map id rows.
Proof.
  intros Hnew. induction rows as [|r rs IH]; [reflexivity|].
  cbn. destruct (Z.eqb_spec (id r) k); cbn; congruence.
Qed.

(** The OTP table keeps distinct primary keys through OTP requests and
    registrations. *)
Lemma otp_ids_request_otp (now r : Z) (data : otp_json) (db : Database) :
  NoDup (map o_id (otp_codes db)) ->
  NoDup (map o_id (otp_codes (snd (run_request (request_otp now r data) db)))).
Proof.
  intros Hnd. unfold request_otp.
  destruct (negb (present (oj_phone data))); [exact Hnd|].
  run_view. unfold with_otp_codes. cbn [otp_codes].
  apply NoDup_next_id; [reflexivity|exact Hnd].
Qed.

Lemma otp_ids_register (int_of_str : string -> option Z) (data : register_json)
      (db : Database) :
  NoDup (map o_id (otp_codes db)) ->
  NoDup (map o_id (otp_codes (snd (run_request (register int_of_str data) db)))).
Proof.
  intros Hnd. rewrite register_run.
  destruct (negb _); [exact Hnd|].
  destruct (user_by_email _ db); [exact Hnd|].
  destruct (otp_latest_unused _ _ db) as [otp|]; [|exact Hnd].
  destruct (parse_age int_of_str (rj_age data)) as [age|[]]; try exact Hnd.
  cbv zeta. destruct (forallb fits_int64 (given age)); [|exact Hnd].
  cbn [snd]. unfold registered, consume, with_users, with_otp_codes. cbn [otp_codes].
  rewrite replace_row_ids by reflexivity. exact Hnd.
Qed.

(** The scenario of the specification: a flight DEL to BOM with 10 seats has
    10 available; 3 seats for an address that is not ".edu" cost 15000 and
    leave 7; 8 more are refused and 7 remain. *)
Example booking_scenario :
  let db1 := snd (run_request
                    (create_flight ascii_decimal sample_env
                       (new_flight "DEL" "BOM" (PInt 10)))
                    {| users := [student; traveller]; otp_codes := [];
                       flights := []; bookings := [] |}) in
  let r2 := run_request (create_booking ascii_decimal 0 (book 2 1 (Some (PInt 3)))) db1 in
  let r3 := run_request (create_booking ascii_decimal 1 (book 2 1 (Some (PInt 8))))
              (snd r2) in
  option_map f_available_seats (flight_get 1 db1) = Some 10
  /\ map b_final_price (bookings (snd r2)) = [15000]
  /\ option_map f_available_seats (flight_get 1 (snd r2)) = Some 7
  /\ r3 = (error 400 "Not enough seats available", snd r2)
  /\ option_map f_available_seats (flight_get 1 (snd r3)) = Some 7.
Proof. vm_compute. repeat split; reflexivity. Qed.

(** The scenario of the specification: the code issued for a phone
    registers one user; a second user with the same code is refused. *)
Example otp_scenario :
  let r1 := run_request (request_otp 100 123456 otp_request) empty_db in
  let r2 := run_request
              (register ascii_decimal (signup "cleo@mail.com" PNone (PStr "123456")))
              (snd r1) in
  let r3 := run_request
              (register ascii_decimal (signup "dora@mail.com" PNone (PStr "123456")))
              (snd r2) in
  body (fst r1) = BMessageOtp "OTP generated" "123456"
  /\ status (fst r2) = 201
  /\ r3 = (error 400 "Invalid or used OTP", snd r2).
Proof. vm_compute. repeat split; reflexivity. Qed.

(** Leading zeros of the code are kept. *)
Example format_06d_pads : format_06d 42 = "000042"%string.
Proof. reflexivity. Qed.

(** * Properties of the other views *)

Ltac simpl_serve := cbn [stored working fst snd code content].

Ltac run_serve :=
  unfold serve, v_bind, v_query, v_modify, v_commit, v_bound, v_reply, v_ret, v_raise,
    v_abort_404;
  simpl_serve.

(** ** Rows and their keys *)

(** The row [find] reaches by key is the one [replace_row] writes. *)
Lemma replace_row_found {A : Type} (id : A -> Z) (k : Z) (new old : A) (rows : list A) :
  find (fun x => id x =? k) rows = Some old ->
  exists l1 l2,
    rows = l1 ++ old :: l2
    /\ (forall r, In r l1 -> id r <> k)
    /\ replace_row id k new rows = l1 ++ new :: l2.
Proof.
  induction rows as [|r rs IH]; intros Hf; [discriminate|].
  cbn in *. destruct (Z.eqb_spec (id r) k) as [Heq|Hne].
  - injection Hf as ->. exists [], rs. repeat split; auto.
  - destruct (IH Hf) as (l1 & l2 & -> & Hl1 & Hrep).
    exists (r :: l1), l2. cbn. rewrite Hrep. repeat split; auto.
    intros x [<-|Hx]; auto.
Qed.

Lemma replace_row_map {A B : Type} (id : A -> Z) (g : A -> B) (k : Z) (new old : A)
      (rows : list A) :
  find (fun x => id x =? k) rows = Some old -> g new = g old ->
  map g (replace_row id k new rows) = map g rows.
Proof.
  intros Hf Hg. destruct (replace_row_found id k new old rows Hf) as (l1 & l2 & -> & _ & ->).
  rewrite !map_app. cbn. rewrite Hg. reflexivity.
Qed.

Lemma find_email_app (email : string) (l1 l2 : list User) (u : User) :
  (forall v, In v l1 -> u_email v <> email) -> u_email u = email ->
  find (fun x => (u_email x =? email)%string) (l1 ++ u :: l2) = Some u.
Proof.
  intros Hl1 Hu. induction l1 as [|v l1 IH]; cbn.
  - rewrite Hu, String.eqb_refl. reflexivity.
  - destruct (String.eqb_spec (u_email v) email) as [Heq|Hne].
    + exfalso. apply (Hl1 v); [left; reflexivity|exact Heq].
    + apply IH. intros x Hx. apply Hl1. right. exact Hx.
Qed.

Lemma NoDup_map_app_head {A B : Type} (g : A -> B) (l1 l2 : list A) (x : A) :
  NoDup (map g (l1 ++ x :: l2)) -> forall v, In v l1 -> g v <> g x.
Proof.
  rewrite map_app. cbn [map]. intros Hnd v Hv Heq.
  apply NoDup_remove_2 in Hnd. apply Hnd.
  apply in_or_app. left. rewrite <- Heq. apply in_map. exact Hv.
Qed.

(** ** Login *)

Lemma login_run (data : login_json) (db : Database) :
  serve (login data) db
  = if (negb (present (lj_email data)) || negb (present (lj_password data)))%bool
    then (failure 400 "email and password are required", db)
    else match user_by_email (text (lj_email data)) db with
         | None => (failure 401 "Invalid credentials", db)
         | Some user =>
             if check_password_hash (u_password_hash user) (text (lj_password data))
             then ({| code := 200; content := ALogin user |}, db)
             else (failure 401 "Invalid credentials", db)
         end.
Proof.
  unfold login.
  destruct (negb (present (lj_email data)) || negb (present (lj_password data)))%bool;
    [reflexivity|].
  run_serve. destruct (user_by_email _ db) as [user|]; [|reflexivity].
  destruct (check_password_hash _ _); reflexivity.
Qed.

Lemma check_password_hash_iff (h : password_hash) (password : string) :
  check_password_hash h password = true <-> h = Hashed password.
Proof.
  destruct h as [p]. cbn. rewrite String.eqb_eq. split; congruence.
Qed.

(** X1.  [login] never changes the stored state.  With email and password
    given it answers 200 with a user exactly when the first user with that
    address has a hash made from that password; every other case, unknown
    address or wrong password alike, is the same 401 "Invalid
    credentials".  A missing or empty email or password is a 400. *)
Theorem login_spec (data : login_json) (db : Database) :
  let res := serve (login data) db in
  let email := text (lj_email data) in
  let password := text (lj_password data) in
  snd res = db
  /\ (missing (lj_email data) \/ missing (lj_password data) ->
      fst res = failure 400 "email and password are required")
  /\ (~ missing (lj_email data) -> ~ missing (lj_password data) ->
      (forall u, user_by_email email db = Some u ->
                 u_password_hash u = Hashed password ->
                 fst res = {| code := 200; content := ALogin u |})
      /\ ((forall u, user_by_email email db = Some u ->
                     u_password_hash u <> Hashed password) ->
          fst res = failure 401 "Invalid credentials")
      /\ (code (fst res) = 200 ->
          exists u, In u (users db) /\ u_email u = email
                    /\ u_password_hash u = Hashed password
                    /\ content (fst res) = ALogin u)).
Proof.
  intros res email password. subst res. rewrite login_run. fold email password.
  destruct (present (lj_email data)) eqn:He; destruct (present (lj_password data)) eqn:Hp;
    cbn [negb orb].
  2,3,4: (split; [reflexivity|]; split; [reflexivity|];
          intros Hne Hnp;
          apply present_true_iff in Hne; apply present_true_iff in Hnp; congruence).
  destruct (user_by_email email db) as [user|] eqn:Hu.
  - destruct (check_password_hash (u_password_hash user) password) eqn:Hc;
      cbn [fst snd].
    + apply check_password_hash_iff in Hc.
      split; [reflexivity|]. split.
      { intros [H|H]; apply present_false_iff in H; congruence. }
      intros _ _. split; [intros u Hu' _; congruence|].
      split; [intros Hall; exfalso; exact (Hall user eq_refl Hc)|].
      intros _. exists user. apply find_some in Hu as [Hin Hemail].
      apply String.eqb_eq in Hemail. auto.
    + split; [reflexivity|]. split.
      { intros [H|H]; apply present_false_iff in H; congruence. }
      intros _ _. split.
      { intros u Hu' Hh. assert (u = user) by congruence. subst u.
        apply check_password_hash_iff in Hh. congruence. }
      split; [reflexivity|]. cbn. discriminate.
  - cbn [fst snd]. split; [reflexivity|]. split.
    { intros [H|H]; apply present_false_iff in H; congruence. }
    intros _ _. split; [intros u Hu'; discriminate|].
    split; [reflexivity|]. cbn. discriminate.
Qed.

Lemma login_spec_witness :
  fst (serve (login (credentials "bob@mail.com" "pw")) sample_db)
  = {| code := 200; content := ALogin traveller |}.
Proof.
  destruct (login_spec (credentials "bob@mail.com" "pw") sample_db) as (_ & _ & H).
  destruct H as (H & _).
  - intros [H|H]; discriminate H.
  - intros [H|H]; discriminate H.
  - apply H; reflexivity.
Defined.

(** X2.  After a registration answered 201, logging in with the same email
    and password answers 200 with the user the registration returned, and
    any other non-empty password is refused with 401. *)
Theorem register_then_login (int_of_str : string -> option Z) (data : register_json)
        (db : Database) :
  status (fst (run_request (register int_of_str data) db)) = 201 ->
  let db' := snd (run_request (register int_of_str data) db) in
  exists u : User,
    body (fst (run_request (register int_of_str data) db)) = BUser u
    /\ serve (login {| lj_email := rj_email data; lj_password := rj_password data |}) db'
       = ({| code := 200; content := ALogin u |}, db')
    /\ (forall password : string,
          password <> ""%string -> password <> text (rj_password data) ->
          serve (login {| lj_email := rj_email data; lj_password := Some password |}) db'
          = (failure 401 "Invalid credentials", db')).
Proof.
  intros H201 db'. subst db'.
  destruct (register_201 _ _ _ H201) as (otp & age & Hreq & Hue & Hotp & Hage & Hrun).
  rewrite Hrun. cbn [fst snd body].
  set (u := new_user data age (next_id u_id (users db))).
  exists u. split; [reflexivity|].
  unfold required_register_fields in Hreq.
  repeat (apply andb_prop in Hreq as [Hreq ?]).
  assert (Hfind : user_by_email (text (rj_email data)) (registered db otp u) = Some u).
  { unfold user_by_email, registered, with_users, consume, with_otp_codes. cbn [users].
    apply find_email_app; [|reflexivity].
    exact (user_by_email_none _ _ Hue). }
  split.
  - rewrite login_run. cbn [lj_email lj_password].
    replace (present (rj_email data)) with true.
    replace (present (rj_password data)) with true.
    cbn [negb orb]. rewrite Hfind. cbn. rewrite String.eqb_refl. reflexivity.
  - intros password Hne Hdiff. rewrite login_run. cbn [lj_email lj_password present text].
    replace (present (rj_email data)) with true.
    replace (password =? "")%string with false by (symmetry; apply String.eqb_neq; exact Hne).
    cbn [negb orb]. rewrite Hfind. cbn.
    replace (text (rj_password data) =? password)%string with false
      by (symmetry; apply String.eqb_neq; congruence).
    reflexivity.
Qed.

Lemma register_then_login_witness :
  exists u : User,
    serve (login (credentials "cleo@mail.com" "secret"))
      (snd (run_request
              (register ascii_decimal (signup "cleo@mail.com" PNone (PInt 123456)))
              otp_db))
    = ({| code := 200; content := ALogin u |},
       snd (run_request
              (register ascii_decimal (signup "cleo@mail.com" PNone (PInt 123456)))
              otp_db)).
Proof.
  destruct (register_then_login ascii_decimal
              (signup "cleo@mail.com" PNone (PInt 123456)) otp_db)
    as (u & _ & Hlogin & _).
  - vm_compute. reflexivity.
  - exists u. exact Hlogin.
Defined.

(** ** Password change *)

Lemma change_password_run (data : password_json) (db : Database) :
  serve (change_password data) db
  = if (no_user_id (pj_user_id data) || negb (present (pj_old_password data))
        || negb (present (pj_new_password data)))%bool
    then (failure 400 "user_id, old_password, and new_password are required", db)
    else
      if fits_int64 (match pj_user_id data with Some z => z | None => 0 end)
      then
        match user_get (match pj_user_id data with Some z => z | None => 0 end) db with
        | None => (failure 404 "User not found", db)
        | Some user =>
            if check_password_hash (u_password_hash user) (text (pj_old_password data))
            then ({| code := 200; content := AMessage "Password updated successfully" |},
                  with_users
                    (replace_row u_id (u_id user)
                       (set_password_hash (Hashed (text (pj_new_password data))) user)
                       (users db)) db)
            else (failure 401 "Incorrect old password", db)
        end
      else ({| code := 500; content := AServerError OverflowError |}, db).
Proof.
  unfold change_password.
  destruct (no_user_id _ || _ || _)%bool; [reflexivity|].
  cbv zeta. run_serve. cbn [forallb]. rewrite andb_true_r.
  destruct (fits_int64 _); [|reflexivity]. simpl_serve.
  destruct (user_get _ db) as [user|]; [|reflexivity].
  destruct (check_password_hash _ _); reflexivity.
Qed.

(** X3.  [change_password] answers 400 when the user id is missing or 0 or
    a password is missing or empty; then 500 when the id is beyond the
    64-bit range, 404 when no user has it, and 401 when the old password is
    not the stored one; none of these changes the stored state.  Otherwise
    the answer is 200 and the user is stored with the hash of the new
    password: the table holds the same rows in the same order with only
    that hash replaced, the user is read back with it under the same id,
    and the other users and tables are as before. *)
Theorem change_password_spec (data : password_json) (db : Database) :
  let res := serve (change_password data) db in
  let old_password := text (pj_old_password data) in
  let new_password := text (pj_new_password data) in
  (code (fst res) <> 200 -> snd res = db)
  /\ (pj_user_id data = None \/ pj_user_id data = Some 0
      \/ missing (pj_old_password data) \/ missing (pj_new_password data) ->
      fst res = failure 400 "user_id, old_password, and new_password are required")
  /\ (forall uid, pj_user_id data = Some uid -> uid <> 0 ->
        ~ missing (pj_old_password data) -> ~ missing (pj_new_password data) ->
        (fits_int64 uid = false ->
         fst res = {| code := 500; content := AServerError OverflowError |})
        /\ (fits_int64 uid = true -> user_get uid db = None ->
            fst res = failure 404 "User not found")
        /\ (forall user, fits_int64 uid = true -> user_get uid db = Some user ->
              (u_password_hash user <> Hashed old_password ->
               fst res = failure 401 "Incorrect old password")
              /\ (u_password_hash user = Hashed old_password ->
                  let user' := set_password_hash (Hashed new_password) user in
                  fst res = {| code := 200;
                               content := AMessage "Password updated successfully" |}
                  /\ (exists l1 l2 : list User,
                         users db = l1 ++ user :: l2
                         /\ users (snd res) = l1 ++ user' :: l2)
                  /\ user_get uid (snd res) = Some user'
                  /\ (forall other : Z, other <> uid ->
                                         user_get other (snd res) = user_get other db)
                  /\ otp_codes (snd res) = otp_codes db
                  /\ flights (snd res) = flights db
                  /\ bookings (snd res) = bookings db)))
  /\ (code (fst res) = 200 ->
      exists user : User,
        pj_user_id data = Some (u_id user) /\ In user (users db)
        /\ u_password_hash user = Hashed old_password
        /\ user_get (u_id user) (snd res)
           = Some (set_password_hash (Hashed new_password) user)).
Proof.
  intros res old_password new_password. subst res old_password new_password.
  rewrite change_password_run.
  destruct (pj_user_id data) as [uid|] eqn:Huid; cbn [no_user_id orb].
  2:{ repeat split; intros; try discriminate; try reflexivity; cbn in *; lia. }
  destruct (Z.eqb_spec uid 0) as [Hz|Hnz]; cbn [orb].
  { repeat split; intros; try reflexivity; try (cbn in *; lia); congruence. }
  destruct (present (pj_old_password data)) eqn:Hold;
    destruct (present (pj_new_password data)) eqn:Hnew; cbn [negb orb].
  2,3,4: (repeat split; intros; try reflexivity; try (cbn in *; lia);
          repeat match goal with
                 | H : ~ missing _ |- _ => apply present_true_iff in H
                 end; congruence).
  assert (H400 : ~ (Some uid = None \/ Some uid = Some 0
                    \/ missing (pj_old_password data) \/ missing (pj_new_password data))).
  { intros [H|[H|[H|H]]]; try discriminate; try congruence;
      apply present_false_iff in H; congruence. }
  destruct (fits_int64 uid) eqn:Hfit.
  2:{ cbn [fst snd code]. split; [reflexivity|]. split; [tauto|].
      split; [|discriminate].
      intros uid' Heq _ _ _. assert (uid' = uid) by congruence. subst uid'.
      split; [reflexivity|]. split; [congruence|]. intros user; congruence. }
  destruct (user_get uid db) as [user|] eqn:Hget.
  2:{ cbn [fst snd code]. split; [reflexivity|]. split; [tauto|].
      split; [|discriminate].
      intros uid' Heq _ _ _. assert (uid' = uid) by congruence. subst uid'.
      split; [congruence|]. split; [reflexivity|]. intros user _ Hu. congruence. }
  apply find_id_some in Hget as Hid. destruct Hid as [Hid Hin].
  destruct (check_password_hash _ _) eqn:Hc; cbn [fst snd code].
  2:{ split; [reflexivity|]. split; [tauto|]. split; [|discriminate].
      intros uid' Heq _ _ _. assert (uid' = uid) by congruence. subst uid'.
      split; [congruence|]. split; [congruence|].
      intros user' _ Hu'. assert (user' = user) by congruence. subst user'.
      split; [reflexivity|]. intros Hh. apply check_password_hash_iff in Hh. congruence. }
  apply check_password_hash_iff in Hc.
  set (user' := set_password_hash (Hashed (text (pj_new_password data))) user).
  assert (Hback : user_get uid (with_users (replace_row u_id (u_id user) user' (users db)) db)
                  = Some user').
  { unfold user_get, with_users. cbn [users]. rewrite Hid.
    apply find_replace_row with (old := user); [exact Hget|exact Hid]. }
  split; [intros H; exfalso; apply H; reflexivity|]. split; [tauto|]. split.
  - intros uid' Heq _ _ _. assert (uid' = uid) by congruence. subst uid'.
    split; [congruence|]. split; [congruence|].
    intros u _ Hu. assert (u = user) by congruence. subst u.
    split; [congruence|]. intros _. cbv zeta. fold user'.
    split; [reflexivity|]. split.
    { destruct (replace_row_found u_id uid user' user (users db) Hget)
        as (l1 & l2 & Hsplit & _ & Hrep).
      exists l1, l2. split; [exact Hsplit|].
      unfold with_users. cbn [users]. rewrite Hid. exact Hrep. }
    split; [exact Hback|]. split; [|repeat split].
    intros other Hother. unfold user_get, with_users. cbn [users]. rewrite Hid.
    apply find_replace_row_other; [exact Hid|exact Hother].
  - intros _. exists user. rewrite Hid in Hback |- *.
    repeat split; assumption.
Qed.

Lemma change_password_spec_witness :
  fst (serve (change_password (new_password 2 "pw" "next")) sample_db)
  = {| code := 200; content := AMessage "Password updated successfully" |}
  /\ user_get 2 (snd (serve (change_password (new_password 2 "pw" "next")) sample_db))
     = Some (set_password_hash (Hashed "next") traveller)
  /\ user_get 1 (snd (serve (change_password (new_password 2 "pw" "next")) sample_db))
     = Some student.
Proof.
  destruct (change_password_spec (new_password 2 "pw" "next") sample_db)
    as (_ & _ & H & _).
  destruct (H 2 eq_refl) as (_ & _ & Hfound).
  - discriminate.
  - intros [H0|H0]; discriminate H0.
  - intros [H0|H0]; discriminate H0.
  - destruct (Hfound traveller eq_refl eq_refl) as [_ H200].
    destruct (H200 eq_refl) as (Hfst & _ & Hback & Hothers & _).
    split; [exact Hfst|]. split; [exact Hback|].
    rewrite (Hothers 1) by discriminate. reflexivity.
Defined.

(** An id beyond the 64-bit range is refused by the driver. *)
Example change_password_key_too_large :
  fst (serve (change_password (new_password (2 ^ 63) "pw" "next")) sample_db)
  = {| code := 500; content := AServerError OverflowError |}.
Proof. vm_compute. reflexivity. Qed.

(** X4.  After a password change answered 200, where addresses are unique
    and the user's address is not empty, the user logs in with the new
    password and no longer with the old one (when the two differ). *)
Theorem change_password_then_login (data : password_json) (db : Database) :
  code (fst (serve (change_password data) db)) = 200 ->
  NoDup (map u_email (users db)) ->
  let db' := snd (serve (change_password data) db) in
  exists user : User,
    pj_user_id data = Some (u_id user) /\ In user (users db)
    /\ (u_email user <> ""%string ->
        serve (login {| lj_email := Some (u_email user);
                        lj_password := pj_new_password data |}) db'
        = ({| code := 200;
              content := ALogin (set_password_hash
                                   (Hashed (text (pj_new_password data))) user) |}, db')
        /\ (text (pj_old_password data) <> text (pj_new_password data) ->
            serve (login {| lj_email := Some (u_email user);
                            lj_password := pj_old_password data |}) db'
            = (failure 401 "Invalid credentials", db'))).
Proof.
  intros H200 Hnd db'. subst db'.
  rewrite change_password_run in *.
  destruct (no_user_id (pj_user_id data)) eqn:Hno; [discriminate H200|].
  destruct (present (pj_old_password data)) eqn:Hold; [|discriminate H200].
  destruct (present (pj_new_password data)) eqn:Hnew; [|discriminate H200].
  cbn [negb orb] in *.
  destruct (pj_user_id data) as [uid|]; [|discriminate Hno].
  destruct (fits_int64 uid); [|discriminate H200].
  destruct (user_get uid db) as [user|] eqn:Hget; [|discriminate H200].
  destruct (check_password_hash _ _) eqn:Hc; [|discriminate H200].
  cbn [fst snd].
  apply find_id_some in Hget as Hid. destruct Hid as [Hid Hin].
  set (user' := set_password_hash (Hashed (text (pj_new_password data))) user).
  destruct (replace_row_found u_id uid user' user (users db) Hget)
    as (l1 & l2 & Hsplit & _ & Hrep).
  exists user. split; [congruence|]. split; [exact Hin|].
  intros Hemail.
  assert (Hfind : user_by_email (u_email user)
                    (with_users (replace_row u_id (u_id user) user' (users db)) db)
                  = Some user').
  { unfold user_by_email, with_users. cbn [users]. rewrite Hid, Hrep.
    apply find_email_app; [|reflexivity].
    rewrite Hsplit in Hnd. intros v Hv. exact (NoDup_map_app_head u_email _ _ _ Hnd v Hv). }
  assert (Hpe : present (Some (u_email user)) = true).
  { cbn. apply negb_true_iff. apply String.eqb_neq. exact Hemail. }
  split.
  - rewrite login_run. cbn [lj_email lj_password]. rewrite Hpe, Hnew. cbn [negb orb text].
    rewrite Hfind. cbn. rewrite String.eqb_refl. reflexivity.
  - intros Hdiff. rewrite login_run. cbn [lj_email lj_password].
    rewrite Hpe, Hold. cbn [negb orb text]. rewrite Hfind. cbn.
    replace (text (pj_new_password data) =? text (pj_old_password data))%string with false
      by (symmetry; apply String.eqb_neq; congruence).
    reflexivity.
Qed.

Lemma change_password_then_login_witness :
  fst (serve (login (credentials "bob@mail.com" "next"))
         (snd (serve (change_password (new_password 2 "pw" "next")) sample_db)))
  = {| code := 200; content := ALogin (set_password_hash (Hashed "next") traveller) |}.
Proof.
  destruct (change_password_then_login (new_password 2 "pw" "next") sample_db)
    as (user & Hid & Hin & H).
  - reflexivity.
  - cbn. repeat constructor; cbn; intuition discriminate.
  - assert (user = traveller).
    { destruct Hin as [<-|[<-|[]]]; [discriminate Hid|reflexivity]. }
    subst user. destruct H as [Hlogin _]; [discriminate|].
    change (credentials "bob@mail.com" "next")
      with {| lj_email := Some (u_email traveller);
              lj_password := pj_new_password (new_password 2 "pw" "next") |}.
    rewrite Hlogin. reflexivity.
Defined.

(** ** Profile update *)

Lemma replace_row_same {A : Type} (id : A -> Z) (k : Z) (old : A) (rows : list A) :
  find (fun x => id x =? k) rows = Some old -> replace_row id k old rows = rows.
Proof.
  induction rows as [|r rs IH]; intros Hf; [reflexivity|].
  cbn in *. destruct (id r =? k).
  - congruence.
  - rewrite IH by exact Hf. reflexivity.
Qed.

Lemma with_users_users (db : Database) : with_users (users db) db = db.
Proof. destruct db. reflexivity. Qed.

Lemma updated_age_rejects (int_of_str : string -> option Z) (s : string)
      (old : option Z) :
  s <> ""%string -> int_of_str s = None ->
  updated_age int_of_str (Some (PStr s)) old = Raise ValueError.
Proof.
  intros Hne Hint. unfold updated_age. cbn [blank_age py_int].
  replace (s =? "")%string with false by (symmetry; apply String.eqb_neq; exact Hne).
  rewrite Hint. reflexivity.
Qed.

Lemma update_user_run (int_of_str : string -> option Z) (user_id : Z)
      (data : profile_json) (db : Database) :
  serve (update_user int_of_str user_id data) db
  = if fits_int64 user_id
    then
      match user_get user_id db with
      | None => ({| code := 404; content := ANotFound |}, db)
      | Some user =>
          match updated_age int_of_str (nj_age data) (u_age user) with
          | Raise ValueError => (failure 400 "age must be a number", db)
          | Raise e => ({| code := 500; content := AServerError e |}, db)
          | Ok age =>
              if forallb fits_int64 (match nj_age data with
                                     | Some _ => given age
                                     | None => []
                                     end)
              then
                match match nj_name data with
                      | Some v => v
                      | None => Some (u_name user)
                      end with
                | None => ({| code := 500; content := AServerError IntegrityError |}, db)
                | Some name =>
                    ({| code := 200; content := AUser (set_name_age name age user) |},
                     with_users
                       (replace_row u_id (u_id user) (set_name_age name age user)
                          (users db))
                       db)
                end
              else ({| code := 500; content := AServerError OverflowError |}, db)
          end
      end
    else ({| code := 500; content := AServerError OverflowError |}, db).
Proof.
  unfold update_user. run_serve. cbn [forallb]. rewrite andb_true_r.
  destruct (fits_int64 user_id); [|reflexivity]. simpl_serve.
  destruct (user_get user_id db) as [user|]; [|reflexivity]. simpl_serve.
  destruct (updated_age int_of_str (nj_age data) (u_age user)) as [age|[]];
    try reflexivity.
  simpl_serve. destruct (forallb fits_int64 _); [|reflexivity]. simpl_serve.
  destruct (nj_name data) as [[name|]|]; reflexivity.
Qed.

(** X5.  [update_user] is all or nothing: an answer other than 200 leaves
    the stored state untouched, also when the body carried a new name.  The
    answer is 500 for an id beyond the 64-bit range, 404 for an id no user
    has, 400 for an age text that [int] rejects, 500 for an age beyond the
    64-bit range, and 500 for a null name.  Otherwise it is 200 and the user
    is stored with the new name and age, a key the body lacks keeping its
    old value and a null or empty age clearing it: the table holds the same
    rows in the same order with only that row replaced, the user is read
    back under the same id, and the other users and tables are as before.
    Sending the same update again changes nothing more. *)
Theorem update_user_spec (int_of_str : string -> option Z) (user_id : Z)
        (data : profile_json) (db : Database) :
  let res := serve (update_user int_of_str user_id data) db in
  let overflow := {| code := 500; content := AServerError OverflowError |} in
  (code (fst res) <> 200 -> snd res = db)
  /\ (fits_int64 user_id = false -> fst res = overflow)
  /\ (fits_int64 user_id = true -> user_get user_id db = None ->
      fst res = {| code := 404; content := ANotFound |})
  /\ (forall (user : User) (s : string),
        fits_int64 user_id = true -> user_get user_id db = Some user ->
        nj_age data = Some (PStr s) -> s <> ""%string -> int_of_str s = None ->
        res = (failure 400 "age must be a number", db))
  /\ (forall (user : User) (age : option Z),
        fits_int64 user_id = true -> user_get user_id db = Some user ->
        updated_age int_of_str (nj_age data) (u_age user) = Ok age ->
        let written := match nj_age data with
                       | Some _ => given age
                       | None => []
                       end in
        (forallb fits_int64 written = false -> fst res = overflow)
        /\ (forallb fits_int64 written = true -> nj_name data = Some None ->
            fst res = {| code := 500; content := AServerError IntegrityError |})
        /\ (forall name : string,
              forallb fits_int64 written = true ->
              (nj_name data = None /\ name = u_name user)
              \/ nj_name data = Some (Some name) ->
              let user' := set_name_age name age user in
              fst res = {| code := 200; content := AUser user' |}
              /\ (exists l1 l2 : list User,
                     users db = l1 ++ user :: l2
                     /\ users (snd res) = l1 ++ user' :: l2)
              /\ user_get user_id (snd res) = Some user'
              /\ (forall other : Z, other <> user_id ->
                                     user_get other (snd res) = user_get other db)
              /\ otp_codes (snd res) = otp_codes db
              /\ flights (snd res) = flights db
              /\ bookings (snd res) = bookings db))
  /\ (forall old : option Z,
        (nj_age data = None -> updated_age int_of_str (nj_age data) old = Ok old)
        /\ (forall v, nj_age data = Some v -> blank_age v = true ->
                      updated_age int_of_str (nj_age data) old = Ok None)
        /\ (forall v a, nj_age data = Some v -> blank_age v = false ->
                        py_int int_of_str v = Ok a ->
                        updated_age int_of_str (nj_age data) old = Ok (Some a)))
  /\ (code (fst res) = 200 ->
      exists (user : User) (name : string) (age : option Z),
        user_get user_id db = Some user
        /\ updated_age int_of_str (nj_age data) (u_age user) = Ok age
        /\ content (fst res) = AUser (set_name_age name age user)
        /\ user_get user_id (snd res) = Some (set_name_age name age user)
        /\ (nj_name data = None -> name = u_name user)
        /\ (forall n, nj_name data = Some (Some n) -> name = n))
  /\ serve (update_user int_of_str user_id data) (snd res) = res.
Proof.
  intros res overflow. subst res overflow. rewrite update_user_run.
  assert (Hages : forall old : option Z,
             (nj_age data = None -> updated_age int_of_str (nj_age data) old = Ok old)
             /\ (forall v, nj_age data = Some v -> blank_age v = true ->
                           updated_age int_of_str (nj_age data) old = Ok None)
             /\ (forall v a, nj_age data = Some v -> blank_age v = false ->
                             py_int int_of_str v = Ok a ->
                             updated_age int_of_str (nj_age data) old = Ok (Some a))).
  { intros old. unfold updated_age. split; [intros ->; reflexivity|]. split.
    - intros v -> ->. reflexivity.
    - intros v a -> -> ->. reflexivity. }
  destruct (fits_int64 user_id) eqn:Hfit.
  2:{ cbn [fst snd code]. rewrite update_user_run, Hfit.
      split; [reflexivity|]. split; [reflexivity|]. split; [discriminate|].
      split; [intros u s H0; discriminate H0|].
      split; [intros u a H0; discriminate H0|].
      split; [exact Hages|]. split; [discriminate|reflexivity]. }
  destruct (user_get user_id db) as [user|] eqn:Hget.
  2:{ cbn [fst snd code]. rewrite update_user_run, Hfit, Hget.
      split; [reflexivity|]. split; [discriminate|]. split; [reflexivity|].
      split; [intros u s _ H0; discriminate H0|].
      split; [intros u a _ H0; discriminate H0|].
      split; [exact Hages|]. split; [discriminate|reflexivity]. }
  destruct (updated_age int_of_str (nj_age data) (u_age user)) as [age|e] eqn:Hage.
  2:{ assert (Hno : forall (u : User) (a : option Z),
                 Some user = Some u ->
                 updated_age int_of_str (nj_age data) (u_age u) = Ok a -> False).
      { intros u a Hu Ha. assert (u = user) by congruence. subst u. congruence. }
      destruct e; cbn [fst snd code]; rewrite update_user_run, Hfit, Hget, Hage;
        (split; [reflexivity|]); (split; [intros H0; discriminate H0|]);
        (split; [intros _ H0; discriminate H0|]);
        (split;
         [intros user' s _ Hu Hs Hne Hint; rewrite Hs in Hage;
          rewrite updated_age_rejects in Hage by assumption;
          first [discriminate Hage|reflexivity]|]);
        (split; [intros u a _ Hu Ha; exfalso; exact (Hno u a Hu Ha)|]);
        (split; [exact Hages|]);
        (split; [intros H0; discriminate H0|reflexivity]). }
  assert (Hnot400 : forall (u : User) (s : string),
             Some user = Some u -> nj_age data = Some (PStr s) -> s <> ""%string ->
             int_of_str s = None -> False).
  { intros u s _ Hs Hne Hint. rewrite Hs in Hage.
    rewrite updated_age_rejects in Hage by assumption. discriminate Hage. }
  destruct (forallb fits_int64 match nj_age data with
                               | Some _ => given age
                               | None => []
                               end) eqn:Hwritten.
  2:{ cbn [fst snd code]. rewrite update_user_run, Hfit, Hget, Hage, Hwritten.
      split; [reflexivity|]. split; [discriminate|]. split; [discriminate|].
      split; [intros u s _ Hu Hs Hne Hint; exfalso; exact (Hnot400 u s Hu Hs Hne Hint)|].
      split.
      { intros u a _ Hu Ha. assert (u = user) by congruence. subst u.
        assert (a = age) by congruence. subst a. cbv zeta.
        split; [reflexivity|]. split; intros; congruence. }
      split; [exact Hages|]. split; [discriminate|reflexivity]. }
  destruct (match nj_name data with
            | Some v => v
            | None => Some (u_name user)
            end) as [name|] eqn:Hname.
  2:{ cbn [fst snd code]. rewrite update_user_run, Hfit, Hget, Hage, Hwritten, Hname.
      split; [reflexivity|]. split; [discriminate|]. split; [discriminate|].
      split; [intros u s _ Hu Hs Hne Hint; exfalso; exact (Hnot400 u s Hu Hs Hne Hint)|].
      split.
      { intros u a _ Hu Ha. assert (u = user) by congruence. subst u.
        assert (a = age) by congruence. subst a. cbv zeta.
        split; [congruence|]. split; [reflexivity|].
        intros n _ [[Hn _]|Hn]; rewrite Hn in Hname; discriminate Hname. }
      split; [exact Hages|]. split; [discriminate|reflexivity]. }
  cbn [fst snd code content].
  set (user' := set_name_age name age user).
  apply find_id_some in Hget as Hid. destruct Hid as [Hid _].
  destruct (replace_row_found u_id user_id user' user (users db) Hget)
    as (l1 & l2 & Hsplit & Hl1 & Hrep).
  rewrite Hid.
  assert (Hget' : user_get user_id
                    (with_users (replace_row u_id user_id user' (users db)) db)
                  = Some user').
  { unfold user_get, with_users. cbn [users].
    apply find_replace_row with (old := user); [exact Hget|exact Hid]. }
  split; [intros H; exfalso; apply H; reflexivity|].
  split; [discriminate|]. split; [discriminate|].
  split; [intros u s _ Hu Hs Hne Hint; exfalso; exact (Hnot400 u s Hu Hs Hne Hint)|].
  split.
  { intros u a _ Hu Ha. assert (u = user) by congruence. subst u.
    assert (a = age) by congruence. subst a. cbv zeta.
    split; [congruence|]. split.
    { intros _ Hn. rewrite Hn in Hname. discriminate Hname. }
    intros n _ Hn.
    assert (n = name).
    { destruct Hn as [[Hn ->]|Hn]; rewrite Hn in Hname; congruence. }
    subst n. fold user'.
    split; [reflexivity|]. split.
    { exists l1, l2. split; [exact Hsplit|]. unfold with_users. cbn [users]. exact Hrep. }
    split; [exact Hget'|]. split; [|repeat split].
    intros other Hother. unfold user_get, with_users. cbn [users].
    apply find_replace_row_other; [exact Hid|exact Hother]. }
  split; [exact Hages|].
  split.
  { intros _. exists user, name, age.
    split; [reflexivity|]. split; [exact Hage|]. split; [reflexivity|].
    split; [exact Hget'|].
    split; [intros Hn; rewrite Hn in Hname; congruence|].
    intros n Hn; rewrite Hn in Hname; congruence. }
  rewrite update_user_run, Hfit, Hget'.
  assert (Hage' : updated_age int_of_str (nj_age data) (u_age user') = Ok age).
  { unfold updated_age in *. destruct (nj_age data); [exact Hage|].
    cbn. congruence. }
  rewrite Hage', Hwritten.
  replace (match nj_name data with
           | Some v => v
           | None => Some (u_name user')
           end) with (Some name)
    by (destruct (nj_name data); [congruence|cbn; congruence]).
  change (set_name_age name age user') with user'.
  change (u_id user') with (u_id user). rewrite Hid.
  unfold with_users at 1. cbn [users otp_codes flights bookings].
  rewrite replace_row_same
    by (apply find_replace_row with (old := user); [exact Hget|exact Hid]).
  reflexivity.
Qed.

Lemma update_user_spec_witness :
  fst (serve (update_user ascii_decimal 2 (rename "Robert" (PStr "31"))) sample_db)
  = {| code := 200; content := AUser (set_name_age "Robert" (Some 31) traveller) |}
  /\ user_get 2 (snd (serve (update_user ascii_decimal 2 (rename "Robert" (PStr "31")))
                        sample_db))
     = Some (set_name_age "Robert" (Some 31) traveller)
  /\ user_get 1 (snd (serve (update_user ascii_decimal 2 (rename "Robert" (PStr "31")))
                        sample_db))
     = Some student.
Proof.
  destruct (update_user_spec ascii_decimal 2 (rename "Robert" (PStr "31")) sample_db)
    as (_ & _ & _ & _ & H & _).
  destruct (H traveller (Some 31) eq_refl eq_refl eq_refl) as (_ & _ & H200).
  destruct (H200 "Robert"%string eq_refl (or_intror eq_refl))
    as (Hfst & _ & Hback & Hothers & _).
  split; [exact Hfst|]. split; [exact Hback|].
  rewrite (Hothers 1) by discriminate. reflexivity.
Defined.

(** An age text that [int] rejects is answered 400 and leaves the name as it
    was; an age beyond the 64-bit range is refused when the row is
    written. *)
Example update_user_bad_age :
  serve (update_user ascii_decimal 2 (rename "Robert" (PStr "forty"))) sample_db
  = (failure 400 "age must be a number", sample_db)
  /\ serve (update_user ascii_decimal 2 (rename "Robert" (PInt (2 ^ 63)))) sample_db
     = ({| code := 500; content := AServerError OverflowError |}, sample_db).
Proof. split; vm_compute; reflexivity. Qed.

(** ** Keys of the user table *)

Lemma NoDup_map_snoc {A B : Type} (g : A -> B) (l : list A) (x : A) :
  NoDup (map g l) -> (forall v, In v l -> g v <> g x) -> NoDup (map g (l ++ [x])).
Proof.
  intros Hnd Hfresh. rewrite map_app. cbn [map].
  apply NoDup_app; [exact Hnd|repeat constructor; intros []|].
  intros k Hk [<-|[]].
  apply in_map_iff in Hk as (v & Hv & Hin). exact (Hfresh v Hin Hv).
Qed.

Lemma users_keyed_add (db : Database) (u : User) :
  users_keyed db -> u_id u = next_id u_id (users db) ->
  user_by_email (u_email u) db = None ->
  NoDup (map u_id (users db ++ [u])) /\ NoDup (map u_email (users db ++ [u])).
Proof.
  intros [Hid Hem] Hnew Hfresh. split.
  - apply NoDup_next_id; assumption.
  - apply NoDup_map_snoc; [exact Hem|].
    exact (user_by_email_none _ _ Hfresh).
Qed.

Lemma users_keyed_replace (db : Database) (user user' : User) (k : Z) :
  users_keyed db -> user_get k db = Some user ->
  u_id user' = u_id user -> u_email user' = u_email user ->
  users_keyed (with_users (replace_row u_id k user' (users db)) db).
Proof.
  intros [Hid Hem] Hget Hi He. unfold users_keyed, with_users. cbn [users].
  rewrite (replace_row_map u_id u_id k user' user _ Hget Hi).
  rewrite (replace_row_map u_id u_email k user' user _ Hget He).
  auto.
Qed.

Lemma import_rows_keyed (rows : list csv_row) :
  forall (created skipped : Z) (s : Session),
    users_keyed (pending s) ->
    users_keyed (pending (snd (import_rows rows created skipped s))).
Proof.
  induction rows as [|row rest IH]; intros created skipped s Hk; [exact Hk|].
  cbn [import_rows]. destruct (row_blank row); [apply IH; exact Hk|].
  unfold bind at 1, query at 1.
  destruct (user_by_email _ (pending s)) eqn:Hue; [apply IH; exact Hk|].
  destruct (row_get_default (c_password row) _) as [pw|]; [|exact Hk].
  destruct (row_get_default (c_role row) _) as [role|]; [|exact Hk].
  unfold bind at 1, query at 1. unfold bind at 1, modify at 1.
  apply IH. cbn [pending]. unfold users_keyed, with_users. cbn [users].
  apply users_keyed_add; [exact Hk|reflexivity|exact Hue].
Qed.

(** X6.  The user table keeps its keys: when ids and addresses are pairwise
    distinct, they still are after any sequence of registrations, employee
    imports, password changes and profile updates. *)
Theorem users_keyed_preserved (int_of_str : string -> option Z) (cs : list user_call)
        (db : Database) :
  users_keyed db ->
  users_keyed (fold_left (fun d c => run_user_call int_of_str c d) cs db).
Proof.
  revert db. induction cs as [|c cs IH]; intros db Hk; [exact Hk|].
  cbn [fold_left]. apply IH.
  destruct c as [data|env data|data|user_id data]; cbn [run_user_call].
  - rewrite register_run.
    destruct (negb _); [exact Hk|].
    destruct (user_by_email _ db) eqn:Hue; [exact Hk|].
    destruct (otp_latest_unused _ _ db) as [otp|]; [|exact Hk].
    destruct (parse_age int_of_str (rj_age data)) as [age|[]]; try exact Hk.
    cbv zeta. destruct (forallb fits_int64 (given age)); [|exact Hk].
    cbn [snd]. unfold registered, users_keyed, with_users, consume, with_otp_codes.
    cbn [users]. apply users_keyed_add; [exact Hk|reflexivity|exact Hue].
  - rewrite import_employees_run.
    destruct (negb _); [exact Hk|]. cbv zeta.
    destruct (csv_files env _) as [|e|rows]; [exact Hk|exact Hk|].
    pose proof (import_rows_keyed rows 0 0 {| committed := db; pending := db |} Hk) as Hp.
    destruct (import_rows rows 0 0 _) as [[counts|r] s]; [exact Hp|exact Hk].
  - rewrite change_password_run.
    destruct (_ || _ || _)%bool; [exact Hk|].
    destruct (fits_int64 _); [|exact Hk].
    destruct (user_get _ db) as [user|] eqn:Hget; [|exact Hk].
    destruct (check_password_hash _ _); [|exact Hk].
    cbn [snd]. apply find_id_some in Hget as Hid. destruct Hid as [Hid _].
    rewrite Hid. apply users_keyed_replace with (user := user); auto.
  - rewrite update_user_run.
    destruct (fits_int64 user_id); [|exact Hk].
    destruct (user_get user_id db) as [user|] eqn:Hget; [|exact Hk].
    destruct (updated_age int_of_str _ _) as [age|[]]; try exact Hk.
    destruct (forallb fits_int64 _); [|exact Hk].
    destruct (match nj_name data with Some v => v | None => Some (u_name user) end)
      as [name|]; [|exact Hk].
    cbn [snd]. apply find_id_some in Hget as Hid. destruct Hid as [Hid _].
    rewrite Hid. apply users_keyed_replace with (user := user); auto.
Qed.

Lemma users_keyed_preserved_witness :
  users_keyed
    (fold_left (fun d c => run_user_call ascii_decimal c d)
       [Register (signup "cleo@mail.com" PNone (PInt 123456));
        ImportEmployees csv_env (import_from "employees.csv");
        ChangePassword (new_password 2 "pw" "next")]
       otp_db).
Proof.
  apply users_keyed_preserved.
  split; cbn; repeat constructor; cbn; intuition discriminate.
Defined.

(** ** Imported employees and login *)

Lemma find_email_skip (email : string) (l1 l2 : list User) :
  (forall v, In v l1 -> u_email v <> email) ->
  find (fun x => (u_email x =? email)%string) (l1 ++ l2)
  = find (fun x => (u_email x =? email)%string) l2.
Proof.
  intros Hl1. induction l1 as [|v l1 IH]; [reflexivity|].
  cbn. destruct (String.eqb_spec (u_email v) email) as [Heq|Hne].
  - exfalso. apply (Hl1 v); [left; reflexivity|exact Heq].
  - apply IH. intros x Hx. apply Hl1. right. exact Hx.
Qed.

Lemma find_email_unique (l : list User) (u : User) :
  NoDup (map u_email l) -> In u l ->
  find (fun x => (u_email x =? u_email u)%string) l = Some u.
Proof.
  intros Hnd Hin. apply in_split in Hin as (l1 & l2 & ->).
  apply find_email_app; [|reflexivity].
  intros v Hv. exact (NoDup_map_app_head u_email _ _ _ Hnd v Hv).
Qed.

(** X7.  After an import of a file whose rows are complete, every user it
    created has the address and the password of a row of the file
    ("password123" when the file has no password column).  When that
    password is not empty, [login] with the address answers 200 with the
    user for exactly that password and 401 for any other non-empty one.
    When it is empty the user cannot log in at all: [login] answers 400 for
    an empty or missing password and 401 for every other, so no password
    gets 200. *)
Theorem import_then_login (env : Env) (data : import_json) (db : Database)
        (rows : list csv_row) :
  present (ij_path data) = true ->
  csv_files env (os_path_join (root_path env) (text (ij_path data))) = Rows rows ->
  Forall row_complete rows ->
  let db' := snd (run_request (import_employees env data) db) in
  let attempt := fun (u : User) (password : option string) =>
                   serve (login {| lj_email := Some (u_email u);
                                   lj_password := password |}) db' in
  exists new : list User,
    users db' = users db ++ new
    /\ forall u, In u new ->
         exists row,
           In row rows /\ u_email u = text (row_get (c_email row))
           /\ u_password_hash u = Hashed (row_password row)
           /\ (row_password row <> ""%string ->
               attempt u (Some (row_password row))
               = ({| code := 200; content := ALogin u |}, db')
               /\ forall password : string,
                    password <> ""%string -> password <> row_password row ->
                    attempt u (Some password) = (failure 401 "Invalid credentials", db'))
           /\ (row_password row = ""%string ->
               attempt u (Some (row_password row))
               = (failure 400 "email and password are required", db')
               /\ forall password : option string,
                    code (fst (attempt u password)) <> 200).
Proof.
  intros Hp Hrows Hall db' attempt. subst attempt db'.
  rewrite import_employees_run, Hp. cbn [negb]. cbv zeta. rewrite Hrows.
  destruct (import_rows_spec rows 0 0 db db Hall)
    as (new & k & Hrun & Hlen & Hnew & Hnd & Hcov).
  rewrite Hrun. cbn [fst snd pending].
  exists new. split; [reflexivity|].
  intros u Hu. rewrite Forall_forall in Hnew.
  destruct (Hnew u Hu) as (_ & _ & _ & (row & Hin & Hblank & Hname & Hemail & Hpw & Hrole)
                            & Hfresh).
  exists row. split; [exact Hin|]. split; [exact Hemail|]. split; [exact Hpw|].
  assert (Hfind : user_by_email (u_email u) (with_users (users db ++ new) db) = Some u).
  { unfold user_by_email, with_users. cbn [users].
    rewrite find_email_skip by exact Hfresh.
    apply find_email_unique; assumption. }
  assert (Hpe : present (Some (u_email u)) = true).
  { unfold row_blank in Hblank. apply orb_false_elim in Hblank as [He _].
    apply negb_false_iff in He. rewrite Hemail.
    destruct (row_get (c_email row)) as [e|]; [exact He|discriminate He]. }
  assert (Hother : forall password : string,
             password <> ""%string -> password <> row_password row ->
             serve (login {| lj_email := Some (u_email u);
                             lj_password := Some password |})
               (with_users (users db ++ new) db)
             = (failure 401 "Invalid credentials", with_users (users db ++ new) db)).
  { intros password Hne Hdiff. rewrite login_run. cbn [lj_email lj_password]. rewrite Hpe.
    cbn [present text].
    replace (password =? "")%string with false
      by (symmetry; apply String.eqb_neq; exact Hne).
    cbn [negb orb]. rewrite Hfind, Hpw. cbn [check_password_hash].
    replace (row_password row =? password)%string with false
      by (symmetry; apply String.eqb_neq; congruence).
    reflexivity. }
  split.
  - intros Hne. split; [|exact Hother].
    rewrite login_run. cbn [lj_email lj_password]. rewrite Hpe.
    cbn [present text].
    replace (row_password row =? "")%string with false
      by (symmetry; apply String.eqb_neq; exact Hne).
    cbn [negb orb]. rewrite Hfind, Hpw. cbn. rewrite String.eqb_refl. reflexivity.
  - intros Hempty. split.
    + rewrite login_run. cbn [lj_email lj_password]. rewrite Hpe.
      cbn [present]. rewrite Hempty. reflexivity.
    + intros password.
      destruct (present password) eqn:Hpp.
      * destruct password as [password|]; [|discriminate Hpp].
        rewrite Hother; [discriminate| |].
        { intros ->. discriminate Hpp. }
        { rewrite Hempty. intros ->. discriminate Hpp. }
      * rewrite login_run. cbn [lj_email lj_password]. rewrite Hpe, Hpp.
        discriminate.
Qed.

Lemma import_then_login_witness :
  code (fst (serve (login (credentials "dana@airport.com" "tower"))
               (snd (run_request (import_employees csv_env (import_from "roster.csv"))
                       sample_db))))
  = 200
  /\ forall password : option string,
       code (fst (serve (login {| lj_email := Some "gus@airport.com"%string;
                                  lj_password := password |})
                    (snd (run_request (import_employees csv_env (import_from "roster.csv"))
                            sample_db))))
       <> 200.
Proof.
  destruct (import_then_login csv_env (import_from "roster.csv") sample_db roster_csv
              eq_refl eq_refl ltac:(repeat constructor; discriminate))
    as (new & Hnew & Hall).
  assert (Hlist : new = users_of_rows 3
                          [ full "Dana" "dana@airport.com" "tower" "staff";
                            full "Eli" "eli@airport.com" "gate" "security";
                            full "Gus" "gus@airport.com" "" "staff" ]).
  { apply (app_inv_head (users sample_db)). rewrite <- Hnew. reflexivity. }
  split.
  - destruct (Hall (row_user (full "Dana" "dana@airport.com" "tower" "staff")
                      "tower" "staff" 3))
      as (row & _ & _ & Hpw & Hlog & _).
    { rewrite Hlist. left. reflexivity. }
    injection Hpw as Hpw. rewrite <- Hpw in Hlog.
    destruct (Hlog ltac:(discriminate)) as [Hok _].
    exact (f_equal (fun r => code (fst r)) Hok).
  - destruct (Hall (row_user (full "Gus" "gus@airport.com" "" "staff") "" "staff" 5))
      as (row & _ & _ & Hpw & _ & Hnever).
    { rewrite Hlist. right. right. left. reflexivity. }
    injection Hpw as Hpw. exact (proj2 (Hnever (eq_sym Hpw))).
Defined.

(** An imported employee of a file without a password column logs in with
    "password123". *)
Example imported_employee_logs_in :
  code (fst (serve (login (credentials "dana@airport.com" "password123"))
               (snd (run_request (import_employees csv_env (import_from "employees.csv"))
                       sample_db))))
  = 200.
Proof. vm_compute. reflexivity. Qed.

(** ** Issuing and consuming an OTP *)

Lemma request_otp_run (now r : Z) (data : otp_json) (db : Database) :
  run_request (request_otp now r data) db
  = if negb (present (oj_phone data)) then (error 400 "phone is required", db)
    else ({| status := 200; body := BMessageOtp "OTP generated" (format_06d r) |},
          with_otp_codes
            (otp_codes db ++ [{| o_id := next_id o_id (otp_codes db);
                                 o_phone := text (oj_phone data);
                                 o_code := format_06d r;
                                 o_created_at := now; o_is_used := false |}]) db).
Proof.
  unfold request_otp. destruct (negb (present (oj_phone data))); reflexivity.
Qed.

Lemma user_by_email_fresh (email : string) (db : Database) :
  (forall u, In u (users db) -> u_email u <> email) -> user_by_email email db = None.
Proof.
  intros Hfresh. destruct (user_by_email email db) as [u|] eqn:Hu; [|reflexivity].
  exfalso. apply find_some in Hu as [Hin He]. apply String.eqb_eq in He.
  exact (Hfresh u Hin He).
Qed.

(** X8.  [request_otp] without a phone answers 400 and stores nothing.
    With a phone it stores one more unused code for that phone and returns
    it, and a registration that then presents the returned code as text
    with the same phone, the required fields, a fresh address and a
    readable age is answered 201 when the age is within the 64-bit range
    (or absent), whatever the table held before; an age beyond the range is
    refused when the row is written, with the answer 500 and nothing
    stored, the code staying unused. *)
Theorem request_otp_then_register (int_of_str : string -> option Z) (now r : Z)
        (odata : otp_json) (reg : register_json) (db : Database) (age : option Z) :
  let issued := run_request (request_otp now r odata) db in
  (missing (oj_phone odata) -> issued = (error 400 "phone is required", db))
  /\ (~ missing (oj_phone odata) ->
      fst issued = {| status := 200; body := BMessageOtp "OTP generated" (format_06d r) |}
      /\ users (snd issued) = users db
      /\ (exists otp, otp_codes (snd issued) = otp_codes db ++ [otp]
                      /\ o_phone otp = text (oj_phone odata)
                      /\ o_code otp = format_06d r /\ o_is_used otp = false)
      /\ (required_register_fields reg = true ->
          text (rj_phone reg) = text (oj_phone odata) ->
          rj_otp reg = PStr (format_06d r) ->
          (forall u, In u (users db) -> u_email u <> text (rj_email reg)) ->
          parse_age int_of_str (rj_age reg) = Ok age ->
          (forallb fits_int64 (given age) = true ->
           status (fst (run_request (register int_of_str reg) (snd issued))) = 201)
          /\ (forallb fits_int64 (given age) = false ->
              run_request (register int_of_str reg) (snd issued)
              = ({| status := 500; body := BServerError OverflowError |}, snd issued)))).
Proof.
  intros issued. subst issued. rewrite request_otp_run. split.
  - intros Hm. apply present_false_iff in Hm. rewrite Hm. reflexivity.
  - intros Hp. apply present_true_iff in Hp. rewrite Hp. cbn [negb fst snd].
    split; [reflexivity|]. split; [reflexivity|].
    split; [eexists; split; [reflexivity|]; auto|].
    intros Hreq Hphone Hotp Hfresh Hage.
    rewrite register_run, Hreq. cbn [negb].
    rewrite user_by_email_fresh by exact Hfresh.
    rewrite Hotp, Hphone. cbn [py_str].
    destruct (otp_latest_unused (text (oj_phone odata)) (format_06d r) _) as [otp|] eqn:Hlatest.
    + rewrite Hage. cbv zeta.
      split; intros Hfit; rewrite Hfit; reflexivity.
    + exfalso.
      pose proof (proj1 (otp_latest_unused_none _ _ _) Hlatest) as Hnone.
      assert (Hm : otp_matches (text (oj_phone odata)) (format_06d r)
                     {| o_id := next_id o_id (otp_codes db);
                        o_phone := text (oj_phone odata);
                        o_code := format_06d r;
                        o_created_at := now; o_is_used := false |} = false).
      { apply Hnone. unfold with_otp_codes. cbn [otp_codes].
        apply in_or_app. right. left. reflexivity. }
      unfold otp_matches in Hm. cbn in Hm.
      rewrite !String.eqb_refl in Hm. discriminate Hm.
Qed.

Lemma request_otp_then_register_witness :
  status (fst (run_request
                 (register ascii_decimal
                    (signup "cleo@mail.com" (PStr "30") (PStr "000042")))
                 (snd (run_request (request_otp 500 42 otp_request) otp_db))))
  = 201.
Proof.
  destruct (request_otp_then_register ascii_decimal 500 42 otp_request
              (signup "cleo@mail.com" (PStr "30") (PStr "000042")) otp_db (Some 30))
    as [_ H].
  destruct H as (_ & _ & _ & H).
  - intros [H0|H0]; discriminate H0.
  - refine (proj1 (H eq_refl eq_refl eq_refl _ eq_refl) eq_refl).
    intros u [<-|[]]. discriminate.
Defined.

(** An age beyond the 64-bit range is refused when the user is written. *)
Example register_age_too_large :
  run_request
    (register ascii_decimal (signup "cleo@mail.com" (PInt (2 ^ 63)) (PStr "000042")))
    (snd (run_request (request_otp 500 42 otp_request) otp_db))
  = ({| status := 500; body := BServerError OverflowError |},
     snd (run_request (request_otp 500 42 otp_request) otp_db)).
Proof. vm_compute. reflexivity. Qed.

(** ** Ordering and list comprehensions *)

Lemma insert_by_perm {A : Type} (first : A -> A -> bool) (x : A) (l : list A) :
  Permutation (insert_by first x l) (x :: l).
Proof.
  induction l as [|y l IH]; cbn; [reflexivity|].
  destruct (first x y); [reflexivity|].
  rewrite IH. apply perm_swap.
Qed.

Lemma order_by_perm {A : Type} (first : A -> A -> bool) (l : list A) :
  Permutation (order_by first l) l.
Proof.
  induction l as [|x l IH]; cbn; [reflexivity|].
  rewrite insert_by_perm. constructor. exact IH.
Qed.

Lemma order_by_in {A : Type} (first : A -> A -> bool) (l : list A) (x : A) :
  In x (order_by first l) <-> In x l.
Proof.
  split; apply Permutation_in; [|symmetry]; apply order_by_perm.
Qed.

Lemma insert_by_desc_sorted {A : Type} (key : A -> Z) (x : A) (l : list A) :
  StronglySorted (fun a b => key b <= key a) l ->
  StronglySorted (fun a b => key b <= key a) (insert_by (desc key) x l).
Proof.
  induction 1 as [|y l Hs IH Hy]; cbn.
  - repeat constructor.
  - unfold desc at 1. destruct (Z.leb_spec (key y) (key x)) as [Hle|Hgt].
    + constructor; [constructor; assumption|].
      constructor; [exact Hle|].
      rewrite Forall_forall in *. intros z Hz. specialize (Hy z Hz). lia.
    + constructor; [exact IH|].
      rewrite Forall_forall in *. intros z Hz.
      apply (Permutation_in _ (insert_by_perm (desc key) x l)) in Hz.
      destruct Hz as [<-|Hz]; [lia|auto].
Qed.

Lemma order_by_desc_sorted {A : Type} (key : A -> Z) (l : list A) :
  StronglySorted (fun a b => key b <= key a) (order_by (desc key) l).
Proof.
  induction l as [|x l IH]; cbn; [constructor|].
  apply insert_by_desc_sorted. exact IH.
Qed.

Lemma insert_by_asc_sorted {A : Type} (key : A -> Z) (x : A) (l : list A) :
  StronglySorted (fun a b => key a <= key b) l ->
  StronglySorted (fun a b => key a <= key b) (insert_by (asc key) x l).
Proof.
  induction 1 as [|y l Hs IH Hy]; cbn.
  - repeat constructor.
  - unfold asc at 1. destruct (Z.leb_spec (key x) (key y)) as [Hle|Hgt].
    + constructor; [constructor; assumption|].
      constructor; [exact Hle|].
      rewrite Forall_forall in *. intros z Hz. specialize (Hy z Hz). lia.
    + constructor; [exact IH|].
      rewrite Forall_forall in *. intros z Hz.
      apply (Permutation_in _ (insert_by_perm (asc key) x l)) in Hz.
      destruct Hz as [<-|Hz]; [lia|auto].
Qed.

Lemma order_by_asc_sorted {A : Type} (key : A -> Z) (l : list A) :
  StronglySorted (fun a b => key a <= key b) (order_by (asc key) l).
Proof.
  induction l as [|x l IH]; cbn; [constructor|].
  apply insert_by_asc_sorted. exact IH.
Qed.

(** A comprehension succeeds exactly when every element does, and then
    lists the results in order. *)
Lemma comprehension_ok {A B : Type} (f : A -> pyresult B) (l : list A) (ys : list B) :
  comprehension f l = Ok ys <-> Forall2 (fun x y => f x = Ok y) l ys.
Proof.
  revert ys. induction l as [|x l IH]; intros ys; cbn.
  - split.
    + intros H. injection H as <-. constructor.
    + intros H. inversion H. reflexivity.
  - destruct (f x) as [y|e] eqn:Hfx.
    + destruct (comprehension f l) as [ys'|e] eqn:Hrest.
      * split.
        { intros H. injection H as <-. constructor; [exact Hfx|]. apply IH. reflexivity. }
        { intros H. inversion H as [|? y0 ? ys0 Hy Hys]; subst.
          apply IH in Hys. congruence. }
      * split; [discriminate|].
        intros H. inversion H as [|? y0 ? ys0 Hy Hys]; subst.
        apply IH in Hys. discriminate.
    + split; [discriminate|].
      intros H. inversion H as [|? y0 ? ys0 Hy Hys]; subst. congruence.
Qed.

Lemma comprehension_raise {A B : Type} (f : A -> pyresult B) (l : list A) (e : exn) :
  (forall x e', f x = Raise e' -> e' = e) ->
  (exists x, In x l /\ f x = Raise e) ->
  comprehension f l = Raise e.
Proof.
  intros Hkind. induction l as [|x l IH]; intros (z & Hin & Hz); [contradiction|].
  cbn. destruct (f x) as [y|e'] eqn:Hfx.
  - destruct Hin as [->|Hin]; [congruence|].
    rewrite IH by eauto. reflexivity.
  - rewrite (Hkind x e' Hfx). reflexivity.
Qed.

Lemma comprehension_total {A B : Type} (f : A -> pyresult B) (l : list A) :
  (forall x, In x l -> exists y, f x = Ok y) -> exists ys, comprehension f l = Ok ys.
Proof.
  induction l as [|x l IH]; intros Hall; cbn; [eauto|].
  destruct (Hall x (or_introl eq_refl)) as [y ->].
  destruct IH as [ys ->]; [intros z Hz; apply Hall; right; exact Hz|].
  eauto.
Qed.

(** ** Deleting a flight *)




Lemma delete_flight_run (flight_id : Z) (db : Database) :
  serve (delete_flight flight_id) db
  = match flight_get flight_id db with
    | None => ({| code := 404; content := ANotFound |}, db)
    | Some flight =>
        ({| code := 200; content := AMessage "Deleted" |},
         with_flights (remove_row f_id (f_id flight) (flights db)) db)
    end.
Proof.
  unfold delete_flight. run_serve.
  destruct (flight_get flight_id db); reflexivity.
Qed.



(** ** The bookings of a user *)





(** The bookings of a user come latest first. *)
Example bookings_latest_first :
  option_map (map (fun d => b_id (fst (fst d))))
    (match content (fst (serve (get_user_bookings 2) booked_db)) with
     | ABookings dicts => Some dicts
     | _ => None
     end)
  = Some [2; 1].
Proof. vm_compute. reflexivity. Qed.

(** ** Feedback *)

Lemma feedback_to_dict_raise (db : Database) (f : Feedback) (e : exn) :
  feedback_to_dict db f = Raise e -> e = AttributeError.
Proof.
  unfold feedback_to_dict. destruct (user_get _ db); congruence.
Qed.

Lemma feedback_to_dict_ok (db : Database) (f : Feedback) (d : Feedback * User) :
  feedback_to_dict db f = Ok d <-> fst d = f /\ user_get (k_user_id f) db = Some (snd d).
Proof.
  unfold feedback_to_dict. destruct d as [f' u']. cbn [fst snd].
  destruct (user_get _ db) as [u|]; split.
  - intros H. injection H as <- <-. auto.
  - intros [-> H]. congruence.
  - discriminate.
  - intros [_ H]. discriminate.
Qed.

(** The dictionaries of rows whose users all exist. *)
Lemma feedback_dicts (db : Database) (l : list Feedback) :
  (forall f, In f l -> user_get (k_user_id f) db <> None) ->
  exists dicts : list (Feedback * User),
    comprehension (feedback_to_dict db) l = Ok dicts
    /\ map fst dicts = l
    /\ Forall (fun d => user_get (k_user_id (fst d)) db = Some (snd d)) dicts.
Proof.
  intros Hall.
  destruct (comprehension_total (feedback_to_dict db) l) as [dicts Hd].
  { intros f Hf. specialize (Hall f Hf). unfold feedback_to_dict.
    destruct (user_get _ db); [eauto|congruence]. }
  exists dicts. split; [exact Hd|].
  apply comprehension_ok in Hd. clear Hall.
  induction Hd as [|f d l ds Hf Hrest [IH1 IH2]]; [split; [reflexivity|constructor]|].
  apply feedback_to_dict_ok in Hf as [Hfst Hu].
  split.
  - cbn. rewrite IH1, Hfst. reflexivity.
  - constructor; [rewrite Hfst; exact Hu|exact IH2].
Qed.

(** The dictionaries of the rows of one user. *)
Lemma feedback_dicts_of_user (db : Database) (u : User) (l : list Feedback) :
  (forall f, In f l -> user_get (k_user_id f) db = Some u) ->
  comprehension (feedback_to_dict db) l = Ok (map (fun f => (f, u)) l).
Proof.
  induction l as [|f l IH]; intros Hall; [reflexivity|].
  cbn. unfold feedback_to_dict at 1.
  rewrite (Hall f (or_introl eq_refl)).
  rewrite IH by (intros x Hx; apply Hall; right; exact Hx). reflexivity.
Qed.

Lemma create_feedback_run (now : Z) (data : feedback_json) (st : Store) :
  serve (create_feedback now data) st
  = match kj_user_id data, kj_message data, kj_rating data with
    | Some user_id, Some message, Some rating =>
        if forallb fits_int64 (given user_id ++ given rating)
        then
          match user_id, message, rating with
          | Some user_id, Some message, Some rating =>
              let fb := {| k_id := next_id k_id (feedback st); k_user_id := user_id;
                           k_message := message; k_rating := rating;
                           k_created_at := now |} in
              (match user_get user_id (core st) with
               | None => {| code := 500; content := AServerError AttributeError |}
               | Some u => {| code := 201; content := AFeedback fb u |}
               end,
               with_feedback (feedback st ++ [fb]) st)
          | _, _, _ => ({| code := 500; content := AServerError IntegrityError |}, st)
          end
        else ({| code := 500; content := AServerError OverflowError |}, st)
    | _, _, _ => ({| code := 500; content := AServerError KeyError |}, st)
    end.
Proof.
  unfold create_feedback.
  destruct (kj_user_id data) as [user_id|]; [|reflexivity].
  destruct (kj_message data) as [message|]; [|reflexivity].
  destruct (kj_rating data) as [rating|]; [|reflexivity].
  run_serve. destruct (forallb fits_int64 _); [|reflexivity]. simpl_serve.
  destruct user_id as [user_id|]; [|reflexivity].
  destruct message as [message|]; [|reflexivity].
  destruct rating as [rating|]; [|reflexivity].
  simpl_serve. unfold feedback_to_dict. cbn [k_user_id with_feedback core].
  destruct (user_get user_id (core st)); reflexivity.
Qed.

Lemma list_feedback_run (st : Store) :
  serve list_feedback st
  = (match comprehension (feedback_to_dict (core st))
             (order_by (desc k_created_at) (feedback st)) with
     | Raise e => {| code := 500; content := AServerError e |}
     | Ok dicts => {| code := 200; content := AFeedbackList dicts |}
     end, st).
Proof.
  unfold list_feedback. run_serve. destruct (comprehension _ _); reflexivity.
Qed.

Lemma list_user_feedback_run (user_id : Z) (st : Store) :
  serve (list_user_feedback user_id) st
  = (match comprehension (feedback_to_dict (core st))
             (order_by (desc k_created_at)
                (filter (fun f => k_user_id f =? user_id) (feedback st))) with
     | Raise e => {| code := 500; content := AServerError e |}
     | Ok dicts => {| code := 200; content := AFeedbackList dicts |}
     end, st).
Proof.
  unfold list_user_feedback. run_serve. destruct (comprehension _ _); reflexivity.
Qed.

Lemma feedback_export_csv_run (st : Store) :
  serve feedback_export_csv st
  = (match comprehension (export_line (core st))
             (order_by (asc k_created_at) (feedback st)) with
     | Raise e => {| code := 500; content := AServerError e |}
     | Ok rows => {| code := 200; content := ACsv rows |}
     end, st).
Proof.
  unfold feedback_export_csv. run_serve. destruct (comprehension _ _); reflexivity.
Qed.

(** The feedback of a known user is always listed. *)
Lemma list_user_feedback_known (user_id : Z) (st : Store) (u : User) :
  user_get user_id (core st) = Some u ->
  serve (list_user_feedback user_id) st
  = ({| code := 200;
        content := AFeedbackList
                     (map (fun f => (f, u))
                        (order_by (desc k_created_at)
                           (filter (fun f => k_user_id f =? user_id) (feedback st)))) |},
     st).
Proof.
  intros Hu. rewrite list_user_feedback_run.
  rewrite (feedback_dicts_of_user (core st) u); [reflexivity|].
  intros f Hf. apply order_by_in, filter_In in Hf as [_ Hid].
  apply Z.eqb_eq in Hid. rewrite Hid. exact Hu.
Qed.

(** A row without its user stops every listing that reaches it. *)
Lemma orphan_feedback_raises (db : Database) (first : Feedback -> Feedback -> bool)
      (l : list Feedback) (f : Feedback) :
  In f l -> user_get (k_user_id f) db = None ->
  comprehension (feedback_to_dict db) (order_by first l) = Raise AttributeError.
Proof.
  intros Hin Hnone. apply comprehension_raise.
  - intros x e. apply feedback_to_dict_raise.
  - exists f. split; [apply order_by_in; exact Hin|].
    unfold feedback_to_dict. rewrite Hnone. reflexivity.
Qed.

Lemma export_line_raise (db : Database) (f : Feedback) (e : exn) :
  export_line db f = Raise e -> e = AttributeError.
Proof.
  unfold export_line. destruct (user_get _ db); congruence.
Qed.

Lemma orphan_export_raises (db : Database) (first : Feedback -> Feedback -> bool)
      (l : list Feedback) (f : Feedback) :
  In f l -> user_get (k_user_id f) db = None ->
  comprehension (export_line db) (order_by first l) = Raise AttributeError.
Proof.
  intros Hin Hnone. apply comprehension_raise.
  - intros x e. apply export_line_raise.
  - exists f. split; [apply order_by_in; exact Hin|].
    unfold export_line. rewrite Hnone. reflexivity.
Qed.

(** X11.  [create_feedback] answers 500 and stores nothing when a key is
    missing ([KeyError]); with the three keys present, when the user id or
    the rating is beyond the 64-bit range ([OverflowError]); and with these
    within the range, when a value is null (NOT NULL).  With a user id and a
    rating of the 64-bit range, a message and the user known it answers 201
    and the feedback table is the former one followed by one row with a
    fresh id, the given user, message and rating (the rating is not checked
    against any smaller range) and the time of the call; the other tables
    are as before, and the listing of that user's feedback then answers 200
    and contains the row with its user. *)
Theorem create_feedback_spec (now : Z) (data : feedback_json) (st : Store) :
  let res := serve (create_feedback now data) st in
  ((kj_user_id data = None \/ kj_message data = None \/ kj_rating data = None) ->
   res = ({| code := 500; content := AServerError KeyError |}, st))
  /\ (forall (user_id : option Z) (message : option string) (rating : option Z),
        kj_user_id data = Some user_id -> kj_message data = Some message ->
        kj_rating data = Some rating ->
        (forallb fits_int64 (given user_id ++ given rating) = false ->
         res = ({| code := 500; content := AServerError OverflowError |}, st))
        /\ (forallb fits_int64 (given user_id ++ given rating) = true ->
            user_id = None \/ message = None \/ rating = None ->
            res = ({| code := 500; content := AServerError IntegrityError |}, st)))
  /\ (forall (user_id : Z) (message : string) (rating : Z) (u : User),
        kj_user_id data = Some (Some user_id) ->
        kj_message data = Some (Some message) ->
        kj_rating data = Some (Some rating) ->
        fits_int64 user_id = true -> fits_int64 rating = true ->
        user_get user_id (core st) = Some u ->
        let fb := {| k_id := next_id k_id (feedback st); k_user_id := user_id;
                     k_message := message; k_rating := rating; k_created_at := now |} in
        fst res = {| code := 201; content := AFeedback fb u |}
        /\ feedback (snd res) = feedback st ++ [fb]
        /\ core (snd res) = core st /\ baggage (snd res) = baggage st
        /\ (forall f, In f (feedback st) -> k_id f <> k_id fb)
        /\ exists rows : list Feedback,
             serve (list_user_feedback user_id) (snd res)
             = ({| code := 200; content := AFeedbackList (map (fun f => (f, u)) rows) |},
                snd res)
             /\ In fb rows).
Proof.
  intros res. subst res. rewrite create_feedback_run. split; [|split].
  - intros [H|[H|H]]; rewrite H.
    + reflexivity.
    + destruct (kj_user_id data); reflexivity.
    + destruct (kj_user_id data); [|reflexivity].
      destruct (kj_message data); reflexivity.
  - intros user_id message rating -> -> ->. split.
    + intros ->. reflexivity.
    + intros -> Hnull.
      destruct user_id as [user_id|]; [|reflexivity].
      destruct message as [message|]; [|reflexivity].
      destruct rating as [rating|]; [|reflexivity].
      destruct Hnull as [H|[H|H]]; discriminate H.
  - intros user_id message rating u -> -> -> Hfu Hfr Hu fb.
    cbn [given app forallb]. rewrite Hfu, Hfr. cbn [andb]. cbv zeta. rewrite Hu.
    cbn [fst snd feedback core baggage with_feedback].
    split; [reflexivity|]. split; [reflexivity|]. split; [reflexivity|].
    split; [reflexivity|]. split.
    { intros f Hf. apply (next_id_above k_id) in Hf. cbn [fb k_id]. lia. }
    eexists. split.
    + apply list_user_feedback_known. exact Hu.
    + apply order_by_in, filter_In. split.
      * cbn [feedback with_feedback]. apply in_or_app. right. left. reflexivity.
      * cbn [fb k_user_id]. apply Z.eqb_refl.
Qed.

Lemma create_feedback_spec_witness :
  feedback (snd (serve (create_feedback 7 (review 2 "Smooth flight" 5)) sample_store))
  = [ {| k_id := 1; k_user_id := 2; k_message := "Smooth flight"; k_rating := 5;
         k_created_at := 7 |} ]
  /\ exists rows : list Feedback,
       serve (list_user_feedback 2)
         (snd (serve (create_feedback 7 (review 2 "Smooth flight" 5)) sample_store))
       = ({| code := 200; content := AFeedbackList (map (fun f => (f, traveller)) rows) |},
          snd (serve (create_feedback 7 (review 2 "Smooth flight" 5)) sample_store))
       /\ In {| k_id := 1; k_user_id := 2; k_message := "Smooth flight"; k_rating := 5;
                k_created_at := 7 |} rows.
Proof.
  destruct (create_feedback_spec 7 (review 2 "Smooth flight" 5) sample_store)
    as (_ & _ & H).
  destruct (H 2 "Smooth flight"%string 5 traveller eq_refl eq_refl eq_refl eq_refl
              eq_refl eq_refl)
    as (_ & Hfb & _ & _ & _ & Hlist).
  split; [exact Hfb|exact Hlist].
Defined.

(** A rating beyond the 64-bit range is refused when the row is written. *)
Example create_feedback_rating_too_large :
  serve (create_feedback 7 (review 2 "Smooth flight" (2 ^ 63))) sample_store
  = ({| code := 500; content := AServerError OverflowError |}, sample_store).
Proof. vm_compute. reflexivity. Qed.



(** X13.  [list_feedback] stores nothing.  When every feedback row has its
    user it answers 200 with all rows, latest [created_at] first, each with
    its user; when one row has none it answers 500. *)
Theorem list_feedback_spec (st : Store) :
  let res := serve list_feedback st in
  snd res = st
  /\ ((forall f, In f (feedback st) -> user_get (k_user_id f) (core st) <> None) ->
      exists dicts : list (Feedback * User),
        fst res = {| code := 200; content := AFeedbackList dicts |}
        /\ Permutation (map fst dicts) (feedback st)
        /\ StronglySorted (fun x y => k_created_at y <= k_created_at x) (map fst dicts)
        /\ Forall (fun d => user_get (k_user_id (fst d)) (core st) = Some (snd d)) dicts)
  /\ ((exists f, In f (feedback st) /\ user_get (k_user_id f) (core st) = None) ->
      fst res = {| code := 500; content := AServerError AttributeError |}).
Proof.
  intros res. subst res. rewrite list_feedback_run. cbn [fst snd].
  split; [reflexivity|]. split.
  - intros Hall.
    destruct (feedback_dicts (core st) (order_by (desc k_created_at) (feedback st)))
      as (dicts & Hd & Hmap & Hu).
    { intros f Hf. apply Hall. apply order_by_in in Hf. exact Hf. }
    exists dicts. rewrite Hd, Hmap. split; [reflexivity|].
    split; [apply order_by_perm|]. split; [apply order_by_desc_sorted|exact Hu].
  - intros (f & Hin & Hnone).
    rewrite (orphan_feedback_raises _ _ _ f Hin Hnone). reflexivity.
Qed.

Lemma list_feedback_spec_witness :
  fst (serve list_feedback
         (snd (serve (create_feedback 7 (review 9 "Hello" 5)) sample_store)))
  = {| code := 500; content := AServerError AttributeError |}.
Proof.
  destruct (list_feedback_spec
              (snd (serve (create_feedback 7 (review 9 "Hello" 5)) sample_store)))
    as (_ & _ & H).
  apply H. eexists. split; [left; reflexivity|reflexivity].
Defined.



(** X15.  [feedback_export_csv] stores nothing.  When every feedback row has
    its user it answers 200 with one line for each row, earliest
    [created_at] first, carrying the id, rating, message and time of the row
    and the name and address of its user; when one row has none it answers
    500. *)
Theorem feedback_export_csv_spec (st : Store) :
  let res := serve feedback_export_csv st in
  snd res = st
  /\ ((forall f, In f (feedback st) -> user_get (k_user_id f) (core st) <> None) ->
      exists (fs : list Feedback) (rows : list export_row),
        fst res = {| code := 200; content := ACsv rows |}
        /\ Permutation fs (feedback st)
        /\ StronglySorted (fun x y => k_created_at x <= k_created_at y) fs
        /\ Forall2 (fun f row =>
                      x_id row = k_id f /\ x_rating row = k_rating f
                      /\ x_message row = k_message f
                      /\ x_created_at row = k_created_at f
                      /\ exists u, user_get (k_user_id f) (core st) = Some u
                                   /\ x_user_name row = u_name u
                                   /\ x_user_email row = u_email u) fs rows)
  /\ ((exists f, In f (feedback st) /\ user_get (k_user_id f) (core st) = None) ->
      fst res = {| code := 500; content := AServerError AttributeError |}).
Proof.
  intros res. subst res. rewrite feedback_export_csv_run. cbn [fst snd].
  split; [reflexivity|]. split.
  - intros Hall.
    destruct (comprehension_total (export_line (core st))
                (order_by (asc k_created_at) (feedback st))) as [rows Hrows].
    { intros f Hf. apply order_by_in in Hf. specialize (Hall f Hf).
      unfold export_line. destruct (user_get _ (core st)); [eauto|congruence]. }
    rewrite Hrows. exists (order_by (asc k_created_at) (feedback st)), rows.
    split; [reflexivity|]. split; [apply order_by_perm|].
    split; [apply order_by_asc_sorted|].
    apply comprehension_ok in Hrows.
    induction Hrows as [|f row l rs Hf Hrest IH]; constructor; [|exact IH].
    unfold export_line in Hf.
    destruct (user_get (k_user_id f) (core st)) as [u|]; [|discriminate].
    injection Hf as <-. cbn. repeat split. exists u. auto.
  - intros (f & Hin & Hnone).
    rewrite (orphan_export_raises _ _ _ f Hin Hnone). reflexivity.
Qed.

Lemma feedback_export_csv_spec_witness :
  fst (serve feedback_export_csv
         (snd (serve (create_feedback 7 (review 9 "Hello" 5)) sample_store)))
  = {| code := 500; content := AServerError AttributeError |}.
Proof.
  destruct (feedback_export_csv_spec
              (snd (serve (create_feedback 7 (review 9 "Hello" 5)) sample_store)))
    as (_ & _ & H).
  apply H. eexists. split; [left; reflexivity|reflexivity].
Defined.

(** ** Baggage *)

Lemma baggage_by_tag_none (tag_number : string) (st : Store) :
  baggage_by_tag tag_number st = None <->
  forall bag, In bag (baggage st) -> g_tag_number bag <> tag_number.
Proof.
  unfold baggage_by_tag. split.
  - intros Hnone bag Hin Heq.
    pose proof (find_none _ _ Hnone bag Hin) as Hb. cbn in Hb.
    rewrite Heq, String.eqb_refl in Hb. discriminate.
  - intros Hall. destruct (find _ _) as [bag|] eqn:Hf; [|reflexivity].
    apply find_some in Hf as [Hin Heq]. apply String.eqb_eq in Heq.
    exfalso. exact (Hall bag Hin Heq).
Qed.

Lemma baggage_by_tag_unique (tag_number : string) (st : Store) (bag : Baggage) :
  NoDup (map g_tag_number (baggage st)) ->
  In bag (baggage st) -> g_tag_number bag = tag_number ->
  baggage_by_tag tag_number st = Some bag.
Proof.
  unfold baggage_by_tag. intros Hnd Hin Htag.
  induction (baggage st) as [|b l IH]; [contradiction|].
  cbn in Hnd. inversion Hnd as [|? ? Hnotin Hnd']; subst.
  cbn. destruct (String.eqb_spec (g_tag_number b) (g_tag_number bag)) as [Heq|Hne].
  - destruct Hin as [->|Hin]; [reflexivity|].
    exfalso. apply Hnotin. rewrite Heq. apply in_map. exact Hin.
  - destruct Hin as [->|Hin]; [congruence|]. apply IH; assumption.
Qed.

Lemma create_baggage_run (data : baggage_json) (st : Store) :
  serve (create_baggage data) st
  = match gj_tag_number data with
    | None => ({| code := 500; content := AServerError KeyError |}, st)
    | Some tag =>
        if forallb fits_int64 (given (gj_booking_id data))
        then
          match tag with
          | None => ({| code := 500; content := AServerError IntegrityError |}, st)
          | Some tag_number =>
              match baggage_by_tag tag_number st with
              | Some _ => ({| code := 500; content := AServerError IntegrityError |}, st)
              | None =>
                  let bag := {| g_id := next_id g_id (baggage st);
                                g_tag_number := tag_number;
                                g_booking_id := gj_booking_id data;
                                g_status := match gj_status data with
                                            | Some s => s
                                            | None => "Checked-in"%string
                                            end;
                                g_last_location := match gj_last_location data with
                                                   | Some s => s
                                                   | None => "N/A"%string
                                                   end |} in
                  ({| code := 201; content := ABaggage bag |},
                   with_baggage (baggage st ++ [bag]) st)
              end
          end
        else ({| code := 500; content := AServerError OverflowError |}, st)
    end.
Proof.
  unfold create_baggage.
  destruct (gj_tag_number data) as [[tag_number|]|]; [| |reflexivity];
    run_serve; (destruct (forallb fits_int64 _); [|reflexivity]); simpl_serve;
    [|reflexivity].
  destruct (baggage_by_tag tag_number st); reflexivity.
Qed.

Lemma get_baggage_run (tag_number : string) (st : Store) :
  serve (get_baggage tag_number) st
  = (match baggage_by_tag tag_number st with
     | None => failure 404 "Not found"
     | Some bag => {| code := 200; content := ABaggage bag |}
     end, st).
Proof.
  unfold get_baggage. run_serve. destruct (baggage_by_tag tag_number st); reflexivity.
Qed.

(** X16.  [create_baggage] answers 500 and stores nothing when the tag is
    missing ([KeyError]); with the key present, when the booking id is
    beyond the 64-bit range ([OverflowError]); and with the booking id
    within the range or absent, when the tag is null or already in the
    table.  With a new tag and such a booking id it answers 201 and the
    baggage table is the former one followed by one row with a fresh id,
    whose status and location default to "Checked-in" and "N/A"; the booking
    id is stored without being looked up, and the other tables are as
    before.  [get_baggage] of that tag then answers 200 with the row, the
    answers for other tags are as before, and the same request sent again is
    answered 500 and stores nothing. *)
Theorem create_baggage_spec (data : baggage_json) (st : Store) :
  let res := serve (create_baggage data) st in
  let storable := forallb fits_int64 (given (gj_booking_id data)) in
  (gj_tag_number data = None ->
   res = ({| code := 500; content := AServerError KeyError |}, st))
  /\ (gj_tag_number data <> None -> storable = false ->
      res = ({| code := 500; content := AServerError OverflowError |}, st))
  /\ (gj_tag_number data = Some None -> storable = true ->
      res = ({| code := 500; content := AServerError IntegrityError |}, st))
  /\ (forall (tag_number : string) (old : Baggage),
        gj_tag_number data = Some (Some tag_number) -> storable = true ->
        baggage_by_tag tag_number st = Some old ->
        res = ({| code := 500; content := AServerError IntegrityError |}, st))
  /\ (forall tag_number : string,
        gj_tag_number data = Some (Some tag_number) -> storable = true ->
        baggage_by_tag tag_number st = None ->
        exists bag : Baggage,
          fst res = {| code := 201; content := ABaggage bag |}
          /\ baggage (snd res) = baggage st ++ [bag]
          /\ core (snd res) = core st /\ feedback (snd res) = feedback st
          /\ g_id bag = next_id g_id (baggage st)
          /\ g_tag_number bag = tag_number
          /\ g_booking_id bag = gj_booking_id data
          /\ (gj_status data = None -> g_status bag = "Checked-in"%string)
          /\ (gj_last_location data = None -> g_last_location bag = "N/A"%string)
          /\ (forall s, gj_status data = Some s -> g_status bag = s)
          /\ (forall s, gj_last_location data = Some s -> g_last_location bag = s)
          /\ serve (get_baggage tag_number) (snd res)
             = ({| code := 200; content := ABaggage bag |}, snd res)
          /\ (forall other : string,
                other <> tag_number ->
                fst (serve (get_baggage other) (snd res))
                = fst (serve (get_baggage other) st))
          /\ serve (create_baggage data) (snd res)
             = ({| code := 500; content := AServerError IntegrityError |}, snd res)).
Proof.
  intros res storable. subst res storable. rewrite create_baggage_run.
  split; [intros ->; reflexivity|].
  split.
  { intros Htag ->. destruct (gj_tag_number data); [reflexivity|congruence]. }
  split; [intros -> ->; reflexivity|].
  split; [intros tag_number old -> -> ->; reflexivity|].
  intros tag_number Htag Hfit Hnone. rewrite Htag, Hfit, Hnone. cbv zeta.
  eexists. split; [reflexivity|].
  cbn [fst snd baggage core feedback with_baggage g_id g_tag_number g_booking_id
       g_status g_last_location].
  split; [reflexivity|]. split; [reflexivity|]. split; [reflexivity|].
  split; [reflexivity|]. split; [reflexivity|]. split; [reflexivity|].
  split; [intros ->; reflexivity|]. split; [intros ->; reflexivity|].
  split; [intros s ->; reflexivity|]. split; [intros s ->; reflexivity|].
  unfold baggage_by_tag in Hnone.
  split; [|split].
  - rewrite get_baggage_run. unfold baggage_by_tag, with_baggage. cbn [baggage].
    rewrite find_snoc, Hnone. cbn [g_tag_number]. rewrite String.eqb_refl. reflexivity.
  - intros other Hother. rewrite !get_baggage_run. cbn [fst].
    unfold baggage_by_tag, with_baggage. cbn [baggage].
    rewrite find_snoc. cbn [g_tag_number].
    destruct (find (fun b => (g_tag_number b =? other)%string) (baggage st));
      [reflexivity|].
    destruct (String.eqb_spec tag_number other); [congruence|reflexivity].
  - rewrite create_baggage_run, Htag, Hfit.
    unfold baggage_by_tag, with_baggage. cbn [baggage].
    rewrite find_snoc, Hnone. cbn [g_tag_number]. rewrite String.eqb_refl. reflexivity.
Qed.

Lemma create_baggage_spec_witness :
  baggage (snd (serve (create_baggage (tagged "BG-1")) sample_store))
  = [ {| g_id := 1; g_tag_number := "BG-1"; g_booking_id := None;
         g_status := "Checked-in"; g_last_location := "N/A" |} ]
  /\ exists bag : Baggage,
       serve (get_baggage "BG-1") (snd (serve (create_baggage (tagged "BG-1")) sample_store))
       = ({| code := 200; content := ABaggage bag |},
          snd (serve (create_baggage (tagged "BG-1")) sample_store))
       /\ g_status bag = "Checked-in"%string.
Proof.
  destruct (create_baggage_spec (tagged "BG-1") sample_store) as (_ & _ & _ & _ & H).
  destruct (H "BG-1"%string eq_refl eq_refl eq_refl)
    as (bag & Hfst & Hbags & _ & _ & _ & _ & _ & Hstatus & _ & _ & _ & Hget & _).
  split.
  - rewrite Hbags. f_equal. 
    assert (Hbag : {| code := 201;
                      content := ABaggage {| g_id := 1; g_tag_number := "BG-1";
                                             g_booking_id := None;
                                             g_status := "Checked-in";
                                             g_last_location := "N/A" |} |}
                   = {| code := 201; content := ABaggage bag |})
      by (rewrite <- Hfst; reflexivity).
    injection Hbag as <-. reflexivity.
  - exists bag. split; [exact Hget|exact (Hstatus eq_refl)].
Defined.

(** A booking id beyond the 64-bit range is refused when the row is
    written. *)
Example create_baggage_booking_too_large :
  serve (create_baggage {| gj_tag_number := Some (Some "BG-9"%string);
                           gj_booking_id := Some (2 ^ 63);
                           gj_status := None; gj_last_location := None |}) sample_store
  = ({| code := 500; content := AServerError OverflowError |}, sample_store).
Proof. vm_compute. reflexivity. Qed.

Lemma create_bags_cons (data : baggage_json) (reqs : list baggage_json) (st : Store) :
  create_bags (data :: reqs) st = create_bags reqs (snd (serve (create_baggage data) st)).
Proof. reflexivity. Qed.

(** X17.  The baggage table keeps its keys: when ids and tag numbers are
    pairwise distinct they still are after any sequence of registrations,
    whatever the requests carry, and no registration removes or changes a
    stored row. *)
Theorem baggage_keyed_preserved (reqs : list baggage_json) (st : Store) :
  baggage_keyed st ->
  baggage_keyed (create_bags reqs st)
  /\ exists added : list Baggage, baggage (create_bags reqs st) = baggage st ++ added.
Proof.
  revert st. induction reqs as [|data reqs IH]; intros st Hk.
  - split; [exact Hk|]. exists []. cbn. rewrite app_nil_r. reflexivity.
  - rewrite create_bags_cons, create_baggage_run.
    destruct (gj_tag_number data) as [tag|]; [|apply IH; exact Hk].
    destruct (forallb fits_int64 _); [|apply IH; exact Hk].
    destruct tag as [tag_number|]; [|apply IH; exact Hk].
    destruct (baggage_by_tag tag_number st) eqn:Htag; [apply IH; exact Hk|].
    cbv zeta. cbn [snd].
    match goal with
    | |- context [with_baggage (baggage st ++ [?b]) st] => set (bag := b)
    end.
    destruct (IH (with_baggage (baggage st ++ [bag]) st)) as [Hk' [added Hadded]].
    { destruct Hk as [Hid Htags]. unfold baggage_keyed, with_baggage. cbn [baggage].
      split.
      - apply NoDup_next_id; [reflexivity|exact Hid].
      - apply NoDup_map_snoc; [exact Htags|].
        intros v Hv. cbn [bag g_tag_number].
        apply (proj1 (baggage_by_tag_none tag_number st) Htag). exact Hv. }
    split; [exact Hk'|].
    exists (bag :: added). rewrite Hadded. cbn [baggage with_baggage].
    rewrite <- app_assoc. reflexivity.
Qed.

Lemma baggage_keyed_preserved_witness :
  baggage_keyed (create_bags [tagged "BG-1"; tagged "BG-1"; tagged "BG-2"] sample_store).
Proof.
  apply baggage_keyed_preserved.
  split; cbn; constructor.
Defined.

(** X18.  [get_baggage] stores nothing.  It answers 404 exactly when no row
    carries the tag; with distinct tags a row of the table is the answer for
    its own tag, so that every registered bag can be read back. *)
Theorem get_baggage_spec (tag_number : string) (st : Store) :
  let res := serve (get_baggage tag_number) st in
  snd res = st
  /\ (fst res = failure 404 "Not found" <->
      forall bag, In bag (baggage st) -> g_tag_number bag <> tag_number)
  /\ (forall bag : Baggage,
        NoDup (map g_tag_number (baggage st)) ->
        In bag (baggage st) -> g_tag_number bag = tag_number ->
        fst res = {| code := 200; content := ABaggage bag |}).
Proof.
  intros res. subst res. rewrite get_baggage_run. cbn [fst snd].
  split; [reflexivity|]. split.
  - rewrite <- baggage_by_tag_none.
    destruct (baggage_by_tag tag_number st); split; intros H;
      first [discriminate H|reflexivity].
  - intros bag Hnd Hin Htag.
    rewrite (baggage_by_tag_unique tag_number st bag Hnd Hin Htag). reflexivity.
Qed.

Lemma get_baggage_spec_witness :
  fst (serve (get_baggage "BG-2")
         (create_bags [tagged "BG-1"; tagged "BG-2"] sample_store))
  = {| code := 200;
       content := ABaggage {| g_id := 2; g_tag_number := "BG-2"; g_booking_id := None;
                              g_status := "Checked-in"; g_last_location := "N/A" |} |}.
Proof.
  destruct (get_baggage_spec "BG-2"
              (create_bags [tagged "BG-1"; tagged "BG-2"] sample_store)) as (_ & _ & H).
  apply H.
  - cbn. repeat constructor; cbn; intuition discriminate.
  - right. left. reflexivity.
  - reflexivity.
Defined.

(** ** Seats sold and seats left *)

Lemma seats_booked_snoc (flight_id : Z) (bs : list Booking) (b : Booking) :
  seats_booked flight_id (bs ++ [b])
  = seats_booked flight_id bs
    + (if b_flight_id b =? flight_id then b_num_seats b else 0).
Proof.
  unfold seats_booked. induction bs as [|x bs IH]; cbn.
  - destruct (b_flight_id b =? flight_id); cbn; lia.
  - destruct (b_flight_id x =? flight_id); cbn; rewrite IH; lia.
Qed.

Lemma seats_booked_none (flight_id : Z) (bs : list Booking) :
  (forall b, In b bs -> b_flight_id b <> flight_id) -> seats_booked flight_id bs = 0.
Proof.
  unfold seats_booked. induction bs as [|x bs IH]; intros Hall; [reflexivity|].
  cbn. destruct (Z.eqb_spec (b_flight_id x) flight_id) as [Heq|Hne].
  - exfalso. exact (Hall x (or_introl eq_refl) Heq).
  - apply IH. intros b Hb. apply Hall. right. exact Hb.
Qed.

(** A replaced row keeps every key findable. *)
Lemma find_replace_row_none {A : Type} (id : A -> Z) (k k' : Z) (new : A) (rows : list A) :
  id new = k ->
  find (fun x => id x =? k') (replace_row id k new rows) = None
  <-> find (fun x => id x =? k') rows = None.
Proof.
  intros Hnew. induction rows as [|r rs IH]; [reflexivity|].
  cbn. destruct (Z.eqb_spec (id r) k) as [Heq|Hne]; cbn.
  - rewrite Hnew, Heq. destruct (k =? k'); [split; discriminate|reflexivity].
  - destruct (id r =? k'); [reflexivity|exact IH].
Qed.

Lemma In_replace_row_keyed {A : Type} (id : A -> Z) (new old : A) (rows : list A) (x : A) :
  NoDup (map id rows) -> In old rows ->
  In x (replace_row id (id old) new rows) ->
  x = new \/ (In x rows /\ id x <> id old).
Proof.
  intros Hnd Hold Hx.
  destruct (replace_row_split id new old rows Hnd Hold) as (l1 & l2 & Hrows & Hrep).
  rewrite Hrep in Hx. rewrite Hrows in Hnd |- *.
  rewrite map_app in Hnd. cbn [map] in Hnd. apply NoDup_remove_2 in Hnd.
  apply in_app_or in Hx as [Hx|[Hx|Hx]]; [right|left; auto|right].
  - split; [apply in_or_app; left; exact Hx|].
    intros Heq. apply Hnd. apply in_or_app. left. rewrite <- Heq. apply in_map. exact Hx.
  - split; [apply in_or_app; right; right; exact Hx|].
    intros Heq. apply Hnd. apply in_or_app. right. rewrite <- Heq. apply in_map. exact Hx.
Qed.

Lemma seats_balanced_create_flight (int_of_str : string -> option Z) (env : Env)
      (data : flight_json) (db : Database) :
  seats_balanced db ->
  seats_balanced (snd (run_request (create_flight int_of_str env data) db)).
Proof.
  intros Hbal. rewrite create_flight_run.
  destruct (negb (required_flight_fields data)); [exact Hbal|].
  destruct (negb (code_in _ _) || negb (code_in _ _))%bool; [exact Hbal|].
  destruct (text (fj_source data) =? text (fj_destination data))%string; [exact Hbal|].
  destruct (py_int int_of_str (fj_total_seats data)) as [total|e]; [|exact Hbal].
  cbv zeta. destruct (fits_int64 total); [|exact Hbal]. cbn [snd].
  match goal with
  | |- seats_balanced (with_flights (flights db ++ [?x]) db) => set (f := x)
  end.
  destruct Hbal as (Hnd & Hon & Hsum).
  unfold seats_balanced, flight_get, with_flights in *. cbn [flights bookings].
  split; [apply NoDup_next_id; [reflexivity|exact Hnd]|]. split.
  - intros b Hb. rewrite find_snoc. specialize (Hon b Hb).
    destruct (find _ (flights db)); [discriminate|congruence].
  - intros g Hg. apply in_app_or in Hg as [Hg|[<-|[]]]; [apply Hsum; exact Hg|].
    cbn [f f_available_seats f_total_seats f_id].
    rewrite seats_booked_none; [lia|].
    intros b Hb Heq. specialize (Hon b Hb).
    destruct (find (fun x => f_id x =? b_flight_id b) (flights db)) as [g|] eqn:Hfind;
      [|congruence].
    apply find_id_some in Hfind as [Hid Hin].
    apply (next_id_above f_id) in Hin. lia.
Qed.

Lemma seats_balanced_update_flight (env : Env) (flight_id : Z)
      (data : flight_update_json) (db : Database) :
  uj_total_seats data = None -> uj_available_seats data = None ->
  seats_balanced db ->
  seats_balanced (snd (run_request (update_flight env flight_id data) db)).
Proof.
  intros Ht Ha Hbal. rewrite update_flight_run.
  destruct (fits_int64 flight_id); [|exact Hbal].
  destruct (flight_get flight_id db) as [flight|] eqn:Hfg; [|exact Hbal].
  destruct (bad_code (uj_source data) _); [exact Hbal|].
  destruct (bad_code (uj_destination data) _); [exact Hbal|].
  destruct (forallb fits_int64 _); [|exact Hbal].
  cbn [snd]. destruct Hbal as (Hnd & Hon & Hsum).
  apply find_id_some in Hfg as [Hid Hin].
  unfold seats_balanced, flight_get, with_flights in *. cbn [flights bookings].
  split; [rewrite replace_row_ids by reflexivity; exact Hnd|]. split.
  - intros b Hb. rewrite find_replace_row_none by reflexivity. apply Hon. exact Hb.
  - intros g Hg.
    apply In_replace_row_keyed in Hg as [->|[Hg _]]; [|apply Hsum; exact Hg|exact Hnd|exact Hin].
    unfold apply_update. cbn [f_available_seats f_total_seats f_id].
    rewrite Ht, Ha. cbn [or_keep]. apply Hsum. exact Hin.
Qed.

Lemma seats_balanced_create_booking (int_of_str : string -> option Z) (now : Z)
      (data : booking_json) (db : Database) :
  seats_balanced db ->
  seats_balanced (snd (run_request (create_booking int_of_str now data) db)).
Proof.
  intros Hbal.
  destruct (Z.eq_dec
              (status (fst (run_request (create_booking int_of_str now data) db))) 201)
    as [H201|Hne].
  2:{ rewrite create_booking_failure by exact Hne. exact Hbal. }
  destruct (create_booking_201 _ _ _ _ H201)
    as (uid & fid & n & user & flight & Hu & Hug & Hf & Hfg & Hn).
  rewrite (create_booking_run _ _ _ _ _ _ _ _ _ Hu Hug Hf Hfg Hn) in *.
  destruct (n <=? 0); [exact Hbal|].
  destruct (f_available_seats flight <? n); [exact Hbal|].
  destruct (calculate_price user n) as [[[base final] reason]|e]; [|exact Hbal].
  cbv zeta. destruct (forallb fits_int64 _); [|exact Hbal].
  cbn [snd]. destruct Hbal as (Hnd & Hon & Hsum).
  apply find_id_some in Hfg as Hid. destruct Hid as [Hid Hin].
  unfold seats_balanced, booked, flight_get, with_bookings, with_flights in *.
  cbn [flights bookings].
  split; [rewrite replace_row_ids by reflexivity; exact Hnd|]. split.
  - intros b Hb. rewrite find_replace_row_none by reflexivity.
    apply in_app_or in Hb as [Hb|[<-|[]]]; [apply Hon; exact Hb|].
    cbn [b_flight_id]. rewrite Hid, Hfg. discriminate.
  - intros g Hg. rewrite seats_booked_snoc. cbn [b_flight_id b_num_seats].
    apply In_replace_row_keyed in Hg as [->|[Hg Hother]]; [| |exact Hnd|exact Hin].
    + cbn [set_available_seats f_available_seats f_total_seats f_id].
      rewrite Z.eqb_refl. specialize (Hsum flight Hin). lia.
    + replace (f_id flight =? f_id g) with false
        by (symmetry; apply Z.eqb_neq; congruence).
      specialize (Hsum g Hg). lia.
Qed.

(** X19.  Seats are conserved.  Starting from a state in which flights have
    distinct ids, every booking is on a stored flight and each flight's
    [available_seats] plus the seats of its bookings is its [total_seats]
    (the empty database is one), the same holds after any sequence of flight
    creations, bookings, and flight updates that set neither total_seats nor
    available_seats, whatever else the requests carry and whether they
    succeed or not. *)
Theorem seats_balanced_run_calls (int_of_str : string -> option Z) (cs : list api_call)
        (db : Database) :
  Forall leaves_counters cs ->
  seats_balanced db ->
  seats_balanced (run_calls int_of_str cs db).
Proof.
  intros Hcs. revert db. unfold run_calls.
  induction Hcs as [|c cs Hc Hcs IH]; intros db Hbal; [exact Hbal|].
  cbn [fold_left]. apply IH.
  destruct c as [env data|env flight_id data|now data]; cbn [run_call].
  - apply seats_balanced_create_flight. exact Hbal.
  - destruct Hc as [Ht Ha]. apply seats_balanced_update_flight; assumption.
  - apply seats_balanced_create_booking. exact Hbal.
Qed.

Lemma seats_balanced_run_calls_witness :
  seats_balanced (run_calls ascii_decimal
                    [CreateFlight sample_env (new_flight "DEL" "BOM" (PInt 10));
                     CreateBooking 0 (book 2 1 (Some (PInt 3)));
                     UpdateFlight sample_env 1 delay;
                     CreateBooking 5 (book 1 2 None)]
                    sample_db).
Proof.
  apply (seats_balanced_run_calls ascii_decimal).
  - repeat constructor.
  - split; [|split].
    + cbn. repeat constructor. intros [].
    + intros b [].
    + intros f [<-|[]]. reflexivity.
Defined.

(** The counters after the calls of the example: three of the ten seats of
    flight 1 and one of flight 2 are sold. *)
Example seats_after_bookings :
  map (fun f => (f_id f, f_available_seats f, f_total_seats f))
    (flights (run_calls ascii_decimal
                [CreateFlight sample_env (new_flight "DEL" "BOM" (PInt 10));
                 CreateBooking 0 (book 2 1 (Some (PInt 3)));
                 UpdateFlight sample_env 1 delay;
                 CreateBooking 5 (book 1 2 None)]
                sample_db))
  = [(1, 7, 10); (2, 9, 10)].
Proof. vm_compute. reflexivity. Qed.

(** ** Updating a flight *)

(** X20.  [update_flight] checks each airport code it is given but never
    compares them: for a stored flight, a code [c] of the airports file and
    a body that sets source and destination to [c] (its seat counts, if any,
    within the 64-bit range), the answer is 200 and the flight is stored
    with both ends at [c], the ids of the table and the other tables as
    before, while [create_flight] answers 400 to every request with these
    two ends and stores nothing. *)
Theorem update_flight_same_airports (int_of_str : string -> option Z) (env : Env)
        (flight_id : Z) (data : flight_update_json) (db : Database)
        (flight : Flight) (c : string) :
  fits_int64 flight_id = true ->
  flight_get flight_id db = Some flight ->
  uj_source data = Some c -> uj_destination data = Some c ->
  In c (valid_codes env) ->
  forallb fits_int64 (given (uj_total_seats data) ++ given (uj_available_seats data))
  = true ->
  let res := run_request (update_flight env flight_id data) db in
  (exists flight' : Flight,
      fst res = {| status := 200; body := BFlight flight' |}
      /\ flight_get flight_id (snd res) = Some flight'
      /\ f_id flight' = flight_id
      /\ f_source flight' = c /\ f_destination flight' = c
      /\ map f_id (flights (snd res)) = map f_id (flights db)
      /\ (forall other : Z, other <> flight_id ->
                             flight_get other (snd res) = flight_get other db)
      /\ users (snd res) = users db /\ bookings (snd res) = bookings db)
  /\ (forall fdata : flight_json,
        fj_source fdata = Some c -> fj_destination fdata = Some c ->
        status (fst (run_request (create_flight int_of_str env fdata) db)) = 400
        /\ snd (run_request (create_flight int_of_str env fdata) db) = db).
Proof.
  intros Hfit Hfg Hs Hd Hc Hseats res. subst res. apply code_in_iff in Hc.
  rewrite update_flight_run, Hfit, Hfg, Hs, Hd. cbn [bad_code]. rewrite Hc, Hseats.
  cbn [negb fst snd].
  apply find_id_some in Hfg as Hid. destruct Hid as [Hid _].
  split.
  - exists (apply_update data flight). split; [reflexivity|].
    unfold flight_get, with_flights. cbn [flights users bookings]. rewrite Hid.
    split; [apply find_replace_row with (old := flight); [exact Hfg|exact Hid]|].
    unfold apply_update at 1 2 3. cbn [f_id f_source f_destination].
    rewrite Hs, Hd. cbn [or_keep].
    split; [exact Hid|]. split; [reflexivity|]. split; [reflexivity|].
    split; [apply replace_row_ids; exact Hid|].
    split; [|split; reflexivity].
    intros other Hother. apply find_replace_row_other; [exact Hid|exact Hother].
  - intros fdata Hfs Hfd. rewrite create_flight_run.
    destruct (negb (required_flight_fields fdata)); [split; reflexivity|].
    rewrite Hfs, Hfd. cbn [text]. rewrite Hc. cbn [negb orb].
    rewrite String.eqb_refl. split; reflexivity.
Qed.

Lemma update_flight_same_airports_witness :
  exists flight' : Flight,
    flight_get 1 (snd (run_request (update_flight sample_env 1 (reroute "DEL" "DEL"))
                         sample_db))
    = Some flight'
    /\ f_source flight' = "DEL"%string /\ f_destination flight' = "DEL"%string.
Proof.
  destruct (update_flight_same_airports ascii_decimal sample_env 1 (reroute "DEL" "DEL")
              sample_db del_bom "DEL" eq_refl eq_refl eq_refl eq_refl) as [H _].
  - left. reflexivity.
  - reflexivity.
  - destruct H as (flight' & _ & Hget & _ & Hs & Hd & _). exists flight'. auto.
Defined.

(** A seat count beyond the 64-bit range is refused when the row is
    written, and so is a flight id beyond it when the flight is looked
    up. *)
Example update_flight_too_large :
  run_request (update_flight sample_env 1 (set_available (2 ^ 63))) sample_db
  = ({| status := 500; body := BServerError OverflowError |}, sample_db)
  /\ run_request (update_flight sample_env (2 ^ 63) delay) sample_db
     = ({| status := 500; body := BServerError OverflowError |}, sample_db).
Proof. split; vm_compute; reflexivity. Qed.

(** ** Listing the flights *)

Lemma In_remove_row {A : Type} (id : A -> Z) (k : Z) (rows : list A) (x : A) :
  NoDup (map id rows) ->
  In x (remove_row id k rows) <-> In x rows /\ id x <> k.
Proof.
  induction rows as [|r rs IH]; intros Hnd; [cbn; tauto|].
  cbn in Hnd. inversion Hnd as [|? ? Hnotin Hnd']; subst.
  cbn. destruct (Z.eqb_spec (id r) k) as [Heq|Hne].
  - split.
    + intros Hx. split; [right; exact Hx|].
      intros Hk. apply Hnotin. rewrite Heq, <- Hk. apply in_map. exact Hx.
    + intros [[->|Hx] Hk]; [congruence|exact Hx].
  - cbn. rewrite (IH Hnd'). split.
    + intros [->|[Hx Hk]]; auto.
    + intros [[->|Hx] Hk]; auto.
Qed.

Lemma In_replace_row_new {A : Type} (id : A -> Z) (k : Z) (new old : A) (rows : list A) :
  find (fun x => id x =? k) rows = Some old -> In new (replace_row id k new rows).
Proof.
  intros Hf. destruct (replace_row_found id k new old rows Hf) as (l1 & l2 & _ & _ & ->).
  apply in_or_app. right. left. reflexivity.
Qed.

(** X21.  [get_flights] stores nothing and lists the stored flights in the
    order of the table.  After a [create_flight] answered 201 the listing is
    the old one followed by the flight of the answer; after an
    [update_flight] answered 200 it has the same ids in the same order and
    holds the flight of the answer; after a [delete_flight] answered 200 on
    a table with distinct ids it holds exactly the other flights. *)
Theorem get_flights_after_writes (int_of_str : string -> option Z) (env : Env)
        (db : Database) :
  serve get_flights db = ({| code := 200; content := AFlights (flights db) |}, db)
  /\ (forall (data : flight_json) (f : Flight),
        fst (run_request (create_flight int_of_str env data) db)
        = {| status := 201; body := BFlight f |} ->
        fst (serve get_flights (snd (run_request (create_flight int_of_str env data) db)))
        = {| code := 200; content := AFlights (flights db ++ [f]) |})
  /\ (forall (flight_id : Z) (data : flight_update_json) (f : Flight),
        fst (run_request (update_flight env flight_id data) db)
        = {| status := 200; body := BFlight f |} ->
        exists fs : list Flight,
          fst (serve get_flights (snd (run_request (update_flight env flight_id data) db)))
          = {| code := 200; content := AFlights fs |}
          /\ map f_id fs = map f_id (flights db) /\ In f fs)
  /\ (forall flight_id : Z,
        NoDup (map f_id (flights db)) ->
        code (fst (serve (delete_flight flight_id) db)) = 200 ->
        exists fs : list Flight,
          fst (serve get_flights (snd (serve (delete_flight flight_id) db)))
          = {| code := 200; content := AFlights fs |}
          /\ forall f, In f fs <-> In f (flights db) /\ f_id f <> flight_id).
Proof.
  assert (Hrun : forall d, serve get_flights d
                           = ({| code := 200; content := AFlights (flights d) |}, d))
    by reflexivity.
  split; [apply Hrun|]. split; [|split].
  - intros data f. rewrite create_flight_run.
    destruct (negb (required_flight_fields data)); [discriminate|].
    destruct (negb (code_in _ _) || negb (code_in _ _))%bool; [discriminate|].
    destruct (text (fj_source data) =? text (fj_destination data))%string; [discriminate|].
    destruct (py_int int_of_str (fj_total_seats data)) as [total|e]; [|discriminate].
    cbv zeta. destruct (fits_int64 total); [|discriminate].
    cbn [fst snd]. intros Hf. rewrite Hrun. cbn [fst flights with_flights].
    congruence.
  - intros flight_id data f. rewrite update_flight_run.
    destruct (fits_int64 flight_id); [|discriminate].
    destruct (flight_get flight_id db) as [flight|] eqn:Hfg; [|discriminate].
    destruct (bad_code (uj_source data) _); [discriminate|].
    destruct (bad_code (uj_destination data) _); [discriminate|].
    destruct (forallb fits_int64 _); [|discriminate].
    cbn [fst snd]. intros Hf. rewrite Hrun. cbn [fst flights with_flights].
    eexists. split; [reflexivity|].
    apply find_id_some in Hfg as Hid. destruct Hid as [Hid _]. split.
    + apply replace_row_ids. reflexivity.
    + replace f with (apply_update data flight) by congruence.
      rewrite Hid. apply In_replace_row_new with (old := flight). exact Hfg.
  - intros flight_id Hnd. rewrite delete_flight_run.
    destruct (flight_get flight_id db) as [flight|] eqn:Hfg; [|discriminate].
    cbn [fst snd]. intros _. rewrite Hrun. cbn [fst flights with_flights].
    eexists. split; [reflexivity|].
    apply find_id_some in Hfg as [Hid _]. rewrite Hid.
    intros f. apply In_remove_row. exact Hnd.
Qed.

Lemma get_flights_after_writes_witness :
  exists fs : list Flight,
    fst (serve get_flights (snd (serve (delete_flight 1) sample_db)))
    = {| code := 200; content := AFlights fs |}
    /\ forall f, In f fs <-> In f (flights sample_db) /\ f_id f <> 1.
Proof.
  destruct (get_flights_after_writes ascii_decimal sample_env sample_db) as (_ & _ & _ & H).
  apply H.
  - cbn. repeat constructor. intros [].
  - reflexivity.
Defined.

(** ** Reading a user back *)




(** ** The admin summary *)

Lemma filter_split_length {A : Type} (p : A -> bool) (l : list A) :
  (List.length (filter p l) + List.length (filter (fun x => negb (p x)) l))%nat
  = List.length l.
Proof.
  induction l as [|x l IH]; [reflexivity|].
  cbn. destruct (p x); cbn; lia.
Qed.

(** X23.  [admin_summary] stores nothing and always answers 200.  Its
    totals are the sizes of the tables; the passengers are the users whose
    role is "passenger", the employees all other users (admins included),
    and the two add up to the users. *)
Theorem admin_summary_spec (st : Store) :
  exists s : summary,
    serve admin_summary st = ({| code := 200; content := ASummary s |}, st)
    /\ total_users s = count (users (core st))
    /\ total_passengers s
       = count (filter (fun u => (u_role u =? "passenger")%string) (users (core st)))
    /\ total_employees s = count (filter not_passenger (users (core st)))
    /\ total_users s = total_passengers s + total_employees s
    /\ total_flights s = count (flights (core st))
    /\ total_bookings s = count (bookings (core st))
    /\ total_feedback s = count (feedback st).
Proof.
  eexists. split; [reflexivity|].
  cbn [total_users total_passengers total_employees total_flights total_bookings
       total_feedback working].
  assert (Hsplit : count (users (core st))
                   = count (filter (fun u => (u_role u =? "passenger")%string)
                              (users (core st)))
                     + count (filter not_passenger (users (core st)))).
  { unfold count, not_passenger.
    rewrite <- (filter_split_length (fun u => (u_role u =? "passenger")%string)
                  (users (core st))).
    lia. }
  split; [reflexivity|]. split; [reflexivity|]. split; [lia|]. split; [lia|].
  repeat split.
Qed.

(** ** The code as a number *)





(** The same code presented as text is accepted. *)
Example otp_sent_as_text :
  status (fst (run_request
                 (register ascii_decimal (signup "cleo@mail.com" PNone (PStr "000042")))
                 (snd (run_request (request_otp 500 42 otp_request) sample_db))))
  = 201.
Proof. vm_compute. reflexivity. Qed.

(** ** The role of a registered user *)

Lemma register_role_witness :
  exists u : User,
    body (fst (run_request
                 (register ascii_decimal (signup "Admin@Mail.com" PNone (PStr "123456")))
                 otp_db))
    = BUser u
    /\ u_role u = "admin"%string.
Proof.
  destruct (register_role ascii_decimal (signup "Admin@Mail.com" PNone (PStr "123456"))
              otp_db eq_refl) as (u & Hbody & _ & Hadmin & _).
  exists u. split; [exact Hbody|].
  apply Hadmin. vm_compute in Hbody. injection Hbody as <-. reflexivity.
Defined.
